(** * InferBench lifecycle core: registry, SLURM orchestrator, managers

    A shallow embedding of the lifecycle-orchestration code of the
    InferBench framework (src/inferbench/core/models.py, core/slurm.py,
    core/registry.py, servers/manager.py, clients/manager.py) and the
    properties of it that the specification states.

    Conventions.
    - Python [str] values are [string]s of 8-bit characters; the methods
      used by the code ([upper], [strip], [split], [startswith],
      [endswith], [in]) are defined on them as CPython defines them on
      code points below 128, with the Latin-1 white space of [str.isspace].
    - A Python [dict] is an insertion-ordered association list with unique
      keys ([Dict]).
    - [datetime] values are integers (microseconds); [datetime.now()] is an
      explicit argument of the operation that reads the clock.  The one
      computation on floats, the age of a service in hours, is done in
      [Float] with the rounding of IEEE 754 doubles.
    - Exceptions are values of [exn]; a function that can raise returns
      [result A].  External commands and files are explicit inputs. *)

From Stdlib Require Import String Ascii List ZArith Bool Arith Lia DecimalString.
Import ListNotations.
Local Open Scope string_scope.

Set Implicit Arguments.

(* ===================================================================== *)
(** ** Python built-ins on strings *)
(* ===================================================================== *)

Module Py.

Definition is_ascii_lower (c : ascii) : bool :=
  (97 <=? nat_of_ascii c)%nat && (nat_of_ascii c <=? 122)%nat.

Definition upper_char (c : ascii) : ascii :=
  if is_ascii_lower c then ascii_of_nat (nat_of_ascii c - 32) else c.

(** [s.upper()] *)
Fixpoint upper (s : string) : string :=
  match s with
  | EmptyString => EmptyString
  | String c t => String (upper_char c) (upper t)
  end.

(** [s.startswith(p)] *)
Definition startswith (s p : string) : bool := String.prefix p s.

(** [s.endswith(suf)]: some suffix of [s] is [suf]. *)
Fixpoint endswith (s suf : string) : bool :=
  String.eqb s suf ||
  match s with
  | EmptyString => false
  | String _ t => endswith t suf
  end.

(** [c.isspace()] for a one-character [str], code points below 256. *)
Definition isspace (c : ascii) : bool :=
  let n := nat_of_ascii c in
  ((9 <=? n) && (n <=? 13) || (28 <=? n) && (n <=? 32)
   || (n =? 133) || (n =? 160))%nat.

Fixpoint lstrip (s : string) : string :=
  match s with
  | EmptyString => EmptyString
  | String c t => if isspace c then lstrip t else s
  end.

Fixpoint rstrip (s : string) : string :=
  match s with
  | EmptyString => EmptyString
  | String c t =>
      match rstrip t with
      | EmptyString => if isspace c then EmptyString else String c EmptyString
      | r => String c r
      end
  end.

(** [s.strip()] *)
Definition strip (s : string) : string := rstrip (lstrip s).

(** [s.split(sep)] for a one-character separator: never the empty list. *)
Fixpoint split (sep : ascii) (s : string) : list string :=
  match s with
  | EmptyString => [EmptyString]
  | String c t =>
      if Ascii.eqb c sep then EmptyString :: split sep t
      else match split sep t with
           | h :: r => String c h :: r
           | [] => [String c EmptyString]
           end
  end.


(** [c in s] for a one-character [c]. *)
Fixpoint contains_char (c : ascii) (s : string) : bool :=
  match s with
  | EmptyString => false
  | String c' t => Ascii.eqb c c' || contains_char c t
  end.

(** Truth value of a [str]: the empty string is false. *)
Definition truthy (s : string) : bool :=
  match s with EmptyString => false | _ => true end.

(** [s if s else None] *)
Definition nonempty (s : string) : option string :=
  if truthy s then Some s else None.

(** [s[n:]] *)
Fixpoint drop (n : nat) (s : string) : string :=
  match n, s with
  | O, _ => s
  | S n', String _ t => drop n' t
  | S _, EmptyString => EmptyString
  end.

(** The line feed, ["\n"]. *)
Definition newline : ascii := ascii_of_nat 10.

(** [x in xs] for a list of strings. *)
Definition mem (x : string) (xs : list string) : bool :=
  existsb (String.eqb x) xs.

(** [\d] on code points below 256. *)
Definition isdigit (c : ascii) : bool :=
  (48 <=? nat_of_ascii c)%nat && (nat_of_ascii c <=? 57)%nat.

Fixpoint all_digits (s : string) : bool :=
  match s with
  | EmptyString => true
  | String c t => isdigit c && all_digits t
  end.

Definition is_ascii_upper (c : ascii) : bool :=
  (65 <=? nat_of_ascii c)%nat && (nat_of_ascii c <=? 90)%nat.

Definition lower_char (c : ascii) : ascii :=
  if is_ascii_upper c then ascii_of_nat (nat_of_ascii c + 32) else c.

(** [s.lower()] *)
Fixpoint lower (s : string) : string :=
  match s with
  | EmptyString => EmptyString
  | String c t => String (lower_char c) (lower t)
  end.

(** The double quote as a one-character string. *)
Definition dquote : string := String (ascii_of_nat 34) EmptyString.

(** [sep.join(parts)] *)
Fixpoint join (sep : string) (parts : list string) : string :=
  match parts with
  | [] => EmptyString
  | [p] => p
  | p :: rest => p ++ sep ++ join sep rest
  end.

(** [xs.append(x)] and [xs.extend(ys)], as the lists they leave. *)
Definition append {A : Type} (xs : list A) (x : A) : list A := (xs ++ [x])%list.
Definition extend {A : Type} (xs ys : list A) : list A := (xs ++ ys)%list.

(** [str(n)] for an [int]. *)
Definition str_int (z : Z) : string := NilZero.string_of_int (Z.to_int z).

End Py.

(* ===================================================================== *)
(** ** Exceptions *)
(* ===================================================================== *)

(** The exception classes of core/exceptions.py that the modelled code
    raises, with the constructor arguments they are built from, and the
    built-in exceptions it meets.  The only [TypeError] met is that of
    [Path(v)] for a [v] that is not a path; it carries the name of the type
    of [v]. *)
Inductive exn : Type :=
| ValueError (msg : string)
| IndexError
| OSError
| TypeError (type_name : string)
| ServiceNotFoundError (service_id : string)
| ClientNotFoundError (run_id : string)
| ServiceStopError (service_id reason : string)
| SlurmError (operation reason : string).

Inductive result (A : Type) : Type :=
| Ok (a : A)
| Raise (e : exn).
Arguments Ok {A} a.
Arguments Raise {A} e.

(** [InferBenchError.__init__] passes the formatted message to
    [Exception.__init__], so [str(e)] is that message. *)
Definition str_exn (e : exn) : string :=
  match e with
  | ValueError msg => msg
  | IndexError => "list index out of range"
  | OSError => "OSError"
  | TypeError n => "expected str, bytes or os.PathLike object, not " ++ n
  | ServiceNotFoundError i => "Service '" ++ i ++ "' not found"
  | ClientNotFoundError i => "Client run '" ++ i ++ "' not found"
  | ServiceStopError i r => "Failed to stop service '" ++ i ++ "': " ++ r
  | SlurmError op r => "SLURM " ++ op ++ " failed: " ++ r
  end.

(* ===================================================================== *)
(** ** core/models.py *)
(* ===================================================================== *)

Module ServiceStatus.
Inductive t : Type :=
| PENDING | STARTING | RUNNING | STOPPING | STOPPED | ERROR | UNKNOWN.

Definition eqb (a b : t) : bool :=
  match a, b with
  | PENDING, PENDING | STARTING, STARTING | RUNNING, RUNNING
  | STOPPING, STOPPING | STOPPED, STOPPED | ERROR, ERROR
  | UNKNOWN, UNKNOWN => true
  | _, _ => false
  end.

(** [status in [ServiceStatus.STOPPED, ServiceStatus.ERROR]] *)
Definition in_stopped_error (s : t) : bool :=
  match s with STOPPED | ERROR => true | _ => false end.
End ServiceStatus.

Module RunStatus.
Inductive t : Type :=
| SUBMITTED | QUEUED | RUNNING | COMPLETED | FAILED | CANCELED | UNKNOWN.

Definition eqb (a b : t) : bool :=
  match a, b with
  | SUBMITTED, SUBMITTED | QUEUED, QUEUED | RUNNING, RUNNING
  | COMPLETED, COMPLETED | FAILED, FAILED | CANCELED, CANCELED
  | UNKNOWN, UNKNOWN => true
  | _, _ => false
  end.

(** [status in [RunStatus.COMPLETED, RunStatus.FAILED, RunStatus.CANCELED]] *)
Definition in_completed_failed_canceled (s : t) : bool :=
  match s with COMPLETED | FAILED | CANCELED => true | _ => false end.
End RunStatus.

Module ResourceSpec.

Definition memory_suffixes : list string := ["G"; "M"; "K"; "GB"; "MB"; "KB"].

(** [ResourceSpec.validate_memory]: the field validator returns the
    value that is stored, or raises. *)
Definition validate_memory (v : string) : result string :=
  let v := Py.upper v in
  if negb (existsb (fun suffix => Py.endswith v suffix) memory_suffixes)
  then Raise (ValueError "Memory must end with G, M, K (e.g., 16G, 32GB)")
  else Ok v.

(** [ResourceSpec.validate_time] *)
Definition validate_time (v : string) : result string :=
  let parts := Py.split ":" v in
  if negb (existsb (Nat.eqb (length parts)) [2; 3]%nat)
  then Raise (ValueError "Time must be in HH:MM:SS or MM:SS format")
  else Ok v.

(** The fields of a [ResourceSpec]. *)
Record t : Type := mk {
  nodes : Z;
  gpus : Z;
  gpu_type : option string;
  cpus_per_task : Z;
  memory : string;
  time : string;
  partition : string
}.

End ResourceSpec.

Module ContainerSpec.

Definition valid_runtimes : list string := ["apptainer"; "singularity"].

(** [ContainerSpec.validate_runtime]; the message shows the list of the
    valid runtimes as Python prints it. *)
Definition validate_runtime (v : string) : result string :=
  if negb (Py.mem (Py.lower v) valid_runtimes)
  then Raise (ValueError
                "Runtime must be one of: ['apptainer', 'singularity']")
  else Ok (Py.lower v).

End ContainerSpec.

(* ===================================================================== *)
(** ** Python dictionaries *)
(* ===================================================================== *)

(** A [dict] with [str] keys: the entries in insertion order, one per key.
    [d[k] = v] keeps the position of a key that is present and appends a new
    one; [del d[k]] is only ever executed by the code on a key that is
    present, and is modelled as removing the key's entry. *)
Module Dict.
Section WithValue.
Variable V : Type.

Definition t : Type := list (string * V).

Definition empty : t := [].

Fixpoint get (k : string) (d : t) : option V :=
  match d with
  | [] => None
  | (k', v) :: r => if String.eqb k k' then Some v else get k r
  end.

(** [k in d] *)
Definition contains (k : string) (d : t) : bool :=
  match get k d with Some _ => true | None => false end.

(** [d[k] = v] *)
Fixpoint set (k : string) (v : V) (d : t) : t :=
  match d with
  | [] => [(k, v)]
  | (k', v') :: r =>
      if String.eqb k k' then (k, v) :: r else (k', v') :: set k v r
  end.

(** [del d[k]] *)
Definition del (k : string) (d : t) : t :=
  filter (fun e => negb (String.eqb k (fst e))) d.

Definition keys (d : t) : list string := map fst d.
Definition values (d : t) : list V := map snd d.
End WithValue.

Arguments empty {V}.
End Dict.

(* ===================================================================== *)
(** ** Files *)
(* ===================================================================== *)

(** The part of the file system the code touches: a path is absent, a
    regular text file, or a directory.  Paths are texts as [pathlib] spells
    them, with "/" between their parts and no empty part.  Permissions and
    quotas are outside the model: a call fails only for the kind of entry
    that it meets. *)
Inductive fs_entry : Type :=
| RegularFile (content : string)
| Directory.

Definition filesystem : Type := Dict.t fs_entry.

(** The directories on the way to [path], outermost first: the text
    before each "/" of [path] that has something before it. *)
Fixpoint dirs_above_from (before rest : string) : list string :=
  match rest with
  | EmptyString => []
  | String c rest' =>
      let here :=
        if Ascii.eqb c "/" && Py.truthy before then [before] else [] in
      (here ++ dirs_above_from (before ++ String c EmptyString) rest')%list
  end.

Definition dirs_above (path : string) : list string :=
  dirs_above_from EmptyString path.

(** The system calls that change the file system: [mkdir(path)] as
    [Path.mkdir(parents=True, exist_ok=True)] issues it for one directory,
    [open(path, "w")], and the [write] of a block of text to the open
    file. *)
Inductive fs_action : Type :=
| Mkdir (path : string)
| Open_w (path : string)
| Write (path chunk : string).

Definition fs_step (a : fs_action) (fs : filesystem) : result filesystem :=
  match a with
  | Mkdir d =>
      match Dict.get d fs with
      | Some Directory => Ok fs
      | Some (RegularFile _) => Raise OSError
      | None => Ok (Dict.set d Directory fs)
      end
  | Open_w p =>
      match Dict.get p fs with
      | Some Directory => Raise OSError
      | _ => Ok (Dict.set p (RegularFile EmptyString) fs)
      end
  | Write p chunk =>
      match Dict.get p fs with
      | Some (RegularFile s) => Ok (Dict.set p (RegularFile (s ++ chunk)) fs)
      | _ => Raise OSError
      end
  end.

(** Runs the actions in order inside a [try: ... except Exception: log]:
    the first failing action ends the run and the file system stays as it
    is at that point. *)
Fixpoint run_actions (acts : list fs_action) (fs : filesystem) : filesystem :=
  match acts with
  | [] => fs
  | a :: rest =>
      match fs_step a fs with
      | Ok fs' => run_actions rest fs'
      | Raise _ => fs
      end
  end.

(** The file system that is left when the run ends after the first [k]
    calls of [acts]: because the process stops there, or because the next
    call fails for a reason that is outside the model. *)
Definition crash_after (k : nat) (acts : list fs_action) (fs : filesystem)
  : filesystem :=
  run_actions (firstn k acts) fs.


(** [json.dump(data, f, indent=2, default=str)] hands the chunks that the
    encoder yields to the file object [f]; [f] collects them in its buffer
    and passes them on to the file in blocks, the last one when the [with]
    statement closes it.  [json_dump data] is the sequence of these blocks,
    one [write] system call each; put together they are the encoded text.
    The encoder and the buffer are the library's; the registries are
    parametric in them. *)
Class JsonEncoder (A : Type) : Type :=
  json_dump : Dict.t A -> list string.


Definition datetime : Type := Z.

(** Double-precision numbers.  A finite [float] is [mant * 2 ^ expo] with
    a significand [mant] of at most 53 bits.  The only arithmetic that the
    modelled code does on floats is the age of a service in hours, a number
    of microseconds divided by [10 ** 6] and by [3600]: the bounds of the
    exponent of a double are far from such quotients and are not
    modelled. *)
Module Float.

Record t : Type := mk { mant : Z; expo : Z }.

(** Numerator and denominator of [(n / d) / 2 ^ e]. *)
Definition scale_num (n e : Z) : Z :=
  if (e <? 0)%Z then (n * 2 ^ (- e))%Z else n.
Definition scale_den (d e : Z) : Z :=
  if (e <? 0)%Z then d else (d * 2 ^ e)%Z.

(** The integer nearest to [n / d], the even one of two that are equally
    near: the rounding of IEEE 754 arithmetic. *)
Definition nearest_even (n d : Z) : Z :=
  let q := (n / d)%Z in
  let r := (n mod d)%Z in
  if (2 * r <? d)%Z then q
  else if (d <? 2 * r)%Z then (q + 1)%Z
  else if Z.even q then q else (q + 1)%Z.

(** The exponent [e] for which [(n / d) / 2 ^ e] lies between [2 ^ 52] and
    [2 ^ 53]. *)
Definition exponent_of (n d : Z) : Z :=
  let e := (Z.log2 n - Z.log2 d - 53)%Z in
  if (2 ^ 52 * scale_den d (e + 1) <=? scale_num n (e + 1))%Z
  then (e + 1)%Z else e.

(** The double nearest to [n / d], for positive [n] and [d]. *)
Definition div_pos (n d : Z) : t :=
  let e := exponent_of n d in
  mk (nearest_even (scale_num n e) (scale_den d e)) e.

(** [a / b] for two [int]s, [b] positive: the quotient, rounded once. *)
Definition true_divide (a b : Z) : t :=
  match a with
  | Z0 => mk 0 0
  | Zpos _ => div_pos a b
  | Zneg _ => let r := div_pos (- a) b in mk (- mant r) (expo r)
  end.

(** [x.as_integer_ratio()], with a positive denominator. *)
Definition num (x : t) : Z :=
  if (expo x <? 0)%Z then mant x else (mant x * 2 ^ expo x)%Z.
Definition den (x : t) : Z :=
  if (expo x <? 0)%Z then (2 ^ (- expo x))%Z else 1%Z.

(** [x / k] for a float and a positive [int] that is a double exactly. *)
Definition div_int (x : t) (k : Z) : t :=
  true_divide (num x) (k * den x).

(** [x > h] for a float and an [int]: the two are compared exactly. *)
Definition gt_int (x : t) (h : Z) : bool := (h * den x <? num x)%Z.

End Float.

(** [(now - t).total_seconds() / 3600 > max_age_hours].  The difference of
    two [datetime]s is a whole number of microseconds; [total_seconds]
    divides it by [10 ** 6] as an [int], which gives the nearest double,
    and the division by [3600] rounds again. *)
Definition age_hours_gt (now t : datetime) (max_age_hours : Z) : bool :=
  Float.gt_int
    (Float.div_int (Float.true_divide (now - t) 1000000) 3600)
    max_age_hours.

Definition is_some {A : Type} (o : option A) : bool :=
  match o with Some _ => true | None => false end.

(* ===================================================================== *)
(** ** Recipes and instance records (core/models.py) *)
(* ===================================================================== *)

Module PortSpec.
Record t : Type := mk { name : string; port : Z; protocol : string }.
End PortSpec.

(** A value of a field that the models type as [Any]: what a recipe file
    can hold there.  (A float behaves here as an [int] does and is left
    out.) *)
#[local] Set Warnings "-register-all".
Inductive pyvalue : Type :=
| PyNone
| PyBool (b : bool)
| PyInt (z : Z)
| PyStr (s : string)
| PyList (items : list pyvalue)
| PyDict (items : list (string * pyvalue)).

(** [type(v).__name__] *)
Definition type_name (v : pyvalue) : string :=
  match v with
  | PyNone => "NoneType"
  | PyBool _ => "bool"
  | PyInt _ => "int"
  | PyStr _ => "str"
  | PyList _ => "list"
  | PyDict _ => "dict"
  end.


(** The recipe snapshot carried by an instance.  The operations modelled
    here read the ports of a server recipe and the [target] map of a client
    recipe, a [dict[str, Any]]; the other recipe fields are payload that
    they pass along. *)
Module ServerRecipe.
Record t : Type := mk { name : string; network_ports : list PortSpec.t }.

(** [get_primary_port]: the port of the first port specification. *)
Definition get_primary_port (r : t) : option Z :=
  match network_ports r with
  | p :: _ => Some (PortSpec.port p)
  | [] => None
  end.
End ServerRecipe.

Module ClientRecipe.
Record t : Type := mk { name : string; target : Dict.t pyvalue }.
End ClientRecipe.

Module ServiceInstance.
Record t : Type := mk {
  id : string;
  recipe_name : string;
  recipe : ServerRecipe.t;
  status : ServiceStatus.t;
  slurm_job_id : option string;
  node : option string;
  endpoints : Dict.t string;
  created_at : datetime;
  started_at : option datetime;
  stopped_at : option datetime;
  error_message : option string
}.

Definition set_status (v : ServiceStatus.t) (s : t) : t :=
  mk (id s) (recipe_name s) (recipe s) v (slurm_job_id s) (node s)
     (endpoints s) (created_at s) (started_at s) (stopped_at s)
     (error_message s).
Definition set_node (v : option string) (s : t) : t :=
  mk (id s) (recipe_name s) (recipe s) (status s) (slurm_job_id s) v
     (endpoints s) (created_at s) (started_at s) (stopped_at s)
     (error_message s).
Definition set_endpoints (v : Dict.t string) (s : t) : t :=
  mk (id s) (recipe_name s) (recipe s) (status s) (slurm_job_id s) (node s)
     v (created_at s) (started_at s) (stopped_at s) (error_message s).
Definition set_started_at (v : option datetime) (s : t) : t :=
  mk (id s) (recipe_name s) (recipe s) (status s) (slurm_job_id s) (node s)
     (endpoints s) (created_at s) v (stopped_at s) (error_message s).
Definition set_stopped_at (v : option datetime) (s : t) : t :=
  mk (id s) (recipe_name s) (recipe s) (status s) (slurm_job_id s) (node s)
     (endpoints s) (created_at s) (started_at s) v (error_message s).
Definition set_error_message (v : option string) (s : t) : t :=
  mk (id s) (recipe_name s) (recipe s) (status s) (slurm_job_id s) (node s)
     (endpoints s) (created_at s) (started_at s) (stopped_at s) v.


Definition is_running (s : t) : bool :=
  ServiceStatus.eqb (status s) ServiceStatus.RUNNING.
End ServiceInstance.

Module ClientRun.
Record t : Type := mk {
  id : string;
  recipe_name : string;
  recipe : ClientRecipe.t;
  status : RunStatus.t;
  slurm_job_id : option string;
  node : option string;
  target_service_id : option string;
  created_at : datetime;
  started_at : option datetime;
  completed_at : option datetime;
  results_path : option string;
  error_message : option string
}.

Definition set_status (v : RunStatus.t) (r : t) : t :=
  mk (id r) (recipe_name r) (recipe r) v (slurm_job_id r) (node r)
     (target_service_id r) (created_at r) (started_at r) (completed_at r)
     (results_path r) (error_message r).
Definition set_started_at (v : option datetime) (r : t) : t :=
  mk (id r) (recipe_name r) (recipe r) (status r) (slurm_job_id r) (node r)
     (target_service_id r) (created_at r) v (completed_at r)
     (results_path r) (error_message r).
Definition set_completed_at (v : option datetime) (r : t) : t :=
  mk (id r) (recipe_name r) (recipe r) (status r) (slurm_job_id r) (node r)
     (target_service_id r) (created_at r) (started_at r) v
     (results_path r) (error_message r).
Definition set_error_message (v : option string) (r : t) : t :=
  mk (id r) (recipe_name r) (recipe r) (status r) (slurm_job_id r) (node r)
     (target_service_id r) (created_at r) (started_at r) (completed_at r)
     (results_path r) v.

Definition is_active (r : t) : bool :=
  match status r with
  | RunStatus.SUBMITTED | RunStatus.QUEUED | RunStatus.RUNNING => true
  | _ => false
  end.
End ClientRun.

(** [if error_message: obj.error_message = error_message] *)
Definition truthy_message (m : option string) : bool :=
  match m with Some s => Py.truthy s | None => false end.

(* ===================================================================== *)
(** ** core/registry.py *)
(* ===================================================================== *)

(** An operation of a registry runs under the registry's lock, on the
    registry object and the file system, and returns its value together
    with both. *)

Module ServiceRegistry.

Record t : Type := mk {
  _services : Dict.t ServiceInstance.t;
  _persistence_path : option string
}.

Definition with_services (d : Dict.t ServiceInstance.t) (self : t) : t :=
  mk d (_persistence_path self).

(** The system calls of [_persist_state]: none without a persistence
    path; otherwise the directories above the file are made where they are
    missing, the file is opened with mode ["w"], which truncates it, and
    the encoded snapshot is written into it block by block. *)
Definition persist_actions {E : JsonEncoder ServiceInstance.t} (self : t)
  : list fs_action :=
  match _persistence_path self with
  | None => []
  | Some p =>
      (map Mkdir (dirs_above p)
         ++ Open_w p :: map (Write p) (json_dump (_services self)))%list
  end.

Definition _persist_state {E : JsonEncoder ServiceInstance.t} (self : t)
    (fs : filesystem) : filesystem :=
  run_actions (persist_actions self) fs.

Definition register {E : JsonEncoder ServiceInstance.t}
    (service : ServiceInstance.t) (self : t) (fs : filesystem)
  : bool * t * filesystem :=
  let self :=
    with_services
      (Dict.set (ServiceInstance.id service) service (_services self)) self in
  (true, self, _persist_state self fs).

Definition unregister {E : JsonEncoder ServiceInstance.t}
    (service_id : string) (self : t) (fs : filesystem)
  : bool * t * filesystem :=
  if negb (Dict.contains service_id (_services self)) then (false, self, fs)
  else
    let self := with_services (Dict.del service_id (_services self)) self in
    (true, self, _persist_state self fs).

Definition get (service_id : string) (self : t) : result ServiceInstance.t :=
  match Dict.get service_id (_services self) with
  | None => Raise (ServiceNotFoundError service_id)
  | Some s => Ok s
  end.

Definition job_id_is (job_id : string) (s : ServiceInstance.t) : bool :=
  match ServiceInstance.slurm_job_id s with
  | Some j => String.eqb j job_id
  | None => false
  end.

(** The first service, in the order of the dictionary, whose
    [slurm_job_id] equals [job_id]. *)
Definition get_by_job_id (job_id : string) (self : t)
  : option ServiceInstance.t :=
  find (job_id_is job_id) (Dict.values (_services self)).

Definition get_all (self : t) : list ServiceInstance.t :=
  Dict.values (_services self).

Definition get_running (self : t) : list ServiceInstance.t :=
  filter ServiceInstance.is_running (Dict.values (_services self)).

Definition get_by_recipe (recipe_name : string) (self : t)
  : list ServiceInstance.t :=
  filter (fun s => String.eqb (ServiceInstance.recipe_name s) recipe_name)
         (Dict.values (_services self)).

(** The assignments that [update_status] makes to the service object. *)
Definition apply_status (now : datetime) (status : ServiceStatus.t)
    (error_message : option string) (service : ServiceInstance.t)
  : ServiceInstance.t :=
  let service := ServiceInstance.set_status status service in
  let service :=
    if truthy_message error_message
    then ServiceInstance.set_error_message error_message service
    else service in
  if ServiceStatus.eqb status ServiceStatus.RUNNING
     && negb (is_some (ServiceInstance.started_at service))
  then ServiceInstance.set_started_at (Some now) service
  else if ServiceStatus.in_stopped_error status
  then ServiceInstance.set_stopped_at (Some now) service
  else service.

Definition update_status {E : JsonEncoder ServiceInstance.t}
    (now : datetime) (service_id : string) (status : ServiceStatus.t)
    (error_message : option string) (self : t) (fs : filesystem)
  : bool * t * filesystem :=
  match Dict.get service_id (_services self) with
  | None => (false, self, fs)
  | Some service =>
      let service := apply_status now status error_message service in
      let self :=
        with_services (Dict.set service_id service (_services self)) self in
      (true, self, _persist_state self fs)
  end.

Definition update_node {E : JsonEncoder ServiceInstance.t}
    (service_id : string) (node : string) (self : t) (fs : filesystem)
  : bool * t * filesystem :=
  match Dict.get service_id (_services self) with
  | None => (false, self, fs)
  | Some service =>
      let service := ServiceInstance.set_node (Some node) service in
      let self :=
        with_services (Dict.set service_id service (_services self)) self in
      (true, self, _persist_state self fs)
  end.

Definition update_endpoints {E : JsonEncoder ServiceInstance.t}
    (service_id : string) (endpoints : Dict.t string) (self : t)
    (fs : filesystem) : bool * t * filesystem :=
  match Dict.get service_id (_services self) with
  | None => (false, self, fs)
  | Some service =>
      let service := ServiceInstance.set_endpoints endpoints service in
      let self :=
        with_services (Dict.set service_id service (_services self)) self in
      (true, self, _persist_state self fs)
  end.

(** The test of the loop of [cleanup_stale] on one service. *)
Definition is_stale (now : datetime) (max_age_hours : Z)
    (service : ServiceInstance.t) : bool :=
  ServiceStatus.in_stopped_error (ServiceInstance.status service)
  && match ServiceInstance.stopped_at service with
     | Some stopped => age_hours_gt now stopped max_age_hours
     | None => false
     end.

Definition stale_ids (now : datetime) (max_age_hours : Z) (self : t)
  : list string :=
  map fst (filter (fun e => is_stale now max_age_hours (snd e))
                  (_services self)).

Definition cleanup_stale {E : JsonEncoder ServiceInstance.t}
    (now : datetime) (max_age_hours : Z) (self : t) (fs : filesystem)
  : Z * t * filesystem :=
  let ids := stale_ids now max_age_hours self in
  let self :=
    with_services
      (fold_left (fun d service_id => Dict.del service_id d) ids
                 (_services self)) self in
  let fs := match ids with [] => fs | _ => _persist_state self fs end in
  (Z.of_nat (length ids), self, fs).




End ServiceRegistry.

Module RunRegistry.

Record t : Type := mk {
  _runs : Dict.t ClientRun.t;
  _persistence_path : option string
}.

Definition with_runs (d : Dict.t ClientRun.t) (self : t) : t :=
  mk d (_persistence_path self).

Definition persist_actions {E : JsonEncoder ClientRun.t} (self : t)
  : list fs_action :=
  match _persistence_path self with
  | None => []
  | Some p =>
      (map Mkdir (dirs_above p)
         ++ Open_w p :: map (Write p) (json_dump (_runs self)))%list
  end.

Definition _persist_state {E : JsonEncoder ClientRun.t} (self : t)
    (fs : filesystem) : filesystem :=
  run_actions (persist_actions self) fs.

Definition register {E : JsonEncoder ClientRun.t} (run : ClientRun.t)
    (self : t) (fs : filesystem) : bool * t * filesystem :=
  let self := with_runs (Dict.set (ClientRun.id run) run (_runs self)) self in
  (true, self, _persist_state self fs).

Definition unregister {E : JsonEncoder ClientRun.t} (run_id : string)
    (self : t) (fs : filesystem) : bool * t * filesystem :=
  if negb (Dict.contains run_id (_runs self)) then (false, self, fs)
  else
    let self := with_runs (Dict.del run_id (_runs self)) self in
    (true, self, _persist_state self fs).

Definition get (run_id : string) (self : t) : result ClientRun.t :=
  match Dict.get run_id (_runs self) with
  | None => Raise (ClientNotFoundError run_id)
  | Some r => Ok r
  end.

Definition get_all (self : t) : list ClientRun.t := Dict.values (_runs self).

Definition get_active (self : t) : list ClientRun.t :=
  filter ClientRun.is_active (Dict.values (_runs self)).

Definition apply_status (now : datetime) (status : RunStatus.t)
    (error_message : option string) (run : ClientRun.t) : ClientRun.t :=
  let run := ClientRun.set_status status run in
  let run :=
    if truthy_message error_message
    then ClientRun.set_error_message error_message run
    else run in
  if RunStatus.eqb status RunStatus.RUNNING
     && negb (is_some (ClientRun.started_at run))
  then ClientRun.set_started_at (Some now) run
  else if RunStatus.in_completed_failed_canceled status
  then ClientRun.set_completed_at (Some now) run
  else run.

Definition update_status {E : JsonEncoder ClientRun.t}
    (now : datetime) (run_id : string) (status : RunStatus.t)
    (error_message : option string) (self : t) (fs : filesystem)
  : bool * t * filesystem :=
  match Dict.get run_id (_runs self) with
  | None => (false, self, fs)
  | Some run =>
      let run := apply_status now status error_message run in
      let self := with_runs (Dict.set run_id run (_runs self)) self in
      (true, self, _persist_state self fs)
  end.

End RunRegistry.

(* ===================================================================== *)
(** ** core/slurm.py *)
(* ===================================================================== *)

Module Slurm.

Record CompletedProcess : Type := mkCompleted {
  returncode : Z;
  stdout : string;
  stderr : string
}.

(** What [subprocess.run(cmd, capture_output=True, text=True, timeout=..)]
    does: it returns, the time runs out, or the command does not exist. *)
Inductive run_outcome : Type :=
| Completed (r : CompletedProcess)
| TimeoutExpired
| FileNotFound.

Definition str_Z (z : Z) : string := NilZero.string_of_int (Z.to_int z).

(** [_run_command(cmd, timeout, check)], [cmd0] being [cmd[0]]. *)
Definition _run_command (cmd0 : string) (timeout : Z) (check : bool)
    (o : run_outcome) : result CompletedProcess :=
  match o with
  | Completed r =>
      if check && negb (returncode r =? 0)%Z
      then Raise (SlurmError cmd0
                    (if Py.truthy (stderr r) then stderr r
                     else "Exit code " ++ str_Z (returncode r)))
      else Ok r
  | TimeoutExpired =>
      Raise (SlurmError cmd0
               ("Command timed out after " ++ str_Z timeout ++ "s"))
  | FileNotFound => Raise (SlurmError cmd0 "Command not found")
  end.

Record SlurmJobInfo : Type := mkJobInfo {
  job_id : string;
  name : string;
  state : string;
  node : option string;
  partition : string;
  time_used : string;
  reason : option string
}.

(** [SlurmJobInfo(job_id=parts[0], ..., time_used=parts[5], reason=...)]
    under the guard [len(parts) >= 6]; [with_reason] tells whether the
    caller passes [parts[6]] when it is there and not empty. *)
Definition job_info_of_parts (with_reason : bool) (parts : list string)
  : option SlurmJobInfo :=
  match parts with
  | p0 :: p1 :: p2 :: p3 :: p4 :: p5 :: rest =>
      Some (mkJobInfo p0 p1 p2 (Py.nonempty p3) p4 p5
              (if with_reason
               then match rest with p6 :: _ => Py.nonempty p6 | [] => None end
               else None))
  | _ => None
  end.

(** The loop of [_get_completed_job_info] over the lines of [sacct]. *)
Fixpoint first_main_job (lines : list string) : option SlurmJobInfo :=
  match lines with
  | [] => None
  | line :: rest =>
      let parts := Py.split "|" line in
      match parts with
      | p0 :: _ :: _ :: _ :: _ :: _ :: _ =>
          if negb (Py.contains_char "." p0)
          then job_info_of_parts false parts
          else first_main_job rest
      | _ => first_main_job rest
      end
  end.

Definition _get_completed_job_info (sacct : run_outcome)
  : option SlurmJobInfo :=
  match _run_command "sacct" 30 false sacct with
  | Raise _ => None
  | Ok r =>
      if negb (returncode r =? 0)%Z || negb (Py.truthy (Py.strip (stdout r)))
      then None
      else first_main_job (Py.split Py.newline (Py.strip (stdout r)))
  end.

(** [get_job_info(job_id)]: [squeue] and [sacct] are what the two
    commands do when they are run for [job_id]; the second is run only
    when the first finds nothing. *)
Definition get_job_info (squeue sacct : run_outcome) : option SlurmJobInfo :=
  match _run_command "squeue" 30 false squeue with
  | Raise _ => None
  | Ok r =>
      if negb (returncode r =? 0)%Z || negb (Py.truthy (Py.strip (stdout r)))
      then _get_completed_job_info sacct
      else job_info_of_parts true (Py.split "|" (Py.strip (stdout r)))
  end.

(** The mapping of [get_job_status] from the state to the status. *)
Definition status_of_state (state : string) : ServiceStatus.t :=
  let state := Py.upper state in
  if Py.mem state ["RUNNING"; "R"] then ServiceStatus.RUNNING
  else if Py.mem state ["PENDING"; "PD"; "CONFIGURING"; "CF"]
  then ServiceStatus.PENDING
  else if Py.mem state ["COMPLETING"; "CG"] then ServiceStatus.STOPPING
  else if Py.mem state ["COMPLETED"; "CD"] then ServiceStatus.STOPPED
  else if Py.mem state ["FAILED"; "F"; "TIMEOUT"; "TO"; "CANCELLED"; "CA";
                        "NODE_FAIL"; "NF"]
  then ServiceStatus.ERROR
  else ServiceStatus.UNKNOWN.

Definition get_job_status (squeue sacct : run_outcome) : result ServiceStatus.t :=
  match get_job_info squeue sacct with
  | None => Ok ServiceStatus.UNKNOWN
  | Some job_info => Ok (status_of_state (state job_info))
  end.

Definition get_job_node (squeue sacct : run_outcome) : option string :=
  match get_job_info squeue sacct with
  | Some job_info => node job_info
  | None => None
  end.

(** [cancel_job]: [scancel] is what the command does. *)
Definition cancel_job (scancel : run_outcome) : bool :=
  match _run_command "scancel" 30 true scancel with
  | Ok _ => true
  | Raise _ => false
  end.

(** *** The job id in the output of [sbatch] *)

Definition submitted_batch_job : string := "Submitted batch job ".

(** The longest run of digits that [s] starts with: a greedy [\d*]. *)
Fixpoint take_digits (s : string) : string :=
  match s with
  | String c t => if Py.isdigit c then String c (take_digits t) else EmptyString
  | EmptyString => EmptyString
  end.

(** [re.match(r"Submitted batch job (\d+)", s)], group 1. *)
Definition match_job_id (s : string) : option string :=
  if Py.startswith s submitted_batch_job
  then Py.nonempty (take_digits (Py.drop (String.length submitted_batch_job) s))
  else None.

(** [re.search(r"Submitted batch job (\d+)", s)], group 1: the match at
    the leftmost position that has one. *)
Fixpoint search_job_id (s : string) : option string :=
  match match_job_id s with
  | Some g => Some g
  | None =>
      match s with
      | EmptyString => None
      | String _ t => search_job_id t
      end
  end.

(** [script_path.write_text(script_content)] *)
Definition write_text (p content : string) (fs : filesystem)
  : result filesystem :=
  match fs_step (Open_w p) fs with
  | Ok fs1 => fs_step (Write p content) fs1
  | Raise e => Raise e
  end.

(** [submit_job]: [script_path] is [work_dir / script_name] and [sbatch]
    is what the submission command does.  The creation of the work
    directory and the change of the file mode leave no trace in this
    model of the file system. *)
Definition submit_job (script_content script_path : string)
    (sbatch : run_outcome) (fs : filesystem) : result string * filesystem :=
  match write_text script_path script_content fs with
  | Raise e => (Raise e, fs)
  | Ok fs1 =>
      match _run_command "sbatch" 30 true sbatch with
      | Raise e => (Raise e, fs1)
      | Ok r =>
          match search_job_id (stdout r) with
          | None =>
              (Raise (SlurmError "submit"
                        ("Could not parse job ID from: " ++ stdout r)), fs1)
          | Some job_id => (Ok job_id, fs1)
          end
      end
  end.

(** *** The properties of [SlurmJobInfo] *)

Definition is_running (info : SlurmJobInfo) : bool :=
  String.eqb (Py.upper (state info)) "RUNNING".

Definition is_pending (info : SlurmJobInfo) : bool :=
  Py.mem (Py.upper (state info)) ["PENDING"; "PD"].

Definition is_completed (info : SlurmJobInfo) : bool :=
  Py.mem (Py.upper (state info))
         ["COMPLETED"; "FAILED"; "CANCELLED"; "TIMEOUT"; "CD"; "F"; "CA"; "TO"].

(** *** The batch script *)

(** The part of [config.slurm] that the orchestrator reads. *)
Record SlurmConfig : Type := mkConfig {
  account : option string;
  qos : string
}.

Definition truthy_opt (o : option string) : bool :=
  match o with Some s => Py.truthy s | None => false end.

Definition opt_str (o : option string) : string :=
  match o with Some s => s | None => "None" end.

(** The [#SBATCH] lines of [generate_batch_script]. *)
Definition directives (config : SlurmConfig) (job_name : string)
    (resources : ResourceSpec.t) (output_dir : string) : list string :=
  let directives :=
    ["#!/bin/bash";
     "#SBATCH --job-name=" ++ job_name;
     "#SBATCH --time=" ++ ResourceSpec.time resources;
     "#SBATCH --partition=" ++ ResourceSpec.partition resources;
     "#SBATCH --nodes=" ++ Py.str_int (ResourceSpec.nodes resources);
     "#SBATCH --cpus-per-task="
       ++ Py.str_int (ResourceSpec.cpus_per_task resources);
     "#SBATCH --mem=" ++ ResourceSpec.memory resources;
     "#SBATCH --output=" ++ output_dir ++ "/" ++ job_name ++ "_%j.out";
     "#SBATCH --error=" ++ output_dir ++ "/" ++ job_name ++ "_%j.err"] in
  let directives :=
    if (0 <? ResourceSpec.gpus resources)%Z
    then
      if truthy_opt (ResourceSpec.gpu_type resources)
      then Py.append directives
             ("#SBATCH --gres=gpu:" ++ Py.str_int (ResourceSpec.gpus resources))
      else Py.append directives
             ("#SBATCH --gres=gpu:" ++ Py.str_int (ResourceSpec.gpus resources))
    else directives in
  let directives :=
    if truthy_opt (account config)
    then Py.append directives
           ("#SBATCH --account=" ++ opt_str (account config))
    else directives in
  if Py.truthy (qos config)
  then Py.append directives ("#SBATCH --qos=" ++ qos config)
  else directives.

Definition script_lines (config : SlurmConfig) (job_name command : string)
    (resources : ResourceSpec.t) (environment : Dict.t string)
    (output_dir : string) (setup_commands : option (list string))
  : list string :=
  let script_lines :=
    Py.extend (directives config job_name resources output_dir)
      [EmptyString;
       "# Print job information";
       "echo " ++ Py.dquote ++ "Job ID: $SLURM_JOB_ID" ++ Py.dquote;
       "echo " ++ Py.dquote ++ "Node: $SLURM_NODELIST" ++ Py.dquote;
       "echo " ++ Py.dquote ++ "Start time: $(date)" ++ Py.dquote;
       EmptyString;
       "# Load modules (MeluXina 2024.1)";
       "module load env/release/2024.1";
       "module load Python/3.11.10-GCCcore-13.3.0";
       "module load Apptainer";
       EmptyString;
       "# Set environment variables"] in
  let script_lines :=
    Py.extend script_lines
      (map (fun kv => "export " ++ fst kv ++ "=" ++ Py.dquote ++ snd kv
                        ++ Py.dquote)
           environment) in
  let script_lines := Py.append script_lines EmptyString in
  let script_lines :=
    match setup_commands with
    | Some (c :: cs) =>
        Py.append (Py.extend (Py.append script_lines "# Setup commands")
                             (c :: cs))
                  EmptyString
    | _ => script_lines
    end in
  Py.extend script_lines
    ["# Main command";
     command;
     EmptyString;
     "# Print completion";
     "echo " ++ Py.dquote ++ "End time: $(date)" ++ Py.dquote;
     "echo " ++ Py.dquote ++ "Exit code: $?" ++ Py.dquote].

Definition generate_batch_script (config : SlurmConfig)
    (job_name command : string) (resources : ResourceSpec.t)
    (environment : Dict.t string) (output_dir : string)
    (setup_commands : option (list string)) : string :=
  Py.join (String Py.newline EmptyString)
          (script_lines config job_name command resources environment
                        output_dir setup_commands).

(** *** The jobs of the user *)

(** The rows of [list_user_jobs]: a line with fewer than six fields is
    passed over. *)
Fixpoint jobs_of_lines (lines : list string) : list SlurmJobInfo :=
  match lines with
  | [] => []
  | line :: rest =>
      match job_info_of_parts true (Py.split "|" line) with
      | Some info => info :: jobs_of_lines rest
      | None => jobs_of_lines rest
      end
  end.

(** [list_user_jobs]: [squeue] is what the command does. *)
Definition list_user_jobs (squeue : run_outcome) : list SlurmJobInfo :=
  match _run_command "squeue" 30 false squeue with
  | Raise _ => []
  | Ok r =>
      if negb (Py.truthy (Py.strip (stdout r))) then []
      else jobs_of_lines (Py.split Py.newline (Py.strip (stdout r)))
  end.

End Slurm.

(* ===================================================================== *)
(** ** servers/manager.py *)
(* ===================================================================== *)

(** The orchestrator a manager is constructed with: what its methods
    answer for a job id.  Each of the operations below calls each method at
    most once. *)
Record Orchestrator : Type := mkOrchestrator {
  get_job_status : string -> ServiceStatus.t;
  get_job_node : string -> option string;
  cancel_job : string -> bool
}.

(** [ServiceStartError(recipe_name, reason)], the exception of
    [start_service] and [_wait_for_ready]. *)
Inductive start_error : Type :=
| ServiceStartError (recipe_name reason : string).

Definition str_start_error (e : start_error) : string :=
  match e with
  | ServiceStartError n r => "Failed to start service '" ++ n ++ "': " ++ r
  end.

Module ServerManager.

(** The first entry of the registry whose service has the job id. *)
Definition find_by_job_id (job_id : string) (reg : ServiceRegistry.t)
  : option (string * ServiceInstance.t) :=
  find (fun e => ServiceRegistry.job_id_is job_id (snd e))
       (ServiceRegistry._services reg).

(** The lookup that [stop_service] and [get_service_status] begin with:
    [registry.get(service_id)], and [registry.get_by_job_id(service_id)]
    when that raises [ServiceNotFoundError].  The service object is
    returned with the key it is registered under, which stands for the
    object's identity: an assignment to an attribute of the object is an
    update of the registry at that key. *)
Definition lookup (service_id : string) (reg : ServiceRegistry.t)
  : result (string * ServiceInstance.t) :=
  match ServiceRegistry.get service_id reg with
  | Ok service => Ok (service_id, service)
  | Raise (ServiceNotFoundError _) =>
      match find_by_job_id service_id reg with
      | Some e => Ok e
      | None => Raise (ServiceNotFoundError service_id)
      end
  | Raise e => Raise e
  end.

(** [obj.attr = v] on the object registered under [key]. *)
Definition assign (key : string) (f : ServiceInstance.t -> ServiceInstance.t)
    (reg : ServiceRegistry.t) : ServiceRegistry.t :=
  match Dict.get key (ServiceRegistry._services reg) with
  | Some s =>
      ServiceRegistry.with_services
        (Dict.set key (f s) (ServiceRegistry._services reg)) reg
  | None => reg
  end.

Definition job_of (service : ServiceInstance.t) : option string :=
  match ServiceInstance.slurm_job_id service with
  | Some j => if Py.truthy j then Some j else None
  | None => None
  end.

Definition stop_service {E : JsonEncoder ServiceInstance.t}
    (orchestrator : Orchestrator) (now : datetime)
    (service_id : string) (force : bool)
    (reg : ServiceRegistry.t) (fs : filesystem)
  : result bool * ServiceRegistry.t * filesystem :=
  match lookup service_id reg with
  | Raise e => (Raise e, reg, fs)
  | Ok (_, service) =>
      let sid := ServiceInstance.id service in
      if ServiceStatus.in_stopped_error (ServiceInstance.status service)
      then (Ok true, reg, fs)
      else
        (* try: *)
        let body : result bool * ServiceRegistry.t * filesystem :=
          let '(_, reg1, fs1) :=
            ServiceRegistry.update_status now sid ServiceStatus.STOPPING None
                                          reg fs in
          let cancel_failed :=
            match job_of service with
            | Some j => negb (cancel_job orchestrator j) && negb force
            | None => false
            end in
          if cancel_failed
          then (Raise (ServiceStopError sid "Failed to cancel SLURM job"),
                reg1, fs1)
          else
            let '(_, reg2, fs2) :=
              ServiceRegistry.update_status now sid ServiceStatus.STOPPED None
                                            reg1 fs1 in
            (Ok true, reg2, fs2) in
        (* except Exception as e: *)
        match body with
        | (Raise e, reg1, fs1) =>
            if force
            then
              let '(_, reg2, fs2) :=
                ServiceRegistry.update_status now sid ServiceStatus.STOPPED
                                              None reg1 fs1 in
              (Ok true, reg2, fs2)
            else (Raise (ServiceStopError sid (str_exn e)), reg1, fs1)
        | done => done
        end
  end.

Definition node_differs (node : string) (service : ServiceInstance.t) : bool :=
  match ServiceInstance.node service with
  | Some n => negb (String.eqb node n)
  | None => true
  end.

(** [get_service_status]: the value returned is the service object as it
    is when the function returns. *)
Definition get_service_status {E : JsonEncoder ServiceInstance.t}
    (orchestrator : Orchestrator) (now : datetime) (service_id : string)
    (reg : ServiceRegistry.t) (fs : filesystem)
  : result ServiceInstance.t * ServiceRegistry.t * filesystem :=
  match lookup service_id reg with
  | Raise e => (Raise e, reg, fs)
  | Ok (key, service) =>
      let sid := ServiceInstance.id service in
      let '(reg, fs) :=
        match job_of service with
        | Some job =>
            if negb (ServiceStatus.in_stopped_error
                       (ServiceInstance.status service))
            then
              let slurm_status := get_job_status orchestrator job in
              if negb (ServiceStatus.eqb slurm_status
                         (ServiceInstance.status service))
              then
                let '(_, reg, fs) :=
                  ServiceRegistry.update_status now sid slurm_status None
                                                reg fs in
                let reg := assign key (ServiceInstance.set_status slurm_status)
                                  reg in
                if ServiceStatus.eqb slurm_status ServiceStatus.RUNNING
                then
                  match get_job_node orchestrator job with
                  | Some node =>
                      if Py.truthy node && node_differs node service
                      then
                        let reg :=
                          assign key (ServiceInstance.set_node (Some node))
                                 reg in
                        let '(_, reg, fs) :=
                          ServiceRegistry.update_node sid node reg fs in
                        (reg, fs)
                      else (reg, fs)
                  | None => (reg, fs)
                  end
                else (reg, fs)
              else (reg, fs)
            else (reg, fs)
        | None => (reg, fs)
        end in
      (Ok match Dict.get key (ServiceRegistry._services reg) with
          | Some current => current
          | None => service
          end, reg, fs)
  end.

(** *** Waiting for a service to be ready *)

(** One turn of the loop of [_wait_for_ready]: what [get_job_status] and
    [get_job_node] answer in it, the time at which the registry is
    updated and the later time at which [started_at] is assigned. *)
Record poll : Type := mkPoll {
  job_status : ServiceStatus.t;
  job_node : option string;
  seen_at : datetime;
  marked_at : datetime
}.

Definition endpoint_url (node : string) (port : Z) : string :=
  "http://" ++ node ++ ":" ++ Py.str_int port.

(** [service.recipe.get_primary_port() or 8000] *)
Definition primary_port_or_default (recipe : ServerRecipe.t) : Z :=
  match ServerRecipe.get_primary_port recipe with
  | Some p => if (p =? 0)%Z then 8000%Z else p
  | None => 8000%Z
  end.

(** The endpoints that [_wait_for_ready] builds for a node. *)
Definition build_endpoints (node : string) (recipe : ServerRecipe.t)
  : Dict.t string :=
  fold_left
    (fun endpoints port_spec =>
       Dict.set (PortSpec.name port_spec)
                (endpoint_url node (PortSpec.port port_spec)) endpoints)
    (ServerRecipe.network_ports recipe)
    [("api", endpoint_url node (primary_port_or_default recipe))].

(** What the loop does when the job runs on [node]. *)
Definition mark_ready {E : JsonEncoder ServiceInstance.t}
    (service : ServiceInstance.t) (node : string) (p : poll)
    (reg : ServiceRegistry.t) (fs : filesystem)
  : ServiceRegistry.t * filesystem :=
  let sid := ServiceInstance.id service in
  let reg := assign sid (ServiceInstance.set_node (Some node)) reg in
  let '(_, reg, fs) := ServiceRegistry.update_node sid node reg fs in
  let endpoints := build_endpoints node (ServiceInstance.recipe service) in
  let '(_, reg, fs) := ServiceRegistry.update_endpoints sid endpoints reg fs in
  let '(_, reg, fs) :=
    ServiceRegistry.update_status (seen_at p) sid ServiceStatus.RUNNING None
                                  reg fs in
  let reg := assign sid (ServiceInstance.set_status ServiceStatus.RUNNING) reg in
  let reg := assign sid (ServiceInstance.set_node (Some node)) reg in
  let reg := assign sid (ServiceInstance.set_endpoints endpoints) reg in
  let reg :=
    assign sid (ServiceInstance.set_started_at (Some (marked_at p))) reg in
  (reg, fs).

(** What the loop does when it gives up with [error_msg] at the time
    [now]. *)
Definition fail_start {E : JsonEncoder ServiceInstance.t}
    (service : ServiceInstance.t) (now : datetime) (error_msg : string)
    (reg : ServiceRegistry.t) (fs : filesystem)
  : (start_error + bool) * ServiceRegistry.t * filesystem :=
  let '(_, reg, fs) :=
    ServiceRegistry.update_status now (ServiceInstance.id service)
                                  ServiceStatus.ERROR (Some error_msg) reg fs in
  (inl (ServiceStartError (ServiceInstance.recipe_name service) error_msg),
   reg, fs).

(** [_wait_for_ready(service, timeout)]: [polls] are the turns that the loop
    makes before the time is out, and [deadline] is the time at which it
    finds that it is.  [service] is the object that the registry holds
    under the service's id. *)
Fixpoint _wait_for_ready {E : JsonEncoder ServiceInstance.t}
    (service : ServiceInstance.t) (timeout : Z) (polls : list poll)
    (deadline : datetime) (reg : ServiceRegistry.t) (fs : filesystem)
  : (start_error + bool) * ServiceRegistry.t * filesystem :=
  match polls with
  | [] =>
      fail_start service deadline
                 ("Service did not become ready within " ++ Py.str_int timeout
                    ++ " seconds") reg fs
  | p :: rest =>
      match job_status p with
      | ServiceStatus.RUNNING =>
          match job_node p with
          | Some node =>
              if Py.truthy node
              then let '(reg, fs) := mark_ready service node p reg fs in
                   (inr true, reg, fs)
              else _wait_for_ready service timeout rest deadline reg fs
          | None => _wait_for_ready service timeout rest deadline reg fs
          end
      | ServiceStatus.ERROR =>
          fail_start service (seen_at p) "SLURM job failed" reg fs
      | ServiceStatus.STOPPED =>
          fail_start service (seen_at p) "SLURM job completed unexpectedly" reg fs
      | _ => _wait_for_ready service timeout rest deadline reg fs
      end
  end.

(** [list_services(running_only)] *)
Definition list_services (running_only : bool) (reg : ServiceRegistry.t)
  : list ServiceInstance.t :=
  if running_only then ServiceRegistry.get_running reg
  else ServiceRegistry.get_all reg.

End ServerManager.

(* ===================================================================== *)
(** ** clients/manager.py *)
(* ===================================================================== *)

Module ClientManager.






(** *** Stopping and refreshing a run *)

(** [obj.attr = v] on the run registered under [key]. *)
Definition assign (key : string) (f : ClientRun.t -> ClientRun.t)
    (reg : RunRegistry.t) : RunRegistry.t :=
  match Dict.get key (RunRegistry._runs reg) with
  | Some r => RunRegistry.with_runs (Dict.set key (f r) (RunRegistry._runs reg)) reg
  | None => reg
  end.

Definition job_of (run : ClientRun.t) : option string :=
  match ClientRun.slurm_job_id run with
  | Some j => if Py.truthy j then Some j else None
  | None => None
  end.

(** [Path(results_path) / "benchmark_results.json"], as a path string. *)
Definition results_file (results_path : string) : string :=
  results_path ++ "/benchmark_results.json".

(** [stop_run(run_id)].  [cancel_job] is what [self.orchestrator.cancel_job]
    does for a job id: the answer that it returns, or the exception that it
    lets through (it catches [SlurmError] and nothing else).  [stop_run]
    does not look at the answer and does not catch the exception. *)
Definition stop_run {E : JsonEncoder ClientRun.t}
    (cancel_job : string -> result bool) (now : datetime)
    (run_id : string) (reg : RunRegistry.t) (fs : filesystem)
  : result bool * RunRegistry.t * filesystem :=
  match RunRegistry.get run_id reg with
  | Raise e => (Raise e, reg, fs)
  | Ok run =>
      if negb (ClientRun.is_active run) then (Ok true, reg, fs)
      else
        let canceled :=
          match job_of run with
          | Some job => cancel_job job
          | None => Ok true
          end in
        match canceled with
        | Raise e => (Raise e, reg, fs)
        | Ok _ =>
            let '(_, reg, fs) :=
              RunRegistry.update_status now (ClientRun.id run)
                                        RunStatus.CANCELED None reg fs in
            (Ok true, reg, fs)
        end
  end.

(** [self.registry.update_status(run.id, status)] followed by
    [run.status = status], for the run found under [key]. *)
Definition set_run_status {E : JsonEncoder ClientRun.t} (now : datetime)
    (key : string) (run : ClientRun.t) (status : RunStatus.t)
    (reg : RunRegistry.t) (fs : filesystem) : RunRegistry.t * filesystem :=
  let '(_, reg, fs) :=
    RunRegistry.update_status now (ClientRun.id run) status None reg fs in
  (assign key (ClientRun.set_status status) reg, fs).

(** [get_run_status(run_id)]: the value returned is the run object as it
    is when the function returns. *)
Definition get_run_status {E : JsonEncoder ClientRun.t}
    (orchestrator : Orchestrator) (now : datetime) (run_id : string)
    (reg : RunRegistry.t) (fs : filesystem)
  : result ClientRun.t * RunRegistry.t * filesystem :=
  match RunRegistry.get run_id reg with
  | Raise e => (Raise e, reg, fs)
  | Ok run =>
      let '(reg, fs) :=
        match job_of run with
        | Some job =>
            if ClientRun.is_active run
            then
              match get_job_status orchestrator job with
              | ServiceStatus.RUNNING =>
                  set_run_status now run_id run RunStatus.RUNNING reg fs
              | ServiceStatus.STOPPED =>
                  match ClientRun.results_path run with
                  | Some results_path =>
                      if Py.truthy results_path
                      then
                        if Dict.contains (results_file results_path) fs
                        then set_run_status now run_id run RunStatus.COMPLETED
                                            reg fs
                        else set_run_status now run_id run RunStatus.FAILED
                                            reg fs
                      else (reg, fs)
                  | None => (reg, fs)
                  end
              | ServiceStatus.ERROR =>
                  set_run_status now run_id run RunStatus.FAILED reg fs
              | _ => (reg, fs)
              end
            else (reg, fs)
        | None => (reg, fs)
        end in
      (Ok match Dict.get run_id (RunRegistry._runs reg) with
          | Some current => current
          | None => run
          end, reg, fs)
  end.

(** [list_runs(active_only)] *)
Definition list_runs (active_only : bool) (reg : RunRegistry.t)
  : list ClientRun.t :=
  if active_only then RunRegistry.get_active reg else RunRegistry.get_all reg.

End ClientManager.

(* ===================================================================== *)
(** ** Vocabulary of the properties *)
(* ===================================================================== *)

(** The form the specification gives for a memory string: a numeric value
    followed by a unit suffix among K, M, G, KB, MB, GB, in either case. *)
Definition numeric_with_unit (v : string) : Prop :=
  exists num suf,
    v = num ++ suf /\ num <> EmptyString /\ Py.all_digits num = true
    /\ In (Py.upper suf) ResourceSpec.memory_suffixes.

(** What [validate_memory] tests: the upper-cased string ends with one of
    the six suffixes. *)
Definition has_unit_suffix (v : string) : Prop :=
  exists p suf, In suf ResourceSpec.memory_suffixes /\ Py.upper v = p ++ suf.

(** The state tokens that the table of [get_job_status] names. *)
Definition known_states : list string :=
  ["RUNNING"; "R"; "PENDING"; "PD"; "CONFIGURING"; "CF"; "COMPLETING"; "CG";
   "COMPLETED"; "CD"; "FAILED"; "F"; "TIMEOUT"; "TO"; "CANCELLED"; "CA";
   "NODE_FAIL"; "NF"].

(** The statuses that the specification lists for the mapping. *)
Definition mapped_statuses : list ServiceStatus.t :=
  [ServiceStatus.PENDING; ServiceStatus.RUNNING; ServiceStatus.STOPPING;
   ServiceStatus.STOPPED; ServiceStatus.ERROR; ServiceStatus.UNKNOWN].

(** A command that shows no row for the job: it fails, exits with a code
    other than 0, or prints only white space. *)
Definition no_rows (o : Slurm.run_outcome) : bool :=
  match o with
  | Slurm.Completed r =>
      negb (Slurm.returncode r =? 0)%Z
      || negb (Py.truthy (Py.strip (Slurm.stdout r)))
  | _ => true
  end.

Definition starts_with_digit (s : string) : bool :=
  match s with
  | String c _ => Py.isdigit c
  | EmptyString => false
  end.

(** After [pre], [out] holds the acknowledgement text followed by the
    digits [d]. *)
Definition occurs_at (out pre d post : string) : Prop :=
  out = pre ++ Slurm.submitted_batch_job ++ d ++ post
  /\ d <> EmptyString /\ Py.all_digits d = true.

(** [g] is the whole run of digits after the first occurrence of the
    acknowledgement text that a digit follows. *)
Definition acknowledges (out g : string) : Prop :=
  exists pre post,
    occurs_at out pre g post
    /\ starts_with_digit post = false
    /\ forall pre' d' post',
         occurs_at out pre' d' post' ->
         (String.length pre <= String.length pre')%nat.

(** The tokens of a line, as [line.split()] gives them. *)
Fixpoint words (cur s : string) : list string :=
  match s with
  | EmptyString => if Py.truthy cur then [cur] else []
  | String c t =>
      if Py.isspace c
      then (if Py.truthy cur then cur :: words EmptyString t else words EmptyString t)
      else words (cur ++ String c EmptyString) t
  end.

(** The last numeric token of the output, in the words of the
    specification: the last token that consists of digits. *)
Definition last_numeric_token (out : string) : option string :=
  match rev (filter Py.all_digits (words EmptyString out)) with
  | tok :: _ => Some tok
  | [] => None
  end.

(** A dictionary has one entry per key. *)
Definition unique_keys {V : Type} (d : Dict.t V) : Prop := NoDup (Dict.keys d).

(** A service registry as [register] builds it: every service is stored
    under its own id. *)
Definition keyed_by_id (reg : ServiceRegistry.t) : Prop :=
  unique_keys (ServiceRegistry._services reg)
  /\ forall k s, In (k, s) (ServiceRegistry._services reg) ->
                 ServiceInstance.id s = k.

(** An encoder for the examples: one block per key. *)
Definition keys_encoder (A : Type) : JsonEncoder A :=
  fun d => map (fun k => k ++ ";") (Dict.keys d).
Arguments keys_encoder A : clear implicits.

(** A service for the examples. *)
Definition sample_service (id : string) (status : ServiceStatus.t)
    (job : option string) (stopped_at : option datetime) : ServiceInstance.t :=
  ServiceInstance.mk id "vllm" (ServerRecipe.mk "vllm" []) status job None
                     Dict.empty 0%Z None stopped_at None.

(** The parts of what a registry or manager operation returns. *)
Definition returned {A S : Type} (x : A * S * filesystem) : A := fst (fst x).
Definition registry_after {A S : Type} (x : A * S * filesystem) : S := snd (fst x).
Definition files_after {A S : Type} (x : A * S * filesystem) : filesystem := snd x.

(** The service, or the run, that a registry holds under an id. *)
Definition service_of (id : string) (reg : ServiceRegistry.t)
  : option ServiceInstance.t :=
  Dict.get id (ServiceRegistry._services reg).

Definition run_of (id : string) (reg : RunRegistry.t) : option ClientRun.t :=
  Dict.get id (RunRegistry._runs reg).

(** The service a manager operation works on for the argument [arg]: the
    one registered under [arg], or else the first one whose SLURM job id is
    [arg]. *)
Definition resolves_to (arg : string) (reg : ServiceRegistry.t)
    (s : ServiceInstance.t) : Prop :=
  ServiceRegistry.get arg reg = Ok s
  \/ (ServiceRegistry.get arg reg = Raise (ServiceNotFoundError arg)
      /\ ServiceRegistry.get_by_job_id arg reg = Some s).

(** Both lookups miss. *)
Definition unknown_everywhere (arg : string) (reg : ServiceRegistry.t) : Prop :=
  ServiceRegistry.get arg reg = Raise (ServiceNotFoundError arg)
  /\ ServiceRegistry.get_by_job_id arg reg = None.

(** A number of hours as a number of microseconds. *)
Definition hours (h : Z) : Z := (h * 3600000000)%Z.


(** The text that a sequence of written chunks amounts to. *)
Definition joined (chunks : list string) : string :=
  fold_right append EmptyString chunks.

(** The content of the regular file at a path, if there is one. *)
Definition content_of (p : string) (fs : filesystem) : option string :=
  match Dict.get p fs with
  | Some (RegularFile s) => Some s
  | _ => None
  end.

(** The five steps of the resolution of a target, as the specification
    orders them.  A value is present when it is there and not empty. *)














(** The number of occurrences of a character in a string. *)
Fixpoint count_char (c : ascii) (s : string) : nat :=
  match s with
  | EmptyString => O
  | String c' t => (if Ascii.eqb c' c then 1 else 0) + count_char c t
  end.

(** A field of a row of [squeue]: no white space and no column
    separator in it. *)
Fixpoint plain (s : string) : bool :=
  match s with
  | EmptyString => true
  | String c t => negb (Py.isspace c) && negb (Ascii.eqb c "|") && plain t
  end.

(** The row that [squeue --format=%i|%j|%T|%N|%P|%M|%r] prints for a job,
    with the line feed that ends it. *)
Definition squeue_row (job_id name state node partition time_used reason : string)
  : string :=
  job_id ++ "|" ++ name ++ "|" ++ state ++ "|" ++ node ++ "|" ++ partition
    ++ "|" ++ time_used ++ "|" ++ reason ++ String Py.newline EmptyString.

(** No character of the string is white space. *)
Fixpoint no_space (s : string) : bool :=
  match s with
  | EmptyString => true
  | String c t => negb (Py.isspace c) && no_space t
  end.

(** The operations on a service registry: those of the registry itself and
    the two of the server manager that take an id. *)
Inductive registry_op : Type :=
| Register (service : ServiceInstance.t)
| Unregister (service_id : string)
| UpdateStatus (now : datetime) (service_id : string) (status : ServiceStatus.t)
               (error_message : option string)
| UpdateNode (service_id node : string)
| UpdateEndpoints (service_id : string) (endpoints : Dict.t string)
| CleanupStale (now : datetime) (max_age_hours : Z)
| StopService (orchestrator : Orchestrator) (now : datetime)
              (service_id : string) (force : bool)
| GetServiceStatus (orchestrator : Orchestrator) (now : datetime)
                   (service_id : string).

(** The registry and the files after an operation. *)
Definition run_op {E : JsonEncoder ServiceInstance.t} (op : registry_op)
    (w : ServiceRegistry.t * filesystem) : ServiceRegistry.t * filesystem :=
  let '(reg, fs) := w in
  match op with
  | Register service =>
      let r := ServiceRegistry.register service reg fs in
      (registry_after r, files_after r)
  | Unregister service_id =>
      let r := ServiceRegistry.unregister service_id reg fs in
      (registry_after r, files_after r)
  | UpdateStatus now service_id status error_message =>
      let r := ServiceRegistry.update_status now service_id status
                                             error_message reg fs in
      (registry_after r, files_after r)
  | UpdateNode service_id node =>
      let r := ServiceRegistry.update_node service_id node reg fs in
      (registry_after r, files_after r)
  | UpdateEndpoints service_id endpoints =>
      let r := ServiceRegistry.update_endpoints service_id endpoints reg fs in
      (registry_after r, files_after r)
  | CleanupStale now max_age_hours =>
      let r := ServiceRegistry.cleanup_stale now max_age_hours reg fs in
      (registry_after r, files_after r)
  | StopService orchestrator now service_id force =>
      let r := ServerManager.stop_service orchestrator now service_id force
                                          reg fs in
      (registry_after r, files_after r)
  | GetServiceStatus orchestrator now service_id =>
      let r := ServerManager.get_service_status orchestrator now service_id
                                                reg fs in
      (registry_after r, files_after r)
  end.

Definition run_ops {E : JsonEncoder ServiceInstance.t} (ops : list registry_op)
    (w : ServiceRegistry.t * filesystem) : ServiceRegistry.t * filesystem :=
  fold_left (fun w op => run_op op w) ops w.


(** The port of the last port specification with a given name. *)
Fixpoint last_port_named (name : string) (ports : list PortSpec.t) : option Z :=
  match ports with
  | [] => None
  | p :: rest =>
      match last_port_named name rest with
      | Some z => Some z
      | None =>
          if String.eqb (PortSpec.name p) name then Some (PortSpec.port p)
          else None
      end
  end.

(** A turn of the loop of [_wait_for_ready] after which the loop goes on:
    the job is neither failed nor completed, and when it runs its node is
    not known yet. *)
Definition still_waiting (p : ServerManager.poll) : bool :=
  match ServerManager.job_status p with
  | ServiceStatus.RUNNING => negb (Slurm.truthy_opt (ServerManager.job_node p))
  | ServiceStatus.ERROR | ServiceStatus.STOPPED => false
  | _ => true
  end.

(** A run of the recipe [bench] with the given id, status, job and results
    directory, used where a concrete run is needed. *)
Definition sample_run (id : string) (status : RunStatus.t)
    (job results_path : option string) : ClientRun.t :=
  ClientRun.mk id "bench" (ClientRecipe.mk "bench" Dict.empty) status job None
               None 0%Z None None results_path None.

(** The string has no line feed. *)
Definition no_line_feed (s : string) : bool :=
  negb (Py.contains_char Py.newline s).

(** The lines of a text that stand before its first empty line. *)
Fixpoint lines_before_blank (lines : list string) : list string :=
  match lines with
  | [] => []
  | l :: rest => if Py.truthy l then l :: lines_before_blank rest else []
  end.

(** The head of a batch script: its lines up to the first empty line. *)
Definition script_header (script : string) : list string :=
  lines_before_blank (Py.split Py.newline script).

(** None of the texts that [generate_batch_script] puts into the [#SBATCH]
    lines has a line feed. *)
Definition single_line_fields (config : Slurm.SlurmConfig) (job_name : string)
    (resources : ResourceSpec.t) (output_dir : string) : bool :=
  no_line_feed job_name
  && no_line_feed (ResourceSpec.time resources)
  && no_line_feed (ResourceSpec.partition resources)
  && no_line_feed (ResourceSpec.memory resources)
  && no_line_feed output_dir
  && no_line_feed (Slurm.opt_str (Slurm.account config))
  && no_line_feed (Slurm.qos config).

(** The path holds a directory. *)
Definition is_directory (p : string) (fs : filesystem) : bool :=
  match Dict.get p fs with Some Directory => true | _ => false end.

(** No path of [ds] holds a regular file. *)
Definition no_file_among (ds : list string) (fs : filesystem) : bool :=
  forallb (fun d => negb (is_some (content_of d fs))) ds.

(** The file at [p] can be written as [_persist_state] writes it: no
    directory above it is a regular file, and it is not a directory
    itself. *)
Definition can_persist (p : string) (fs : filesystem) : bool :=
  no_file_among (dirs_above p) fs && negb (is_directory p fs).

(** The number of system calls of [_persist_state] that come before the
    [open]. *)
Definition calls_before_open (p : string) : nat := length (dirs_above p).


(* ===================================================================== *)
(** * Properties *)
(* ===================================================================== *)

Unset Implicit Arguments.

(** ** Dictionaries *)

Section DictFacts.
Variable V : Type.
Implicit Types (d : Dict.t V) (k : string) (v : V).

Lemma Dict_get_set_eq k v d : Dict.get k (Dict.set k v d) = Some v.
Proof.
  induction d as [|[k' v'] d IH]; simpl.
  - now rewrite String.eqb_refl.
  - destruct (String.eqb k k') eqn:Hk; simpl.
    + now rewrite String.eqb_refl.
    + now rewrite Hk.
Qed.

Lemma Dict_get_set_ne k k' v d :
  k <> k' -> Dict.get k' (Dict.set k v d) = Dict.get k' d.
Proof.
  intros Hne. induction d as [|[k0 v0] d IH]; simpl.
  - apply not_eq_sym, String.eqb_neq in Hne. now rewrite Hne.
  - destruct (String.eqb k k0) eqn:Hk; simpl.
    + apply String.eqb_eq in Hk. subst k0.
      apply not_eq_sym, String.eqb_neq in Hne. now rewrite Hne.
    + now rewrite IH.
Qed.

Lemma Dict_get_In k v d : Dict.get k d = Some v -> In (k, v) d.
Proof.
  induction d as [|[k' v'] d IH]; simpl; [discriminate|].
  destruct (String.eqb k k') eqn:Hk.
  - apply String.eqb_eq in Hk. intros [= ->]. left. now subst.
  - intros H. right. now apply IH.
Qed.

Lemma Dict_get_None_keys k d : Dict.get k d = None -> ~ In k (Dict.keys d).
Proof.
  induction d as [|[k' v'] d IH]; simpl; [tauto|].
  destruct (String.eqb k k') eqn:Hk; [discriminate|].
  apply String.eqb_neq in Hk. intros H [Heq|Hin]; [congruence | now apply IH].
Qed.

Lemma Dict_In_keys k v d : In (k, v) d -> In k (Dict.keys d).
Proof. intros H. apply (in_map fst) in H. exact H. Qed.

Lemma Dict_In_get k v d :
  NoDup (Dict.keys d) -> In (k, v) d -> Dict.get k d = Some v.
Proof.
  induction d as [|[k' v'] d IH]; simpl; [tauto|].
  intros Hnd [Heq|Hin].
  - injection Heq as -> ->. now rewrite String.eqb_refl.
  - inversion Hnd as [|? ? Hnotin Hnd']; subst.
    destruct (String.eqb k k') eqn:Hk.
    + apply String.eqb_eq in Hk. subst k'.
      exfalso. apply Hnotin. now apply Dict_In_keys with v.
    + now apply IH.
Qed.

Lemma Dict_keys_set k v d :
  Dict.keys (Dict.set k v d)
  = if Dict.contains k d then Dict.keys d else (Dict.keys d ++ [k])%list.
Proof.
  unfold Dict.contains.
  induction d as [|[k' v'] d IH]; simpl; [reflexivity|].
  destruct (String.eqb k k') eqn:Hk; simpl.
  - apply String.eqb_eq in Hk. now subst.
  - rewrite IH. now destruct (Dict.get k d).
Qed.

Lemma Dict_NoDup_set k v d :
  NoDup (Dict.keys d) -> NoDup (Dict.keys (Dict.set k v d)).
Proof.
  intros Hnd. rewrite Dict_keys_set. unfold Dict.contains.
  destruct (Dict.get k d) eqn:Hg; [assumption|].
  apply Dict_get_None_keys in Hg.
  apply NoDup_rev in Hnd. rewrite <- (rev_involutive (Dict.keys d ++ [k])%list).
  apply NoDup_rev. rewrite rev_app_distr. simpl.
  constructor; [|assumption]. now rewrite <- in_rev.
Qed.

Lemma Dict_NoDup_filter (f : string * V -> bool) d :
  NoDup (Dict.keys d) -> NoDup (Dict.keys (filter f d)).
Proof.
  induction d as [|[k v] d IH]; simpl; [trivial|].
  intros Hnd. inversion Hnd as [|? ? Hnotin Hnd']; subst.
  destruct (f (k, v)); simpl; [|now apply IH].
  constructor; [|now apply IH].
  intros Hin. apply Hnotin. unfold Dict.keys in *.
  apply in_map_iff in Hin as (e & He & Hin). apply filter_In in Hin as [Hin _].
  apply in_map_iff. now exists e.
Qed.


(** Deleting a list of keys one after the other keeps the entries whose
    key is not in the list. *)
Lemma Dict_del_all (ids : list string) d :
  fold_left (fun d service_id => Dict.del service_id d) ids d
  = filter (fun e => negb (Py.mem (fst e) ids)) d.
Proof.
  revert d. induction ids as [|i ids IH]; intros d; simpl.
  - induction d as [|e d IHd]; simpl; [reflexivity | now rewrite <- IHd].
  - rewrite IH. unfold Dict.del. clear IH.
    induction d as [|e d IHd]; simpl; [reflexivity|].
    rewrite (String.eqb_sym (fst e) i).
    destruct (String.eqb i (fst e)); simpl; [assumption|].
    destruct (Py.mem (fst e) ids); simpl; [assumption | now rewrite IHd].
Qed.

End DictFacts.

(** ** Strings *)

Lemma upper_app (a b : string) : Py.upper (a ++ b) = Py.upper a ++ Py.upper b.
Proof.
  induction a as [|c a IH]; simpl; [reflexivity|]. now rewrite IH.
Qed.

Lemma endswith_app (p suf : string) : Py.endswith (p ++ suf) suf = true.
Proof.
  induction p as [|c p IH]; simpl.
  - destruct suf; simpl; rewrite ?String.eqb_refl, ?Ascii.eqb_refl; reflexivity.
  - rewrite IH. apply orb_true_r.
Qed.

Lemma endswith_inv (s suf : string) :
  Py.endswith s suf = true -> exists p, s = p ++ suf.
Proof.
  induction s as [|c s IH]; cbn [Py.endswith]; intros H.
  - rewrite orb_false_r in H. apply String.eqb_eq in H. subst. now exists EmptyString.
  - apply orb_true_iff in H as [H|H].
    + apply String.eqb_eq in H. exists EmptyString. now rewrite H.
    + destruct (IH H) as [p ->]. now exists (String c p).
Qed.

Lemma endswith_iff (s suf : string) :
  Py.endswith s suf = true <-> exists p, s = p ++ suf.
Proof.
  split; [apply endswith_inv|]. intros [p ->]. apply endswith_app.
Qed.

Lemma string_app_assoc (a b c : string) : (a ++ b) ++ c = a ++ (b ++ c).
Proof. induction a as [|x a IH]; simpl; [reflexivity | now rewrite IH]. Qed.

Lemma string_app_empty_r (a : string) : a ++ EmptyString = a.
Proof. induction a as [|x a IH]; simpl; [reflexivity | now rewrite IH]. Qed.

(** ** C6: memory strings *)

Lemma validate_memory_accepts_iff (v : string) :
  ResourceSpec.validate_memory v = Ok (Py.upper v) <-> has_unit_suffix v.
Proof.
  unfold ResourceSpec.validate_memory, has_unit_suffix.
  destruct (existsb _ _) eqn:Hex; simpl.
  - split; [intros _ | reflexivity].
    apply existsb_exists in Hex as (suf & Hin & Hend).
    apply endswith_inv in Hend as [p Hp]. now exists p, suf.
  - split; [discriminate|]. intros (p & suf & Hin & Hp). exfalso.
    assert (existsb (fun suffix => Py.endswith (Py.upper v) suffix)
                    ResourceSpec.memory_suffixes = true) as Ht.
    { apply existsb_exists. exists suf. split; [assumption|].
      rewrite Hp. apply endswith_app. }
    congruence.
Qed.

Lemma validate_memory_rejects (v : string) :
  ~ has_unit_suffix v ->
  ResourceSpec.validate_memory v
  = Raise (ValueError "Memory must end with G, M, K (e.g., 16G, 32GB)").
Proof.
  intros Hno. pose proof (validate_memory_accepts_iff v) as Hiff.
  unfold ResourceSpec.validate_memory in *.
  destruct (existsb _ _); simpl in *; [|reflexivity].
  exfalso. apply Hno, Hiff. reflexivity.
Qed.

Lemma numeric_with_unit_has_suffix (v : string) :
  numeric_with_unit v -> has_unit_suffix v.
Proof.
  intros (num & suf & -> & _ & _ & Hin).
  exists (Py.upper num), (Py.upper suf). split; [assumption|]. apply upper_app.
Qed.

(** C6, the claim as stated fails: a string that is not a numeric value
    followed by a unit suffix is accepted when it ends with a unit letter. *)
Lemma validate_memory_accepts_non_numeric :
  ~ numeric_with_unit "abcG"
  /\ ResourceSpec.validate_memory "abcG" = Ok "ABCG".
Proof.
  split; [|reflexivity].
  intros (num & suf & Heq & Hne & Hdig & _).
  destruct num as [|c num]; [now apply Hne|].
  simpl in Heq. injection Heq as Hc _. subst c. simpl in Hdig. discriminate.
Qed.

(** C6, amended: [validate_memory] accepts exactly the strings whose
    upper-cased form ends with G, M, K, GB, MB or KB, whatever precedes the
    suffix, and stores the upper-cased string; every string of the form
    numeric value plus unit suffix is among them, and every string without
    such a suffix, like "16" and "16X", is rejected at construction. *)
Theorem validate_memory_checks_suffix_only (v : string) :
  (numeric_with_unit v -> ResourceSpec.validate_memory v = Ok (Py.upper v))
  /\ (has_unit_suffix v -> ResourceSpec.validate_memory v = Ok (Py.upper v))
  /\ (~ has_unit_suffix v ->
      ResourceSpec.validate_memory v
      = Raise (ValueError "Memory must end with G, M, K (e.g., 16G, 32GB)"))
  /\ map ResourceSpec.validate_memory ["16G"; "32GB"; "1024M"; "512MB"; "1024K"]
     = [Ok "16G"; Ok "32GB"; Ok "1024M"; Ok "512MB"; Ok "1024K"]
  /\ (forall e, In e (map ResourceSpec.validate_memory ["16"; "16X"]) ->
      exists x, e = Raise x).
Proof.
  split; [|split; [|split; [|split]]].
  - intros H. apply validate_memory_accepts_iff.
    now apply numeric_with_unit_has_suffix.
  - apply validate_memory_accepts_iff.
  - apply validate_memory_rejects.
  - reflexivity.
  - simpl. intros e [<-|[<-|[]]]; eexists; reflexivity.
Qed.

Lemma validate_memory_checks_suffix_only_witness :
  ResourceSpec.validate_memory "16gb" = Ok "16GB"
  /\ ResourceSpec.validate_memory "16X"
     = Raise (ValueError "Memory must end with G, M, K (e.g., 16G, 32GB)").
Proof.
  split.
  - apply (proj1 (validate_memory_checks_suffix_only "16gb")).
    exists "16", "gb". repeat split; simpl; try discriminate; auto 10.
  - apply (proj1 (proj2 (proj2 (validate_memory_checks_suffix_only "16X")))).
    intros (p & suf & Hin & Hp). simpl in Hin, Hp.
    assert (Py.endswith "16X" suf = true) as He
      by (apply endswith_iff; now exists p).
    repeat (destruct Hin as [<-|Hin]; [vm_compute in He; discriminate|]).
    destruct Hin.
Defined.

(** ** C4: the status of a job *)

Lemma status_of_state_mapped (tok : string) :
  In (Slurm.status_of_state tok) mapped_statuses.
Proof.
  unfold Slurm.status_of_state, mapped_statuses.
  repeat match goal with
         | |- context [if ?b then _ else _] => destruct b
         end; simpl; auto 10.
Qed.

Lemma status_of_state_unrecognised (tok : string) :
  Py.mem (Py.upper tok) known_states = false ->
  Slurm.status_of_state tok = ServiceStatus.UNKNOWN.
Proof.
  unfold Slurm.status_of_state, Py.mem, known_states.
  cbn [existsb]. intros H.
  repeat (apply orb_false_elim in H as [?H H]).
  repeat match goal with
         | Heq : String.eqb _ _ = false |- _ => rewrite Heq; clear Heq
         end.
  reflexivity.
Qed.

Lemma get_job_info_no_rows (squeue sacct : Slurm.run_outcome) :
  no_rows squeue = true -> no_rows sacct = true ->
  Slurm.get_job_info squeue sacct = None.
Proof.
  unfold Slurm.get_job_info, Slurm._get_completed_job_info, no_rows.
  intros Hq Ha.
  destruct squeue as [rq| |]; simpl; try reflexivity.
  rewrite Hq.
  destruct sacct as [ra| |]; simpl; try reflexivity.
  now rewrite Ha.
Qed.

(** C4: [get_job_status] returns for every behaviour of the two scheduler
    commands, failures included, and returns one of PENDING, RUNNING,
    STOPPING, STOPPED, ERROR, UNKNOWN; a state token that is not in the
    table gives UNKNOWN, and so does a job that neither the queue nor the
    accounting shows. *)
Theorem get_job_status_total (squeue sacct : Slurm.run_outcome) :
  exists s,
    Slurm.get_job_status squeue sacct = Ok s
    /\ In s mapped_statuses
    /\ (forall info,
          Slurm.get_job_info squeue sacct = Some info ->
          Py.mem (Py.upper (Slurm.state info)) known_states = false ->
          s = ServiceStatus.UNKNOWN)
    /\ (Slurm.get_job_info squeue sacct = None -> s = ServiceStatus.UNKNOWN)
    /\ (no_rows squeue = true -> no_rows sacct = true ->
        s = ServiceStatus.UNKNOWN).
Proof.
  unfold Slurm.get_job_status.
  destruct (Slurm.get_job_info squeue sacct) as [info|] eqn:Hinfo.
  - exists (Slurm.status_of_state (Slurm.state info)).
    split; [reflexivity|]. split; [apply status_of_state_mapped|].
    split; [|split].
    + intros info' [= <-]. apply status_of_state_unrecognised.
    + discriminate.
    + intros Hq Ha. rewrite (get_job_info_no_rows squeue sacct Hq Ha) in Hinfo.
      discriminate.
  - exists ServiceStatus.UNKNOWN. unfold mapped_statuses. simpl.
    repeat split; auto 10.
Qed.

Lemma get_job_status_total_witness :
  Slurm.get_job_status
    (Slurm.Completed (Slurm.mkCompleted 0 "42|srv|SUSPENDED|mel2091|gpu|0:10|None" EmptyString))
    Slurm.FileNotFound = Ok ServiceStatus.UNKNOWN
  /\ Slurm.get_job_status
       (Slurm.Completed (Slurm.mkCompleted 0 EmptyString EmptyString)) Slurm.TimeoutExpired
     = Ok ServiceStatus.UNKNOWN.
Proof.
  split.
  - destruct (get_job_status_total
                (Slurm.Completed
                   (Slurm.mkCompleted 0 "42|srv|SUSPENDED|mel2091|gpu|0:10|None" EmptyString))
                Slurm.FileNotFound) as (s & Hs & _ & Hunk & _).
    rewrite Hs. f_equal.
    apply (Hunk (Slurm.mkJobInfo "42" "srv" "SUSPENDED" (Some "mel2091") "gpu"
                                 "0:10" (Some "None"))); reflexivity.
  - destruct (get_job_status_total
                (Slurm.Completed (Slurm.mkCompleted 0 EmptyString EmptyString))
                Slurm.TimeoutExpired) as (s & Hs & _ & _ & _ & Habs).
    rewrite Hs. f_equal. apply Habs; reflexivity.
Defined.

(** ** C5: the job id in the submission output *)

Lemma prefix_split (p s : string) :
  String.prefix p s = true -> s = p ++ Py.drop (String.length p) s.
Proof.
  revert s. induction p as [|c p IH]; intros s H; [reflexivity|].
  destruct s as [|c' s]; simpl in H; [discriminate|].
  destruct (Ascii.ascii_dec c c') as [->|Hne]; [|discriminate].
  simpl. f_equal. now apply IH.
Qed.

Lemma prefix_app (p s : string) : String.prefix p (p ++ s) = true.
Proof.
  induction p as [|c p IH]; simpl; [now destruct s|].
  destruct (Ascii.ascii_dec c c); [assumption|congruence].
Qed.

Lemma drop_app (p s : string) : Py.drop (String.length p) (p ++ s) = s.
Proof. induction p as [|c p IH]; simpl; [reflexivity | assumption]. Qed.

Lemma take_digits_split (t : string) :
  exists post,
    t = Slurm.take_digits t ++ post
    /\ Py.all_digits (Slurm.take_digits t) = true
    /\ starts_with_digit post = false.
Proof.
  induction t as [|c t (post & Heq & Hall & Hpost)]; simpl.
  - now exists EmptyString.
  - destruct (Py.isdigit c) eqn:Hc.
    + exists post. simpl. rewrite Hc, Hall. now rewrite <- Heq.
    + exists (String c t). simpl. now rewrite Hc.
Qed.

Lemma take_digits_app (d post : string) :
  Py.all_digits d = true -> starts_with_digit post = false ->
  Slurm.take_digits (d ++ post) = d.
Proof.
  induction d as [|c d IH]; simpl; intros Hd Hpost.
  - destruct post as [|c post]; simpl in *; [reflexivity | now rewrite Hpost].
  - apply andb_true_iff in Hd as [Hc Hd]. rewrite Hc. f_equal. now apply IH.
Qed.

Lemma take_digits_nonempty (d post : string) :
  d <> EmptyString -> Py.all_digits d = true -> Slurm.take_digits (d ++ post) <> EmptyString.
Proof.
  destruct d as [|c d]; [congruence|]. simpl. intros _ Hd.
  apply andb_true_iff in Hd as [-> _]. discriminate.
Qed.

Lemma nonempty_Some (s g : string) :
  Py.nonempty s = Some g -> s = g /\ g <> EmptyString.
Proof.
  unfold Py.nonempty. destruct s; simpl; [discriminate|].
  intros [= <-]. split; [reflexivity | discriminate].
Qed.

Lemma nonempty_of (s : string) : s <> EmptyString -> Py.nonempty s = Some s.
Proof. destruct s; [congruence | reflexivity]. Qed.

Lemma match_job_id_sound (s g : string) :
  Slurm.match_job_id s = Some g -> acknowledges s g.
Proof.
  unfold Slurm.match_job_id, Py.startswith.
  destruct (String.prefix _ s) eqn:Hp; [|discriminate].
  intros Hg. apply nonempty_Some in Hg as [Hg Hne].
  apply prefix_split in Hp.
  destruct (take_digits_split
              (Py.drop (String.length Slurm.submitted_batch_job) s))
    as (post & Heq & Hall & Hpost).
  rewrite Hg in Heq, Hall.
  exists EmptyString, post. split; [|split].
  - split; [|split]; try assumption.
    rewrite Hp at 1. now rewrite Heq at 1.
  - assumption.
  - intros pre' d' post' _. simpl. lia.
Qed.

Lemma match_job_id_here (d post : string) :
  d <> EmptyString -> Py.all_digits d = true ->
  exists g, Slurm.match_job_id (Slurm.submitted_batch_job ++ d ++ post) = Some g.
Proof.
  intros Hne Hd. unfold Slurm.match_job_id, Py.startswith.
  rewrite prefix_app, drop_app.
  eexists. apply nonempty_of. now apply take_digits_nonempty.
Qed.

Lemma search_job_id_sound (s g : string) :
  Slurm.search_job_id s = Some g -> acknowledges s g.
Proof.
  induction s as [|c s IH]; cbn [Slurm.search_job_id].
  - destruct (Slurm.match_job_id EmptyString) eqn:Hm; [|discriminate].
    intros [= <-]. now apply match_job_id_sound.
  - destruct (Slurm.match_job_id (String c s)) eqn:Hm.
    + intros [= <-]. now apply match_job_id_sound.
    + intros H. destruct (IH H) as (pre & post & (-> & Hne & Hd) & Hpost & Hfirst).
      exists (String c pre), post. split; [|split].
      * now split.
      * assumption.
      * intros pre' d' post' (Heq & Hne' & Hd').
        destruct pre' as [|c' pre'].
        -- exfalso. cbn [append] in Heq. rewrite Heq in Hm.
           destruct (match_job_id_here d' post' Hne' Hd') as (g' & Hg').
           congruence.
        -- cbn [append] in Heq. injection Heq as _ Heq.
           simpl. apply le_n_S. apply (Hfirst pre' d' post').
           now split.
Qed.

Lemma search_job_id_complete (pre d post : string) :
  d <> EmptyString -> Py.all_digits d = true ->
  exists g,
    Slurm.search_job_id (pre ++ Slurm.submitted_batch_job ++ d ++ post) = Some g.
Proof.
  intros Hne Hd. induction pre as [|c pre (g & IH)].
  - destruct (match_job_id_here d post Hne Hd) as (g & Hg).
    exists g. cbn [append]. remember (Slurm.submitted_batch_job ++ d ++ post) as s.
    destruct s; cbn [Slurm.search_job_id]; now rewrite Hg.
  - cbn [append Slurm.search_job_id].
    destruct (Slurm.match_job_id _) as [g'|]; [now exists g' | now exists g].
Qed.

Lemma search_job_id_first (d post : string) :
  d <> EmptyString -> Py.all_digits d = true -> starts_with_digit post = false ->
  Slurm.search_job_id (Slurm.submitted_batch_job ++ d ++ post) = Some d.
Proof.
  intros Hne Hd Hpost.
  assert (Slurm.match_job_id (Slurm.submitted_batch_job ++ d ++ post) = Some d)
    as Hm.
  { unfold Slurm.match_job_id, Py.startswith.
    rewrite prefix_app, drop_app, take_digits_app by assumption.
    now apply nonempty_of. }
  remember (Slurm.submitted_batch_job ++ d ++ post) as s.
  destruct s; cbn [Slurm.search_job_id]; now rewrite Hm.
Qed.

Lemma search_job_id_none (out : string) :
  (forall pre d post, ~ occurs_at out pre d post) ->
  Slurm.search_job_id out = None.
Proof.
  intros Hno. destruct (Slurm.search_job_id out) as [g|] eqn:Hs; [|reflexivity].
  exfalso. apply search_job_id_sound in Hs as (pre & post & Hocc & _).
  now apply (Hno pre g post).
Qed.

(** C5, the claim as stated fails: an output whose last numeric token is
    a job id but which lacks the acknowledgement text is refused, and for an
    output that goes on after the acknowledgement the result is the number
    that follows the text, not the last numeric token. *)
Lemma submit_job_last_numeric_token_fails :
  (last_numeric_token "sbatch: job 12345678" = Some "12345678"
   /\ fst (Slurm.submit_job "#!/bin/bash" "/tmp/job.sh"
             (Slurm.Completed (Slurm.mkCompleted 0 "sbatch: job 12345678" EmptyString))
             Dict.empty)
      = Raise (SlurmError "submit"
                 "Could not parse job ID from: sbatch: job 12345678"))
  /\ (last_numeric_token "Submitted batch job 123 on cluster 2" = Some "2"
      /\ fst (Slurm.submit_job "#!/bin/bash" "/tmp/job.sh"
                (Slurm.Completed
                   (Slurm.mkCompleted 0 "Submitted batch job 123 on cluster 2"
                                      EmptyString))
                Dict.empty)
         = Ok "123").
Proof. repeat split. Qed.

(** C5, amended: when the script file can be written and the submission
    command exits with code 0, [submit_job] returns a job id exactly when
    the output contains the text "Submitted batch job " followed by a
    digit, and the id is then the whole run of digits after the first such
    occurrence, so "Submitted batch job 12345678" gives "12345678".
    Every other output fails with a SLURM error whose operation is
    "submit". *)
Theorem submit_job_parses_acknowledgement
    (script_content script_path : string) (r : Slurm.CompletedProcess)
    (fs : filesystem) :
  Dict.get script_path fs <> Some Directory ->
  Slurm.returncode r = 0%Z ->
  let res := fst (Slurm.submit_job script_content script_path
                                   (Slurm.Completed r) fs) in
  (forall g, res = Ok g -> acknowledges (Slurm.stdout r) g)
  /\ ((exists pre d post, occurs_at (Slurm.stdout r) pre d post) ->
      exists g, res = Ok g)
  /\ ((forall pre d post, ~ occurs_at (Slurm.stdout r) pre d post) ->
      res = Raise (SlurmError "submit"
                     ("Could not parse job ID from: " ++ Slurm.stdout r)))
  /\ (forall d post,
        Slurm.stdout r = Slurm.submitted_batch_job ++ d ++ post ->
        d <> EmptyString -> Py.all_digits d = true -> starts_with_digit post = false ->
        res = Ok d).
Proof.
  intros Hfile Hrc res.
  assert (res = match Slurm.search_job_id (Slurm.stdout r) with
                | Some g => Ok g
                | None => Raise (SlurmError "submit"
                                   ("Could not parse job ID from: "
                                      ++ Slurm.stdout r))
                end) as Hres.
  { subst res. unfold Slurm.submit_job, Slurm.write_text.
    cbn [fs_step].
    destruct (Dict.get script_path fs) as [[c|]|] eqn:Hget;
      try congruence;
      cbn [fs_step]; rewrite Dict_get_set_eq;
      unfold Slurm._run_command; rewrite Hrc; cbn [Z.eqb negb andb];
      destruct (Slurm.search_job_id (Slurm.stdout r)); reflexivity. }
  rewrite Hres. clear Hres res. split; [|split; [|split]].
  - intros g. destruct (Slurm.search_job_id _) as [g'|] eqn:Hs; [|discriminate].
    intros [= <-]. now apply search_job_id_sound.
  - intros (pre & d & post & Heq & Hne & Hd). rewrite Heq.
    destruct (search_job_id_complete pre d post Hne Hd) as (g' & ->).
    now exists g'.
  - intros Hno. now rewrite search_job_id_none.
  - intros d post Heq Hne Hd Hpost.
    now rewrite Heq, search_job_id_first.
Qed.

Lemma submit_job_parses_acknowledgement_witness :
  fst (Slurm.submit_job "#!/bin/bash" "/tmp/job.sh"
         (Slurm.Completed (Slurm.mkCompleted 0 "Submitted batch job 12345678" EmptyString))
         Dict.empty) = Ok "12345678".
Proof.
  refine (proj2 (proj2 (proj2
            (submit_job_parses_acknowledgement "#!/bin/bash" "/tmp/job.sh"
               (Slurm.mkCompleted 0 "Submitted batch job 12345678" EmptyString)
               Dict.empty _ _))) "12345678" EmptyString _ _ _ _);
    try reflexivity; discriminate.
Defined.

(** ** The registries *)

Section ServiceRegistryFacts.
Context {E : JsonEncoder ServiceInstance.t}.

Lemma apply_status_status now st msg s :
  ServiceInstance.status (ServiceRegistry.apply_status now st msg s) = st.
Proof.
  unfold ServiceRegistry.apply_status.
  destruct s as [? ? ? ? ? ? ? ? started ? ?].
  destruct (truthy_message msg), st, started; reflexivity.
Qed.

Lemma apply_status_started_at now st msg s :
  ServiceInstance.started_at (ServiceRegistry.apply_status now st msg s)
  = if ServiceStatus.eqb st ServiceStatus.RUNNING
       && negb (is_some (ServiceInstance.started_at s))
    then Some now else ServiceInstance.started_at s.
Proof.
  unfold ServiceRegistry.apply_status.
  destruct s as [? ? ? ? ? ? ? ? started ? ?].
  destruct (truthy_message msg), st, started; reflexivity.
Qed.

Lemma apply_status_stopped_at now st msg s :
  ServiceInstance.stopped_at (ServiceRegistry.apply_status now st msg s)
  = if ServiceStatus.in_stopped_error st
    then Some now else ServiceInstance.stopped_at s.
Proof.
  unfold ServiceRegistry.apply_status.
  destruct s as [? ? ? ? ? ? ? ? started ? ?].
  destruct (truthy_message msg), st, started; reflexivity.
Qed.

Lemma apply_status_id now st msg s :
  ServiceInstance.id (ServiceRegistry.apply_status now st msg s)
  = ServiceInstance.id s.
Proof.
  unfold ServiceRegistry.apply_status.
  destruct s as [? ? ? ? ? ? ? ? started ? ?].
  destruct (truthy_message msg), st, started; reflexivity.
Qed.

Lemma update_status_found now id st msg self fs s :
  Dict.get id (ServiceRegistry._services self) = Some s ->
  ServiceRegistry.update_status now id st msg self fs
  = (true,
     ServiceRegistry.with_services
       (Dict.set id (ServiceRegistry.apply_status now st msg s)
                 (ServiceRegistry._services self)) self,
     ServiceRegistry._persist_state
       (ServiceRegistry.with_services
          (Dict.set id (ServiceRegistry.apply_status now st msg s)
                    (ServiceRegistry._services self)) self) fs).
Proof. intros H. unfold ServiceRegistry.update_status. now rewrite H. Qed.

Lemma update_status_lookup now id st msg self fs s :
  Dict.get id (ServiceRegistry._services self) = Some s ->
  Dict.get id (ServiceRegistry._services
                 (snd (fst (ServiceRegistry.update_status now id st msg self fs))))
  = Some (ServiceRegistry.apply_status now st msg s).
Proof.
  intros H. rewrite (update_status_found now id st msg self fs s H). simpl.
  apply Dict_get_set_eq.
Qed.

End ServiceRegistryFacts.

Section RunRegistryFacts.
Context {E : JsonEncoder ClientRun.t}.

Lemma run_apply_status_status now st msg r :
  ClientRun.status (RunRegistry.apply_status now st msg r) = st.
Proof.
  unfold RunRegistry.apply_status.
  destruct r as [? ? ? ? ? ? ? ? started ? ? ?].
  destruct (truthy_message msg), st, started; reflexivity.
Qed.

Lemma run_apply_status_started_at now st msg r :
  ClientRun.started_at (RunRegistry.apply_status now st msg r)
  = if RunStatus.eqb st RunStatus.RUNNING
       && negb (is_some (ClientRun.started_at r))
    then Some now else ClientRun.started_at r.
Proof.
  unfold RunRegistry.apply_status.
  destruct r as [? ? ? ? ? ? ? ? started ? ? ?].
  destruct (truthy_message msg), st, started; reflexivity.
Qed.

Lemma run_apply_status_completed_at now st msg r :
  ClientRun.completed_at (RunRegistry.apply_status now st msg r)
  = if RunStatus.in_completed_failed_canceled st
    then Some now else ClientRun.completed_at r.
Proof.
  unfold RunRegistry.apply_status.
  destruct r as [? ? ? ? ? ? ? ? started ? ? ?].
  destruct (truthy_message msg), st, started; reflexivity.
Qed.

Lemma run_update_status_lookup now id st msg self fs r :
  Dict.get id (RunRegistry._runs self) = Some r ->
  fst (fst (RunRegistry.update_status now id st msg self fs)) = true
  /\ Dict.get id (RunRegistry._runs
                    (snd (fst (RunRegistry.update_status now id st msg self fs))))
     = Some (RunRegistry.apply_status now st msg r).
Proof.
  intros H. unfold RunRegistry.update_status. rewrite H. simpl.
  split; [reflexivity | apply Dict_get_set_eq].
Qed.

End RunRegistryFacts.

(** ** The registry holds every service under its own id *)

Lemma Dict_In_set {V : Type} (k k0 : string) (v v0 : V) (d : Dict.t V) :
  In (k, v) (Dict.set k0 v0 d) -> (k, v) = (k0, v0) \/ In (k, v) d.
Proof.
  induction d as [|[k' v'] d IH]; simpl.
  - intros [H|[]]. left. now symmetry.
  - destruct (String.eqb k0 k'); simpl.
    + intros [H|H]; [left; now symmetry | right; now right].
    + intros [H|H]; [right; now left|].
      destruct (IH H) as [Heq|Hin]; [now left | right; now right].
Qed.

Lemma keyed_by_id_empty (path : option string) :
  keyed_by_id (ServiceRegistry.mk Dict.empty path).
Proof. split; [constructor | intros k s []]. Qed.

Lemma keyed_by_id_set (reg : ServiceRegistry.t) (s : ServiceInstance.t) :
  keyed_by_id reg ->
  keyed_by_id
    (ServiceRegistry.with_services
       (Dict.set (ServiceInstance.id s) s (ServiceRegistry._services reg)) reg).
Proof.
  intros [Hnd Hid]. split; simpl.
  - now apply Dict_NoDup_set.
  - intros k s' Hin. apply Dict_In_set in Hin as [[= -> ->]|Hin];
      [reflexivity | now apply Hid].
Qed.

Lemma keyed_by_id_filter (reg : ServiceRegistry.t)
    (f : string * ServiceInstance.t -> bool) :
  keyed_by_id reg ->
  keyed_by_id
    (ServiceRegistry.with_services (filter f (ServiceRegistry._services reg))
                                   reg).
Proof.
  intros [Hnd Hid]. split; simpl.
  - now apply Dict_NoDup_filter.
  - intros k s Hin. apply filter_In in Hin as [Hin _]. now apply Hid.
Qed.

Section RegistryInvariant.
Context {E : JsonEncoder ServiceInstance.t}.

Lemma register_keyed_by_id service reg fs :
  keyed_by_id reg ->
  keyed_by_id (registry_after (ServiceRegistry.register service reg fs)).
Proof. apply keyed_by_id_set. Qed.

Lemma unregister_keyed_by_id id reg fs :
  keyed_by_id reg ->
  keyed_by_id (registry_after (ServiceRegistry.unregister id reg fs)).
Proof.
  intros Hwf. unfold ServiceRegistry.unregister, registry_after.
  destruct (negb _); simpl; [assumption|].
  now apply keyed_by_id_filter.
Qed.

Lemma update_status_keyed_by_id now id st msg reg fs :
  keyed_by_id reg ->
  keyed_by_id
    (registry_after (ServiceRegistry.update_status now id st msg reg fs)).
Proof.
  intros Hwf. unfold ServiceRegistry.update_status, registry_after.
  destruct (Dict.get id (ServiceRegistry._services reg)) as [s|] eqn:Hget;
    simpl; [|assumption].
  assert (ServiceInstance.id (ServiceRegistry.apply_status now st msg s) = id)
    as Hid.
  { rewrite apply_status_id. apply (proj2 Hwf). now apply Dict_get_In. }
  rewrite <- Hid at 1. now apply keyed_by_id_set.
Qed.

Lemma update_node_keyed_by_id id node reg fs :
  keyed_by_id reg ->
  keyed_by_id (registry_after (ServiceRegistry.update_node id node reg fs)).
Proof.
  intros Hwf. unfold ServiceRegistry.update_node, registry_after.
  destruct (Dict.get id (ServiceRegistry._services reg)) as [s|] eqn:Hget;
    simpl; [|assumption].
  assert (ServiceInstance.id (ServiceInstance.set_node (Some node) s) = id)
    as Hid by (simpl; apply (proj2 Hwf); now apply Dict_get_In).
  rewrite <- Hid at 1. now apply keyed_by_id_set.
Qed.

Lemma update_endpoints_keyed_by_id id endpoints reg fs :
  keyed_by_id reg ->
  keyed_by_id
    (registry_after (ServiceRegistry.update_endpoints id endpoints reg fs)).
Proof.
  intros Hwf. unfold ServiceRegistry.update_endpoints, registry_after.
  destruct (Dict.get id (ServiceRegistry._services reg)) as [s|] eqn:Hget;
    simpl; [|assumption].
  assert (ServiceInstance.id (ServiceInstance.set_endpoints endpoints s) = id)
    as Hid by (simpl; apply (proj2 Hwf); now apply Dict_get_In).
  rewrite <- Hid at 1. now apply keyed_by_id_set.
Qed.

Lemma cleanup_stale_keyed_by_id now max_age_hours reg fs :
  keyed_by_id reg ->
  keyed_by_id
    (registry_after (ServiceRegistry.cleanup_stale now max_age_hours reg fs)).
Proof.
  intros Hwf. unfold ServiceRegistry.cleanup_stale, registry_after. simpl.
  rewrite Dict_del_all. now apply keyed_by_id_filter.
Qed.

End RegistryInvariant.

(** ** C2: the timestamps that [update_status] stamps *)

(** C2, the claim as stated fails: applying STOPPED a second time stamps
    [stopped_at] again, and applying COMPLETED a second time stamps
    [completed_at] again. *)
Lemma update_status_restamps_terminal :
  let E := keys_encoder ServiceInstance.t in
  let reg0 :=
    ServiceRegistry.mk
      [("svc", sample_service "svc" ServiceStatus.RUNNING None None)] None in
  let r1 := ServiceRegistry.update_status 10%Z "svc" ServiceStatus.STOPPED None
                                          reg0 [] in
  let r2 := ServiceRegistry.update_status 20%Z "svc" ServiceStatus.STOPPED None
                                          (registry_after r1) (files_after r1) in
  option_map ServiceInstance.stopped_at (service_of "svc" (registry_after r1))
  = Some (Some 10%Z)
  /\ option_map ServiceInstance.stopped_at (service_of "svc" (registry_after r2))
     = Some (Some 20%Z)
  /\ option_map ServiceInstance.stopped_at (service_of "svc" (registry_after r2))
     <> option_map ServiceInstance.stopped_at
                   (service_of "svc" (registry_after r1)).
Proof. repeat split. discriminate. Qed.

(** C2, amended: for a registered id, [update_status] sets [started_at] to
    the time of the call exactly when the target status is RUNNING and
    [started_at] is not set yet, and sets the terminal timestamp
    ([stopped_at] of a service for STOPPED and ERROR, [completed_at] of a
    run for COMPLETED, FAILED and CANCELED) to the time of the call whenever
    the target status is terminal.  Applying the same status a second time
    leaves [started_at] as the first call left it; the terminal timestamp
    carries the time of the latest call with a terminal target. *)
Theorem update_status_timestamps
    (ES : JsonEncoder ServiceInstance.t) (ER : JsonEncoder ClientRun.t)
    (now later : datetime) (id : string) (msg msg' : option string)
    (fs : filesystem) :
  (forall (st : ServiceStatus.t) (self : ServiceRegistry.t) (s : ServiceInstance.t),
      service_of id self = Some s ->
      let r1 := ServiceRegistry.update_status now id st msg self fs in
      let r2 := ServiceRegistry.update_status later id st msg'
                  (registry_after r1) (files_after r1) in
      exists s1 s2,
        returned r1 = true
        /\ service_of id (registry_after r1) = Some s1
        /\ service_of id (registry_after r2) = Some s2
        /\ ServiceInstance.started_at s1
           = (if ServiceStatus.eqb st ServiceStatus.RUNNING
                 && negb (is_some (ServiceInstance.started_at s))
              then Some now else ServiceInstance.started_at s)
        /\ ServiceInstance.stopped_at s1
           = (if ServiceStatus.in_stopped_error st
              then Some now else ServiceInstance.stopped_at s)
        /\ ServiceInstance.started_at s2 = ServiceInstance.started_at s1
        /\ ServiceInstance.stopped_at s2
           = (if ServiceStatus.in_stopped_error st
              then Some later else ServiceInstance.stopped_at s))
  /\ (forall (st : RunStatus.t) (self : RunRegistry.t) (r : ClientRun.t),
      run_of id self = Some r ->
      let r1 := RunRegistry.update_status now id st msg self fs in
      let r2 := RunRegistry.update_status later id st msg'
                  (registry_after r1) (files_after r1) in
      exists c1 c2,
        returned r1 = true
        /\ run_of id (registry_after r1) = Some c1
        /\ run_of id (registry_after r2) = Some c2
        /\ ClientRun.started_at c1
           = (if RunStatus.eqb st RunStatus.RUNNING
                 && negb (is_some (ClientRun.started_at r))
              then Some now else ClientRun.started_at r)
        /\ ClientRun.completed_at c1
           = (if RunStatus.in_completed_failed_canceled st
              then Some now else ClientRun.completed_at r)
        /\ ClientRun.started_at c2 = ClientRun.started_at c1
        /\ ClientRun.completed_at c2
           = (if RunStatus.in_completed_failed_canceled st
              then Some later else ClientRun.completed_at r)).
Proof.
  split.
  - intros st self s Hs r1 r2.
    unfold service_of, returned, registry_after, files_after in *.
    pose proof (update_status_lookup now id st msg self fs s Hs) as H1.
    fold r1 in H1.
    pose proof (update_status_lookup later id st msg' (snd (fst r1)) (snd r1)
                  _ H1) as H2.
    fold r2 in H2.
    exists (ServiceRegistry.apply_status now st msg s),
           (ServiceRegistry.apply_status later st msg'
              (ServiceRegistry.apply_status now st msg s)).
    repeat split; try assumption.
    + subst r1. now rewrite (update_status_found now id st msg self fs s Hs).
    + apply apply_status_started_at.
    + apply apply_status_stopped_at.
    + rewrite !apply_status_started_at.
      destruct st, (ServiceInstance.started_at s); reflexivity.
    + rewrite !apply_status_stopped_at. now destruct st.
  - intros st self r Hr r1 r2.
    unfold run_of, returned, registry_after, files_after in *.
    destruct (run_update_status_lookup now id st msg self fs r Hr) as [Hok H1].
    fold r1 in Hok, H1.
    destruct (run_update_status_lookup later id st msg' (snd (fst r1)) (snd r1)
                _ H1) as [_ H2].
    fold r2 in H2.
    exists (RunRegistry.apply_status now st msg r),
           (RunRegistry.apply_status later st msg'
              (RunRegistry.apply_status now st msg r)).
    repeat split; try assumption.
    + apply run_apply_status_started_at.
    + apply run_apply_status_completed_at.
    + rewrite !run_apply_status_started_at.
      destruct st, (ClientRun.started_at r); reflexivity.
    + rewrite !run_apply_status_completed_at. now destruct st.
Qed.

Lemma update_status_timestamps_witness :
  let E := keys_encoder ServiceInstance.t in
  let reg0 :=
    ServiceRegistry.mk
      [("svc", sample_service "svc" ServiceStatus.PENDING None None)] None in
  let r1 := ServiceRegistry.update_status 10%Z "svc" ServiceStatus.RUNNING None
                                          reg0 [] in
  let r2 := ServiceRegistry.update_status 20%Z "svc" ServiceStatus.RUNNING None
                                          (registry_after r1) (files_after r1) in
  exists s1 s2,
    service_of "svc" (registry_after r1) = Some s1
    /\ service_of "svc" (registry_after r2) = Some s2
    /\ ServiceInstance.started_at s1 = Some 10%Z
    /\ ServiceInstance.started_at s2 = ServiceInstance.started_at s1.
Proof.
  intros E reg0 r1 r2.
  destruct (proj1 (update_status_timestamps E (keys_encoder ClientRun.t)
                     10%Z 20%Z "svc" None None [])
                  ServiceStatus.RUNNING reg0
                  (sample_service "svc" ServiceStatus.PENDING None None)
                  eq_refl)
    as (s1 & s2 & _ & H1 & H2 & Hst & _ & Hkeep & _).
  exists s1, s2.
  split; [exact H1 | split; [exact H2 | split; [exact Hst | exact Hkeep]]].
Defined.

(** ** C9: operations on an id that is not registered *)

(** C9: for an id that the registry does not hold, [update_status],
    [update_node], [update_endpoints] and [unregister] return False and
    leave the registry and the file system as they are; [get] raises
    [ServiceNotFoundError]. *)
Theorem missing_id_changes_nothing
    (E : JsonEncoder ServiceInstance.t) (now : datetime) (id : string)
    (st : ServiceStatus.t) (msg : option string) (node : string)
    (endpoints : Dict.t string) (self : ServiceRegistry.t) (fs : filesystem) :
  service_of id self = None ->
  ServiceRegistry.update_status now id st msg self fs = (false, self, fs)
  /\ ServiceRegistry.update_node id node self fs = (false, self, fs)
  /\ ServiceRegistry.update_endpoints id endpoints self fs = (false, self, fs)
  /\ ServiceRegistry.unregister id self fs = (false, self, fs)
  /\ ServiceRegistry.get id self = Raise (ServiceNotFoundError id).
Proof.
  unfold service_of. intros H.
  unfold ServiceRegistry.update_status, ServiceRegistry.update_node,
    ServiceRegistry.update_endpoints, ServiceRegistry.unregister,
    ServiceRegistry.get, Dict.contains.
  rewrite H. repeat split.
Qed.

Lemma missing_id_changes_nothing_witness :
  let E := keys_encoder ServiceInstance.t in
  let reg :=
    ServiceRegistry.mk
      [("svc", sample_service "svc" ServiceStatus.RUNNING None None)]
      (Some "/logs/service_registry.json") in
  let fs := [("/logs/service_registry.json", RegularFile "svc;")] in
  ServiceRegistry.update_status 5%Z "ghost" ServiceStatus.ERROR (Some "boom")
                                reg fs = (false, reg, fs)
  /\ ServiceRegistry.unregister "ghost" reg fs = (false, reg, fs)
  /\ ServiceRegistry.get "ghost" reg = Raise (ServiceNotFoundError "ghost").
Proof.
  intros E reg fs.
  destruct (missing_id_changes_nothing E 5%Z "ghost" ServiceStatus.ERROR
              (Some "boom") "mel2091" [] reg fs eq_refl)
    as (H1 & _ & _ & H4 & H5).
  split; [exact H1 | split; [exact H4 | exact H5]].
Defined.

(** ** The lookup of the managers *)

Lemma get_by_job_id_find (job_id : string) (reg : ServiceRegistry.t) :
  ServiceRegistry.get_by_job_id job_id reg
  = option_map snd (ServerManager.find_by_job_id job_id reg).
Proof.
  unfold ServiceRegistry.get_by_job_id, ServerManager.find_by_job_id,
    Dict.values.
  induction (ServiceRegistry._services reg) as [|[k s] d IH]; simpl;
    [reflexivity|].
  destruct (ServiceRegistry.job_id_is job_id s); [reflexivity | exact IH].
Qed.

Lemma lookup_resolves (arg : string) (reg : ServiceRegistry.t)
    (s : ServiceInstance.t) :
  resolves_to arg reg s <-> exists k, ServerManager.lookup arg reg = Ok (k, s).
Proof.
  unfold resolves_to, ServerManager.lookup. rewrite get_by_job_id_find.
  unfold ServiceRegistry.get.
  destruct (Dict.get arg (ServiceRegistry._services reg)) as [s0|].
  - split.
    + intros [[= ->]|[[=] _]]. now exists arg.
    + intros (k & [= _ ->]). now left.
  - destruct (ServerManager.find_by_job_id arg reg) as [[k0 s0]|]; simpl.
    + split.
      * intros [[=]|[_ [= ->]]]. now exists k0.
      * intros (k & [= _ ->]). now right.
    + split.
      * intros [[=]|[_ [=]]].
      * intros (k & [=]).
Qed.

Lemma lookup_misses (arg : string) (reg : ServiceRegistry.t) :
  unknown_everywhere arg reg
  <-> ServerManager.lookup arg reg = Raise (ServiceNotFoundError arg).
Proof.
  unfold unknown_everywhere, ServerManager.lookup. rewrite get_by_job_id_find.
  unfold ServiceRegistry.get.
  destruct (Dict.get arg (ServiceRegistry._services reg)) as [s0|].
  - split; [intros [[=] _] | discriminate].
  - destruct (ServerManager.find_by_job_id arg reg) as [[k0 s0]|]; simpl.
    + split; [intros [_ [=]] | discriminate].
    + split; [reflexivity | now split].
Qed.

Lemma lookup_total (arg : string) (reg : ServiceRegistry.t) :
  (exists k s, ServerManager.lookup arg reg = Ok (k, s))
  \/ ServerManager.lookup arg reg = Raise (ServiceNotFoundError arg).
Proof.
  unfold ServerManager.lookup, ServiceRegistry.get.
  destruct (Dict.get arg (ServiceRegistry._services reg)) as [s0|].
  - left. now exists arg, s0.
  - destruct (ServerManager.find_by_job_id arg reg) as [[k0 s0]|].
    + left. now exists k0, s0.
    + now right.
Qed.

(** The object that the lookup returns is the one the registry holds under
    the key. *)
Lemma lookup_entry (arg k : string) (reg : ServiceRegistry.t)
    (s : ServiceInstance.t) :
  unique_keys (ServiceRegistry._services reg) ->
  ServerManager.lookup arg reg = Ok (k, s) ->
  Dict.get k (ServiceRegistry._services reg) = Some s.
Proof.
  intros Hnd. unfold ServerManager.lookup, ServiceRegistry.get.
  destruct (Dict.get arg (ServiceRegistry._services reg)) as [s0|] eqn:Hget.
  - now intros [= <- <-].
  - unfold ServerManager.find_by_job_id.
    destruct (find _ _) as [[k0 s0]|] eqn:Hfind; [|discriminate].
    intros [= <- <-]. apply find_some in Hfind as [Hin _].
    now apply Dict_In_get.
Qed.

Lemma lookup_by_own_id (arg k : string) (reg : ServiceRegistry.t)
    (s : ServiceInstance.t) :
  keyed_by_id reg ->
  ServerManager.lookup arg reg = Ok (k, s) ->
  k = ServiceInstance.id s
  /\ ServerManager.lookup (ServiceInstance.id s) reg = Ok (k, s).
Proof.
  intros [Hnd Hid] Hl.
  pose proof (lookup_entry arg k reg s Hnd Hl) as Hget.
  assert (ServiceInstance.id s = k) as Hk
    by (apply Hid; now apply Dict_get_In).
  split; [now symmetry|].
  unfold ServerManager.lookup, ServiceRegistry.get. rewrite Hk, Hget.
  reflexivity.
Qed.

Section ManagerFacts.
Context {E : JsonEncoder ServiceInstance.t}.
Variable orchestrator : Orchestrator.
Variable now : datetime.

Lemma stop_service_terminal arg force reg fs k s :
  ServerManager.lookup arg reg = Ok (k, s) ->
  ServiceStatus.in_stopped_error (ServiceInstance.status s) = true ->
  ServerManager.stop_service orchestrator now arg force reg fs
  = (Ok true, reg, fs).
Proof.
  intros Hl Hterm. unfold ServerManager.stop_service. now rewrite Hl, Hterm.
Qed.

Lemma get_service_status_terminal arg reg fs k s :
  unique_keys (ServiceRegistry._services reg) ->
  ServerManager.lookup arg reg = Ok (k, s) ->
  ServiceStatus.in_stopped_error (ServiceInstance.status s) = true ->
  ServerManager.get_service_status orchestrator now arg reg fs
  = (Ok s, reg, fs).
Proof.
  intros Hnd Hl Hterm. unfold ServerManager.get_service_status.
  rewrite Hl, Hterm.
  destruct (ServerManager.job_of s); cbn [negb];
    now rewrite (lookup_entry arg k reg s Hnd Hl).
Qed.

Lemma stop_service_same_service arg arg' force reg fs k s :
  ServerManager.lookup arg reg = Ok (k, s) ->
  ServerManager.lookup arg' reg = Ok (k, s) ->
  ServerManager.stop_service orchestrator now arg force reg fs
  = ServerManager.stop_service orchestrator now arg' force reg fs.
Proof.
  intros H H'. unfold ServerManager.stop_service. now rewrite H, H'.
Qed.

Lemma get_service_status_same_service arg arg' reg fs k s :
  ServerManager.lookup arg reg = Ok (k, s) ->
  ServerManager.lookup arg' reg = Ok (k, s) ->
  ServerManager.get_service_status orchestrator now arg reg fs
  = ServerManager.get_service_status orchestrator now arg' reg fs.
Proof.
  intros H H'. unfold ServerManager.get_service_status. now rewrite H, H'.
Qed.

Lemma stop_service_found_not_missing arg force reg fs k s x :
  ServerManager.lookup arg reg = Ok (k, s) ->
  returned (ServerManager.stop_service orchestrator now arg force reg fs)
  <> Raise (ServiceNotFoundError x).
Proof.
  intros Hl. unfold ServerManager.stop_service, returned. rewrite Hl.
  destruct (ServiceStatus.in_stopped_error _); [discriminate|].
  destruct (ServiceRegistry.update_status now _ ServiceStatus.STOPPING _ _ _)
    as [[b1 reg1] fs1].
  destruct (match ServerManager.job_of s with
            | Some j => negb (cancel_job orchestrator j) && negb force
            | None => false
            end).
  - destruct force.
    + destruct (ServiceRegistry.update_status now _ ServiceStatus.STOPPED _ _ _)
        as [[b2 reg2] fs2]. discriminate.
    + discriminate.
  - destruct (ServiceRegistry.update_status now _ ServiceStatus.STOPPED _ _ _)
      as [[b2 reg2] fs2]. discriminate.
Qed.

Lemma get_service_status_found_ok arg reg fs k s :
  ServerManager.lookup arg reg = Ok (k, s) ->
  exists s', returned (ServerManager.get_service_status orchestrator now arg
                                                        reg fs) = Ok s'.
Proof.
  intros Hl. unfold ServerManager.get_service_status, returned. rewrite Hl.
  match goal with
  | |- context [let '(r, f) := ?X in _] => destruct X as [reg' fs']
  end.
  eexists. reflexivity.
Qed.

End ManagerFacts.

(** What the two operations do to a service that is not terminal. *)

(** X22: [stop_service] for a service that is not terminal, found by its
    id or by its job id, returns True and leaves it STOPPED with
    [stopped_at] at the time of the call, provided that the service has no
    job, or the cancellation succeeds, or [force] is set. *)
Lemma stop_service_stops
    (E : JsonEncoder ServiceInstance.t) (orchestrator : Orchestrator)
    (now : datetime) (arg : string) (force : bool)
    (reg : ServiceRegistry.t) (fs : filesystem) (s : ServiceInstance.t) :
  keyed_by_id reg ->
  resolves_to arg reg s ->
  ServiceStatus.in_stopped_error (ServiceInstance.status s) = false ->
  match ServerManager.job_of s with
  | Some j => cancel_job orchestrator j = true \/ force = true
  | None => True
  end ->
  let r := ServerManager.stop_service orchestrator now arg force reg fs in
  returned r = Ok true
  /\ exists s',
       service_of (ServiceInstance.id s) (registry_after r) = Some s'
       /\ ServiceInstance.status s' = ServiceStatus.STOPPED
       /\ ServiceInstance.stopped_at s' = Some now.
Proof.
  intros Hwf Hres Hterm Hcancel r.
  apply lookup_resolves in Hres as [k Hl].
  destruct (lookup_by_own_id arg k reg s Hwf Hl) as [-> _].
  pose proof (lookup_entry arg _ reg s (proj1 Hwf) Hl) as Hget.
  subst r. unfold ServerManager.stop_service. rewrite Hl, Hterm.
  rewrite (update_status_found now (ServiceInstance.id s) ServiceStatus.STOPPING
             None reg fs s Hget).
  assert (match ServerManager.job_of s with
          | Some j => negb (cancel_job orchestrator j) && negb force
          | None => false
          end = false) as ->.
  { destruct (ServerManager.job_of s) as [j|]; [|reflexivity].
    destruct Hcancel as [-> | ->]; [reflexivity | apply andb_false_r]. }
  match goal with
  | |- context [ServiceRegistry.update_status now ?i ServiceStatus.STOPPED None
                                              ?reg1 ?fs1] =>
      rewrite (update_status_found now i ServiceStatus.STOPPED None reg1 fs1
                 (ServiceRegistry.apply_status now ServiceStatus.STOPPING None s))
        by apply Dict_get_set_eq
  end.
  unfold returned, registry_after, service_of. simpl.
  split; [reflexivity|]. eexists. split; [apply Dict_get_set_eq|].
  split; [apply apply_status_status | apply apply_status_stopped_at].
Qed.

Ltac reconciled :=
  unfold returned, registry_after, service_of;
  repeat (progress (simpl; rewrite ?Dict_get_set_eq));
  eexists; split; [reflexivity|];
  split; [first [reflexivity | apply Dict_get_set_eq] | reflexivity].

(** X23: [get_service_status] for a service that is not terminal and has
    a job stores the status that the orchestrator reports for the job and
    returns the service as it is stored then. *)
Lemma get_service_status_reconciles
    (E : JsonEncoder ServiceInstance.t) (orchestrator : Orchestrator)
    (now : datetime) (arg job : string)
    (reg : ServiceRegistry.t) (fs : filesystem) (s : ServiceInstance.t) :
  keyed_by_id reg ->
  resolves_to arg reg s ->
  ServiceStatus.in_stopped_error (ServiceInstance.status s) = false ->
  ServerManager.job_of s = Some job ->
  let r := ServerManager.get_service_status orchestrator now arg reg fs in
  exists s',
    returned r = Ok s'
    /\ service_of (ServiceInstance.id s) (registry_after r) = Some s'
    /\ ServiceInstance.status s' = get_job_status orchestrator job.
Proof.
  intros Hwf Hres Hterm Hjob r.
  apply lookup_resolves in Hres as [k Hl].
  destruct (lookup_by_own_id arg k reg s Hwf Hl) as [-> _].
  pose proof (lookup_entry arg _ reg s (proj1 Hwf) Hl) as Hget.
  subst r. unfold ServerManager.get_service_status. rewrite Hl, Hjob, Hterm.
  cbn [negb].
  destruct (ServiceStatus.eqb (get_job_status orchestrator job)
                              (ServiceInstance.status s)) eqn:Hsame; cbn [negb].
  - unfold returned, registry_after, service_of. simpl. rewrite Hget.
    exists s. repeat split.
    destruct (get_job_status orchestrator job), (ServiceInstance.status s);
      simpl in Hsame; congruence.
  - rewrite (update_status_found now (ServiceInstance.id s)
               (get_job_status orchestrator job) None reg fs s Hget).
    unfold ServerManager.assign, ServiceRegistry.update_node.
    repeat (cbn [ServiceRegistry._services ServiceRegistry.with_services];
            rewrite !Dict_get_set_eq).
    destruct (ServiceStatus.eqb (get_job_status orchestrator job)
                                ServiceStatus.RUNNING);
      [destruct (get_job_node orchestrator job) as [node|];
       [destruct (Py.truthy node && ServerManager.node_differs node s)|]|].
    all: reconciled.
Qed.

(** ** C1: terminal statuses *)

(** C1, the claim as stated fails: [update_status] with target RUNNING
    moves a STOPPED service back to RUNNING. *)
Lemma update_status_reopens_terminal :
  let E := keys_encoder ServiceInstance.t in
  let reg0 :=
    ServiceRegistry.mk
      [("svc", sample_service "svc" ServiceStatus.STOPPED None (Some 10%Z))]
      None in
  let r := ServiceRegistry.update_status 20%Z "svc" ServiceStatus.RUNNING None
                                         reg0 [] in
  option_map ServiceInstance.status (service_of "svc" reg0)
  = Some ServiceStatus.STOPPED
  /\ returned r = true
  /\ option_map ServiceInstance.status (service_of "svc" (registry_after r))
     = Some ServiceStatus.RUNNING.
Proof. repeat split. Qed.

(** C1, amended: [ServiceRegistry.update_status] has no transition guard:
    for a registered id it sets the status to the target status, whatever
    the status was.  What keeps a terminal service terminal is the guard of
    the manager operations: [stop_service] and [get_service_status], called
    for a service whose stored status is STOPPED or ERROR, return without
    changing the registry or the files, the first with True and the second
    with the service as it is stored. *)
Theorem terminal_status_kept_by_managers
    (E : JsonEncoder ServiceInstance.t) (orchestrator : Orchestrator)
    (now : datetime) (reg : ServiceRegistry.t) (fs : filesystem) :
  (forall id st msg s,
      service_of id reg = Some s ->
      option_map ServiceInstance.status
        (service_of id
           (registry_after (ServiceRegistry.update_status now id st msg reg fs)))
      = Some st)
  /\ (forall arg force s,
        unique_keys (ServiceRegistry._services reg) ->
        resolves_to arg reg s ->
        ServiceStatus.in_stopped_error (ServiceInstance.status s) = true ->
        ServerManager.stop_service orchestrator now arg force reg fs
        = (Ok true, reg, fs)
        /\ ServerManager.get_service_status orchestrator now arg reg fs
           = (Ok s, reg, fs)).
Proof.
  split.
  - intros id st msg s Hs. unfold service_of, registry_after in *.
    rewrite (update_status_lookup now id st msg reg fs s Hs). simpl.
    now rewrite apply_status_status.
  - intros arg force s Hnd Hres Hterm.
    apply lookup_resolves in Hres as [k Hl]. split.
    + now apply stop_service_terminal with k s.
    + now apply get_service_status_terminal with k.
Qed.

Lemma terminal_status_kept_by_managers_witness :
  let E := keys_encoder ServiceInstance.t in
  let orchestrator :=
    mkOrchestrator (fun _ => ServiceStatus.RUNNING) (fun _ => Some "mel2091")
                   (fun _ => true) in
  let s := sample_service "svc" ServiceStatus.ERROR (Some "4242") (Some 10%Z) in
  let reg := ServiceRegistry.mk [("svc", s)] None in
  ServerManager.stop_service orchestrator 20%Z "4242" false reg []
  = (Ok true, reg, [])
  /\ ServerManager.get_service_status orchestrator 20%Z "4242" reg []
     = (Ok s, reg, []).
Proof.
  intros E orchestrator s reg.
  apply (proj2 (terminal_status_kept_by_managers E orchestrator 20%Z reg [])
               "4242" false s).
  - repeat constructor. simpl. tauto.
  - right. split; reflexivity.
  - reflexivity.
Defined.

(** ** C10: a service is addressed by its id or by its SLURM job id *)

(** C10: in a registry that holds every service under its own id, when the
    argument is not a registered id but the SLURM job id of a service,
    [stop_service] and [get_service_status] do what they do when they are
    called with the id of the first service that has that job id; each of
    them raises [ServiceNotFoundError] exactly when the argument is neither
    a registered id nor the job id of a registered service. *)
Theorem managers_accept_id_or_job_id
    (E : JsonEncoder ServiceInstance.t) (orchestrator : Orchestrator)
    (now : datetime) (arg : string) (force : bool)
    (reg : ServiceRegistry.t) (fs : filesystem) :
  keyed_by_id reg ->
  (forall s,
      ServiceRegistry.get arg reg = Raise (ServiceNotFoundError arg) ->
      ServiceRegistry.get_by_job_id arg reg = Some s ->
      ServiceRegistry.get (ServiceInstance.id s) reg = Ok s
      /\ ServerManager.stop_service orchestrator now arg force reg fs
         = ServerManager.stop_service orchestrator now (ServiceInstance.id s)
                                      force reg fs
      /\ ServerManager.get_service_status orchestrator now arg reg fs
         = ServerManager.get_service_status orchestrator now
                                            (ServiceInstance.id s) reg fs)
  /\ ((exists x,
         returned (ServerManager.stop_service orchestrator now arg force reg fs)
         = Raise (ServiceNotFoundError x))
      <-> unknown_everywhere arg reg)
  /\ ((exists e,
         returned (ServerManager.get_service_status orchestrator now arg reg fs)
         = Raise e)
      <-> unknown_everywhere arg reg)
  /\ (unknown_everywhere arg reg ->
      ServerManager.stop_service orchestrator now arg force reg fs
      = (Raise (ServiceNotFoundError arg), reg, fs)
      /\ ServerManager.get_service_status orchestrator now arg reg fs
         = (Raise (ServiceNotFoundError arg), reg, fs)).
Proof.
  intros Hwf. split; [|split; [|split]].
  - intros s Hmiss Hjob.
    assert (resolves_to arg reg s) as Hres by (right; now split).
    apply lookup_resolves in Hres as [k Hl].
    destruct (lookup_by_own_id arg k reg s Hwf Hl) as [Hk Hown].
    split; [|split].
    + unfold ServiceRegistry.get. rewrite <- Hk.
      now rewrite (lookup_entry arg k reg s (proj1 Hwf) Hl).
    + now apply stop_service_same_service with k s.
    + now apply get_service_status_same_service with k s.
  - split.
    + intros [x Hx]. apply lookup_misses.
      destruct (lookup_total arg reg) as [(k & s & Hl)|Hl]; [|assumption].
      exfalso.
      now apply (stop_service_found_not_missing orchestrator now arg force
                   reg fs k s x Hl).
    + intros Hmiss. apply lookup_misses in Hmiss. exists arg.
      unfold ServerManager.stop_service, returned. now rewrite Hmiss.
  - split.
    + intros [e He]. apply lookup_misses.
      destruct (lookup_total arg reg) as [(k & s & Hl)|Hl]; [|assumption].
      exfalso.
      destruct (get_service_status_found_ok orchestrator now arg reg fs k s Hl)
        as [s' Hs'].
      congruence.
    + intros Hmiss. apply lookup_misses in Hmiss. exists (ServiceNotFoundError arg).
      unfold ServerManager.get_service_status, returned. now rewrite Hmiss.
  - intros Hmiss. apply lookup_misses in Hmiss.
    unfold ServerManager.stop_service, ServerManager.get_service_status.
    now rewrite Hmiss.
Qed.

Lemma managers_accept_id_or_job_id_witness :
  let E := keys_encoder ServiceInstance.t in
  let orchestrator :=
    mkOrchestrator (fun _ => ServiceStatus.RUNNING) (fun _ => Some "mel2091")
                   (fun _ => true) in
  let reg :=
    ServiceRegistry.mk
      [("a1", sample_service "a1" ServiceStatus.RUNNING (Some "777") None);
       ("b2", sample_service "b2" ServiceStatus.PENDING (Some "4242") None)]
      None in
  ServerManager.stop_service orchestrator 20%Z "4242" false reg []
  = ServerManager.stop_service orchestrator 20%Z "b2" false reg []
  /\ ServerManager.get_service_status orchestrator 20%Z "4242" reg []
     = ServerManager.get_service_status orchestrator 20%Z "b2" reg [].
Proof.
  intros E orchestrator reg.
  assert (keyed_by_id reg) as Hwf.
  { split.
    - repeat constructor; simpl; intuition discriminate.
    - intros k s [[= <- <-]|[[= <- <-]|[]]]; reflexivity. }
  destruct (proj1 (managers_accept_id_or_job_id E orchestrator 20%Z "4242"
                     false reg [] Hwf)
                  (sample_service "b2" ServiceStatus.PENDING (Some "4242") None)
                  eq_refl eq_refl) as (_ & Hstop & Hstat).
  split; assumption.
Defined.

(** ** C7: the sweep of stale services *)

Section FloatFacts.
Local Open Scope Z_scope.


Lemma nearest_even_bounds (n d : Z) :
  0 < d ->
  2 * n - d <= 2 * Float.nearest_even n d * d <= 2 * n + d.
Proof.
  intros Hd. unfold Float.nearest_even.
  pose proof (Z.div_mod n d ltac:(lia)) as Hdiv.
  pose proof (Z.mod_pos_bound n d Hd) as Hr.
  destruct (2 * (n mod d) <? d) eqn:H1; [apply Z.ltb_lt in H1; nia|].
  apply Z.ltb_ge in H1.
  destruct (d <? 2 * (n mod d)) eqn:H2; [apply Z.ltb_lt in H2; nia|].
  apply Z.ltb_ge in H2.
  destruct (Z.even (n / d)); nia.
Qed.

(** Of two integers that are equally near, the even one is taken. *)
Lemma nearest_even_tie (n d : Z) :
  0 < d -> 2 * (n mod d) = d -> Z.even (Float.nearest_even n d) = true.
Proof.
  intros Hd Htie. unfold Float.nearest_even.
  rewrite Htie, Z.ltb_irrefl.
  destruct (Z.even (n / d)) eqn:Hq; [exact Hq|].
  now rewrite Z.add_1_r, Z.even_succ, <- Z.negb_even, Hq.
Qed.

Lemma nearest_even_le (n d M : Z) :
  0 < d -> n <= M * d -> Float.nearest_even n d <= M.
Proof.
  intros Hd Hn. pose proof (nearest_even_bounds n d Hd) as [_ H]. nia.
Qed.

Lemma nearest_even_ge (n d M : Z) :
  0 < d -> M * d <= n -> M <= Float.nearest_even n d.
Proof.
  intros Hd Hn. pose proof (nearest_even_bounds n d Hd) as [H _]. nia.
Qed.

Lemma scale_den_pos (d e : Z) : 0 < d -> 0 < Float.scale_den d e.
Proof.
  intros Hd. unfold Float.scale_den. destruct (e <? 0) eqn:He; [exact Hd|].
  apply Z.ltb_ge in He. pose proof (Z.pow_pos_nonneg 2 e ltac:(lia) He). nia.
Qed.

(** The scaled quotient is at least [2 ^ 52]. *)
Lemma exponent_of_lower (n d : Z) :
  0 < n -> 0 < d ->
  2 ^ 52 * Float.scale_den d (Float.exponent_of n d)
  <= Float.scale_num n (Float.exponent_of n d).
Proof.
  intros Hn Hd. unfold Float.exponent_of.
  set (e := Z.log2 n - Z.log2 d - 53).
  destruct (2 ^ 52 * Float.scale_den d (e + 1) <=? Float.scale_num n (e + 1))
    eqn:Ht; [now apply Z.leb_le in Ht|].
  clear Ht.
  destruct (Z.log2_spec n Hn) as [Hn1 _].
  destruct (Z.log2_spec d Hd) as [_ Hd2].
  pose proof (Z.log2_nonneg n) as Ha. pose proof (Z.log2_nonneg d) as Hb.
  unfold Float.scale_den, Float.scale_num.
  destruct (e <? 0) eqn:He.
  - apply Z.ltb_lt in He.
    assert (2 ^ Z.log2 n * 2 ^ (- e) = 2 ^ 52 * 2 ^ Z.succ (Z.log2 d)) as Heq.
    { rewrite <- !Z.pow_add_r by lia. f_equal. lia. }
    pose proof (Z.pow_pos_nonneg 2 (- e) ltac:(lia) ltac:(lia)).
    nia.
  - apply Z.ltb_ge in He.
    assert (2 ^ 52 * (2 ^ Z.succ (Z.log2 d) * 2 ^ e) = 2 ^ Z.log2 n) as Heq.
    { rewrite <- !Z.pow_add_r by lia. f_equal. lia. }
    pose proof (Z.pow_pos_nonneg 2 e ltac:(lia) He).
    nia.
Qed.

Lemma pow2_pos (e : Z) : 0 <= e -> 0 < 2 ^ e.
Proof. intros. apply Z.pow_pos_nonneg; lia. Qed.






Lemma exponent_of_upper (n d : Z) :
  0 < n -> 0 < d ->
  Float.scale_num n (Float.exponent_of n d)
  < 2 ^ 53 * Float.scale_den d (Float.exponent_of n d).
Proof.
  intros Hn Hd. unfold Float.exponent_of.
  set (e := Z.log2 n - Z.log2 d - 53).
  destruct (Z.log2_spec n Hn) as [_ Hn2].
  destruct (Z.log2_spec d Hd) as [Hd1 _].
  pose proof (Z.log2_nonneg n) as Ha. pose proof (Z.log2_nonneg d) as Hb.
  destruct (2 ^ 52 * Float.scale_den d (e + 1) <=? Float.scale_num n (e + 1))
    eqn:Ht.
  - clear Ht. unfold Float.scale_den, Float.scale_num.
    destruct (e + 1 <? 0) eqn:He.
    + apply Z.ltb_lt in He.
      assert (2 ^ Z.succ (Z.log2 n) * 2 ^ (- (e + 1))
              = 2 ^ 53 * 2 ^ Z.log2 d) as Heq.
      { rewrite <- !Z.pow_add_r by lia. f_equal. lia. }
      pose proof (pow2_pos (- (e + 1)) ltac:(lia)). nia.
    + apply Z.ltb_ge in He.
      assert (2 ^ 53 * (2 ^ Z.log2 d * 2 ^ (e + 1)) = 2 ^ Z.succ (Z.log2 n))
        as Heq.
      { rewrite <- !Z.pow_add_r by lia. f_equal. lia. }
      pose proof (pow2_pos (e + 1) He). nia.
  - apply Z.leb_gt in Ht. unfold Float.scale_den, Float.scale_num in *.
    change (2 ^ 53) with (2 * 2 ^ 52).
    destruct (e + 1 <? 0) eqn:He1.
    + apply Z.ltb_lt in He1.
      assert ((e <? 0) = true) as -> by (apply Z.ltb_lt; lia).
      replace (- e) with (Z.succ (- (e + 1))) by lia.
      rewrite Z.pow_succ_r by lia. nia.
    + apply Z.ltb_ge in He1. destruct (e <? 0) eqn:He.
      * apply Z.ltb_lt in He. assert (e = -1) as -> by lia.
        change (2 ^ (-1 + 1)) with 1 in Ht. change (2 ^ (- (-1))) with 2. lia.
      * apply Z.ltb_ge in He.
        replace (e + 1) with (Z.succ e) in Ht by lia.
        rewrite Z.pow_succ_r in Ht by lia. nia.
Qed.

(** The significand of a rounded quotient has 53 bits. *)
Lemma div_pos_significand (n d : Z) :
  0 < n -> 0 < d ->
  2 ^ 52 <= Float.mant (Float.div_pos n d) <= 2 ^ 53.
Proof.
  intros Hn Hd.
  pose proof (exponent_of_lower n d Hn Hd) as Hl.
  pose proof (exponent_of_upper n d Hn Hd) as Hu.
  pose proof (scale_den_pos d (Float.exponent_of n d) Hd) as Hd'.
  unfold Float.div_pos. cbn [Float.mant]. split.
  - now apply nearest_even_ge.
  - apply nearest_even_le; [assumption | lia].
Qed.



End FloatFacts.


Lemma same_key_same_entry {V : Type} (d : Dict.t V) (e e' : string * V) :
  unique_keys d -> In e d -> In e' d -> fst e = fst e' -> e = e'.
Proof.
  intros Hnd Hin Hin' Hk. destruct e as [k v], e' as [k' v']. simpl in Hk.
  subst k'. f_equal.
  pose proof (Dict_In_get V k v d Hnd Hin) as H1.
  pose proof (Dict_In_get V k v' d Hnd Hin') as H2.
  congruence.
Qed.

Lemma mem_stale_ids (now : datetime) (h : Z) (self : ServiceRegistry.t)
    (e : string * ServiceInstance.t) :
  unique_keys (ServiceRegistry._services self) ->
  In e (ServiceRegistry._services self) ->
  Py.mem (fst e) (ServiceRegistry.stale_ids now h self)
  = ServiceRegistry.is_stale now h (snd e).
Proof.
  intros Hnd Hin. unfold Py.mem, ServiceRegistry.stale_ids.
  destruct (ServiceRegistry.is_stale now h (snd e)) eqn:Hst.
  - apply existsb_exists. exists (fst e). split; [|apply String.eqb_refl].
    apply in_map. apply filter_In. now split.
  - apply not_true_is_false. intros Hex.
    apply existsb_exists in Hex as (k & Hk & Heq).
    apply String.eqb_eq in Heq. subst k.
    apply in_map_iff in Hk as (e' & Hfst & Hin').
    apply filter_In in Hin' as [Hin' Hst'].
    assert (e' = e) as ->
      by (now apply (same_key_same_entry (ServiceRegistry._services self))).
    congruence.
Qed.

Lemma cleanup_stale_services (E : JsonEncoder ServiceInstance.t)
    (now : datetime) (h : Z) (self : ServiceRegistry.t) (fs : filesystem) :
  unique_keys (ServiceRegistry._services self) ->
  ServiceRegistry._services
    (registry_after (ServiceRegistry.cleanup_stale now h self fs))
  = filter (fun e => negb (ServiceRegistry.is_stale now h (snd e)))
           (ServiceRegistry._services self).
Proof.
  intros Hnd. unfold ServiceRegistry.cleanup_stale, registry_after. simpl.
  rewrite Dict_del_all. apply filter_ext_in. intros e Hin.
  now rewrite mem_stale_ids.
Qed.




(** ** C3: how the registry file is written *)

Lemma run_writes (p s : string) (chunks : list string) (fs : filesystem) :
  Dict.get p fs = Some (RegularFile s) ->
  Dict.get p (run_actions (map (Write p) chunks) fs)
  = Some (RegularFile (s ++ joined chunks)).
Proof.
  revert s fs. induction chunks as [|c chunks IH]; intros s fs Hget; simpl.
  - now rewrite string_app_empty_r.
  - rewrite Hget. rewrite (IH (s ++ c)).
    + now rewrite string_app_assoc.
    + apply Dict_get_set_eq.
Qed.

Lemma run_open_writes (p : string) (chunks : list string) (fs : filesystem) :
  Dict.get p fs <> Some Directory ->
  Dict.get p (run_actions (Open_w p :: map (Write p) chunks) fs)
  = Some (RegularFile (joined chunks)).
Proof.
  intros Hfile. cbn [run_actions fs_step].
  destruct (Dict.get p fs) as [[s|]|]; try congruence;
    now rewrite (run_writes p EmptyString chunks) by apply Dict_get_set_eq.
Qed.

Lemma string_length_app (a b : string) :
  String.length (a ++ b) = (String.length a + String.length b)%nat.
Proof. induction a as [|c a IH]; simpl; [reflexivity | now rewrite IH]. Qed.

Lemma dirs_above_from_shorter (before rest d : string) :
  In d (dirs_above_from before rest) ->
  (String.length d < String.length before + String.length rest)%nat.
Proof.
  revert before. induction rest as [|c rest IH]; intros before Hin.
  - destruct Hin.
  - cbn [dirs_above_from] in Hin. apply in_app_or in Hin as [Hin|Hin].
    + destruct (Ascii.eqb c "/" && Py.truthy before); [|destruct Hin].
      destruct Hin as [<-|[]]. simpl. lia.
    + apply IH in Hin. rewrite string_length_app in Hin. simpl in *. lia.
Qed.

Lemma not_above_itself (p : string) : ~ In p (dirs_above p).
Proof.
  intros Hin. apply dirs_above_from_shorter in Hin. simpl in Hin. lia.
Qed.

Lemma content_of_mkdir (d q : string) (fs : filesystem) :
  content_of d fs = None ->
  content_of q (Dict.set d Directory fs) = content_of q fs.
Proof.
  intros Hd. unfold content_of in *.
  destruct (String.eqb d q) eqn:E.
  - apply String.eqb_eq in E. subst q. rewrite Dict_get_set_eq.
    now destruct (Dict.get d fs) as [[|]|].
  - apply String.eqb_neq in E. now rewrite Dict_get_set_ne.
Qed.

Lemma no_file_among_ext (ds : list string) (fs1 fs2 : filesystem) :
  (forall q, content_of q fs1 = content_of q fs2) ->
  no_file_among ds fs1 = no_file_among ds fs2.
Proof.
  intros H. unfold no_file_among.
  induction ds as [|d ds IH]; cbn [forallb]; [reflexivity|].
  now rewrite H, IH.
Qed.

(** The calls that make the directories change no file, and no path
    beside these directories; they go through exactly when none of the
    directories is a regular file. *)
Lemma run_mkdirs (ds : list string) (rest : list fs_action) (fs : filesystem) :
  exists fs',
    (forall q, content_of q fs' = content_of q fs)
    /\ (forall q, ~ In q ds -> Dict.get q fs' = Dict.get q fs)
    /\ run_actions (map Mkdir ds ++ rest) fs
       = if no_file_among ds fs then run_actions rest fs' else fs'.
Proof.
  revert fs. induction ds as [|d ds IH]; intros fs.
  - exists fs. repeat split.
  - unfold no_file_among. cbn [map app run_actions fs_step forallb].
    fold (no_file_among ds fs).
    destruct (Dict.get d fs) as [[s|]|] eqn:Hd.
    + exists fs. unfold content_of at 3. rewrite Hd. repeat split.
    + destruct (IH fs) as (fs' & Hc & Hg & Hr). exists fs'.
      unfold content_of at 3. rewrite Hd. cbn [is_some negb andb].
      split; [exact Hc|]. split; [|exact Hr].
      intros q Hq. apply Hg. intros Hin. apply Hq. now right.
    + assert (content_of d fs = None) as Hnone
        by (unfold content_of; now rewrite Hd).
      destruct (IH (Dict.set d Directory fs)) as (fs' & Hc & Hg & Hr).
      exists fs'. rewrite Hnone. cbn [is_some negb andb].
      split; [|split].
      * intros q. rewrite Hc. now apply content_of_mkdir.
      * intros q Hq. rewrite Hg by (intros Hin; apply Hq; now right).
        apply Dict_get_set_ne. intros ->. apply Hq. now left.
      * rewrite Hr.
        rewrite (no_file_among_ext ds (Dict.set d Directory fs) fs); auto.
        intros q. now apply content_of_mkdir.
Qed.

(** What the calls of a persist do to the file at [p]. *)
Lemma persist_calls (p : string) (blocks : list string) (fs : filesystem) :
  let acts :=
    (map Mkdir (dirs_above p) ++ Open_w p :: map (Write p) blocks)%list in
  (can_persist p fs = true ->
   content_of p (run_actions acts fs) = Some (joined blocks))
  /\ (can_persist p fs = false ->
      content_of p (run_actions acts fs) = content_of p fs)
  /\ (forall k,
        (k <= calls_before_open p)%nat ->
        content_of p (crash_after k acts fs) = content_of p fs)
  /\ (can_persist p fs = true ->
      forall k,
        content_of p (crash_after (calls_before_open p + 1 + k) acts fs)
        = Some (joined (firstn k blocks))).
Proof.
  intros acts.
  assert (forall writes,
             can_persist p fs = true ->
             content_of p
               (run_actions
                  (map Mkdir (dirs_above p) ++ Open_w p :: map (Write p) writes)
                  fs)
             = Some (joined writes)) as Hdone.
  { intros writes Hok. unfold can_persist in Hok.
    apply andb_true_iff in Hok as [Hdirs Hfile].
    destruct (run_mkdirs (dirs_above p) (Open_w p :: map (Write p) writes) fs)
      as (fs' & _ & Hg & ->).
    rewrite Hdirs. unfold content_of. rewrite run_open_writes; [reflexivity|].
    rewrite (Hg p (not_above_itself p)).
    unfold is_directory in Hfile.
    destruct (Dict.get p fs) as [[|]|]; discriminate. }
  split; [|split; [|split]].
  - apply Hdone.
  - intros Hno. unfold can_persist in Hno. subst acts.
    destruct (run_mkdirs (dirs_above p) (Open_w p :: map (Write p) blocks) fs)
      as (fs' & Hc & Hg & ->).
    destruct (no_file_among (dirs_above p) fs); [|apply Hc].
    cbn [andb] in Hno. apply negb_false_iff in Hno.
    cbn [run_actions fs_step]. rewrite (Hg p (not_above_itself p)).
    unfold is_directory in Hno.
    destruct (Dict.get p fs) as [[|]|]; try discriminate. apply Hc.
  - intros k Hk. unfold crash_after, calls_before_open in *. subst acts.
    rewrite firstn_app, length_map.
    replace (k - length (dirs_above p))%nat with 0%nat by lia.
    cbn [firstn]. rewrite firstn_map.
    destruct (run_mkdirs (firstn k (dirs_above p)) [] fs)
      as (fs' & Hc & _ & ->).
    cbn [run_actions]. destruct (no_file_among _ fs); apply Hc.
  - intros Hok k. unfold crash_after, calls_before_open. subst acts.
    replace (length (dirs_above p) + 1 + k)%nat
      with (length (map Mkdir (dirs_above p)) + S k)%nat
      by (rewrite length_map; lia).
    rewrite firstn_app_2. cbn [firstn]. rewrite firstn_map.
    now apply Hdone.
Qed.

(** C3, the claim as stated fails: a process that stops right after the
    file has been opened for the new write leaves an empty file; the prior
    snapshot is gone before the new one is written. *)
Lemma persist_crash_loses_prior_snapshot :
  let E := keys_encoder ServiceInstance.t in
  let path := "/logs/service_registry.json" in
  let reg :=
    ServiceRegistry.mk
      [("svc", sample_service "svc" ServiceStatus.RUNNING None None)]
      (Some path) in
  let fs := [("/logs", Directory); (path, RegularFile "old;")] in
  (2 < length (ServiceRegistry.persist_actions reg))%nat
  /\ content_of path fs = Some "old;"
  /\ content_of path (crash_after 2 (ServiceRegistry.persist_actions reg) fs)
     = Some EmptyString
  /\ content_of path (crash_after 2 (ServiceRegistry.persist_actions reg) fs)
     <> content_of path fs.
Proof. repeat split. - simpl. lia. - discriminate. Qed.

(** C3, amended: every mutation of a registry rewrites the file of a
    registry that has a persistence path, wholesale and in place: after the
    directories above the file have been made where they were missing, the
    file is opened for writing, which empties it, and the encoded snapshot
    of the whole registry is written into it, so that a completed write
    leaves exactly the new snapshot.  No temporary file and no rename are
    involved: a process that stops before the open leaves the prior
    content, and one that stops from the open on leaves a prefix of the
    new snapshot, empty right after the open, and never old content
    followed by new content.  When a directory above the file is a regular
    file, or the path is a directory, the failure is logged and the content
    at the path stays as it was.  This holds for the service registry and
    the run registry; the mutations are [register], and, where they report
    a change, [unregister], [update_status], [update_node],
    [update_endpoints] and [cleanup_stale]. *)
Theorem persist_rewrites_in_place
    (ES : JsonEncoder ServiceInstance.t) (ER : JsonEncoder ClientRun.t)
    (p : string) (fs : filesystem) :
  (forall self : ServiceRegistry.t,
      ServiceRegistry._persistence_path self = Some p ->
      let acts := ServiceRegistry.persist_actions self in
      let blocks := json_dump (ServiceRegistry._services self) in
      (can_persist p fs = true ->
       content_of p (ServiceRegistry._persist_state self fs)
       = Some (joined blocks))
      /\ (can_persist p fs = false ->
          content_of p (ServiceRegistry._persist_state self fs)
          = content_of p fs)
      /\ (forall k,
            (k <= calls_before_open p)%nat ->
            content_of p (crash_after k acts fs) = content_of p fs)
      /\ (can_persist p fs = true ->
          forall k,
            content_of p (crash_after (calls_before_open p + 1 + k) acts fs)
            = Some (joined (firstn k blocks))))
  /\ (forall self : RunRegistry.t,
        RunRegistry._persistence_path self = Some p ->
        let acts := RunRegistry.persist_actions self in
        let blocks := json_dump (RunRegistry._runs self) in
        (can_persist p fs = true ->
         content_of p (RunRegistry._persist_state self fs)
         = Some (joined blocks))
        /\ (can_persist p fs = false ->
            content_of p (RunRegistry._persist_state self fs)
            = content_of p fs)
        /\ (forall k,
              (k <= calls_before_open p)%nat ->
              content_of p (crash_after k acts fs) = content_of p fs)
        /\ (can_persist p fs = true ->
            forall k,
              content_of p (crash_after (calls_before_open p + 1 + k) acts fs)
              = Some (joined (firstn k blocks))))
  /\ (forall self : ServiceRegistry.t,
        (forall service,
            let r := ServiceRegistry.register service self fs in
            files_after r
            = ServiceRegistry._persist_state (registry_after r) fs)
        /\ (forall id,
              let r := ServiceRegistry.unregister id self fs in
              returned r = true ->
              files_after r
              = ServiceRegistry._persist_state (registry_after r) fs)
        /\ (forall now id st msg,
              let r := ServiceRegistry.update_status now id st msg self fs in
              returned r = true ->
              files_after r
              = ServiceRegistry._persist_state (registry_after r) fs)
        /\ (forall id node,
              let r := ServiceRegistry.update_node id node self fs in
              returned r = true ->
              files_after r
              = ServiceRegistry._persist_state (registry_after r) fs)
        /\ (forall id endpoints,
              let r := ServiceRegistry.update_endpoints id endpoints self fs in
              returned r = true ->
              files_after r
              = ServiceRegistry._persist_state (registry_after r) fs)
        /\ (forall now max_age_hours,
              let r := ServiceRegistry.cleanup_stale now max_age_hours self fs in
              returned r <> 0%Z ->
              files_after r
              = ServiceRegistry._persist_state (registry_after r) fs))
  /\ (forall self : RunRegistry.t,
        (forall run,
            let r := RunRegistry.register run self fs in
            files_after r = RunRegistry._persist_state (registry_after r) fs)
        /\ (forall id,
              let r := RunRegistry.unregister id self fs in
              returned r = true ->
              files_after r = RunRegistry._persist_state (registry_after r) fs)
        /\ (forall now id st msg,
              let r := RunRegistry.update_status now id st msg self fs in
              returned r = true ->
              files_after r
              = RunRegistry._persist_state (registry_after r) fs)).
Proof.
  split; [|split; [|split]].
  - intros self Hp acts blocks. subst acts blocks.
    unfold ServiceRegistry._persist_state, ServiceRegistry.persist_actions.
    rewrite Hp. apply persist_calls.
  - intros self Hp acts blocks. subst acts blocks.
    unfold RunRegistry._persist_state, RunRegistry.persist_actions.
    rewrite Hp. apply persist_calls.
  - intros self. unfold returned, registry_after, files_after.
    split; [reflexivity|]. split; [|split; [|split; [|split]]].
    + intros id. unfold ServiceRegistry.unregister.
      destruct (negb (Dict.contains id (ServiceRegistry._services self)));
        [discriminate | reflexivity].
    + intros now id st msg. unfold ServiceRegistry.update_status.
      destruct (Dict.get id (ServiceRegistry._services self));
        [reflexivity | discriminate].
    + intros id node. unfold ServiceRegistry.update_node.
      destruct (Dict.get id (ServiceRegistry._services self));
        [reflexivity | discriminate].
    + intros id endpoints. unfold ServiceRegistry.update_endpoints.
      destruct (Dict.get id (ServiceRegistry._services self));
        [reflexivity | discriminate].
    + intros now max_age_hours. unfold ServiceRegistry.cleanup_stale.
      cbn [fst snd].
      destruct (ServiceRegistry.stale_ids now max_age_hours self);
        [intros H; now elim H | reflexivity].
  - intros self. unfold returned, registry_after, files_after.
    split; [reflexivity|]. split.
    + intros id. unfold RunRegistry.unregister.
      destruct (negb (Dict.contains id (RunRegistry._runs self)));
        [discriminate | reflexivity].
    + intros now id st msg. unfold RunRegistry.update_status.
      destruct (Dict.get id (RunRegistry._runs self));
        [reflexivity | discriminate].
Qed.

Lemma persist_rewrites_in_place_witness :
  let E := keys_encoder ServiceInstance.t in
  let path := "/logs/service_registry.json" in
  let reg :=
    ServiceRegistry.mk
      [("a1", sample_service "a1" ServiceStatus.RUNNING None None);
       ("b2", sample_service "b2" ServiceStatus.PENDING None None)]
      (Some path) in
  let fs := [(path, RegularFile "old;")] in
  content_of path (ServiceRegistry._persist_state reg fs) = Some "a1;b2;"
  /\ content_of path (crash_after 1 (ServiceRegistry.persist_actions reg) fs)
     = Some "old;"
  /\ content_of path (crash_after 3 (ServiceRegistry.persist_actions reg) fs)
     = Some "a1;".
Proof.
  intros E path reg fs.
  destruct (proj1 (persist_rewrites_in_place E (keys_encoder ClientRun.t)
                     path fs) reg eq_refl)
    as (Hdone & _ & Hbefore & Hcrash).
  split; [exact (Hdone eq_refl)|].
  split; [exact (Hbefore 1%nat (le_n 1)) | exact (Hcrash eq_refl 1%nat)].
Defined.

(** ** C8: the resolution of the target endpoint *)










(* ===================================================================== *)
(** * Further properties of the code *)
(* ===================================================================== *)

(** ** Validators of core/models.py *)

Lemma upper_char_idempotent (c : ascii) :
  Py.upper_char (Py.upper_char c) = Py.upper_char c.
Proof. destruct c as [[] [] [] [] [] [] [] []]; reflexivity. Qed.

Lemma upper_idempotent (s : string) : Py.upper (Py.upper s) = Py.upper s.
Proof.
  induction s as [|c s IH]; simpl; [reflexivity|].
  now rewrite upper_char_idempotent, IH.
Qed.

Lemma lower_char_idempotent (c : ascii) :
  Py.lower_char (Py.lower_char c) = Py.lower_char c.
Proof. destruct c as [[] [] [] [] [] [] [] []]; reflexivity. Qed.

Lemma lower_idempotent (s : string) : Py.lower (Py.lower s) = Py.lower s.
Proof.
  induction s as [|c s IH]; simpl; [reflexivity|].
  now rewrite lower_char_idempotent, IH.
Qed.

Lemma upper_lower_char (c : ascii) :
  Py.upper_char (Py.lower_char c) = Py.upper_char c.
Proof. destruct c as [[] [] [] [] [] [] [] []]; reflexivity. Qed.

Lemma upper_lower (s : string) : Py.upper (Py.lower s) = Py.upper s.
Proof.
  induction s as [|c s IH]; simpl; [reflexivity|].
  now rewrite upper_lower_char, IH.
Qed.

Lemma split_length (sep : ascii) (s : string) :
  length (Py.split sep s) = S (count_char sep s).
Proof.
  induction s as [|c s IH]; [reflexivity|].
  cbn [Py.split count_char].
  destruct (Ascii.eqb c sep); cbn [length Nat.add].
  - now rewrite IH.
  - destruct (Py.split sep s) as [|h r]; [discriminate IH | exact IH].
Qed.

(** X1: [validate_time] accepts a string exactly when it has one or two
    colons, and returns it unchanged; what stands between the colons is
    not looked at. *)
Theorem validate_time_counts_colons (v : string) :
  (count_char ":" v = 1%nat \/ count_char ":" v = 2%nat ->
   ResourceSpec.validate_time v = Ok v)
  /\ (count_char ":" v <> 1%nat -> count_char ":" v <> 2%nat ->
      ResourceSpec.validate_time v
      = Raise (ValueError "Time must be in HH:MM:SS or MM:SS format")).
Proof.
  unfold ResourceSpec.validate_time. rewrite split_length.
  cbn [existsb]. split.
  - intros [-> | ->]; reflexivity.
  - intros H1 H2.
    destruct (count_char ":" v) as [|[|[|n]]]; try reflexivity; congruence.
Qed.

Lemma validate_time_counts_colons_witness :
  ResourceSpec.validate_time "10:00" = Ok "10:00"
  /\ ResourceSpec.validate_time "ab:cd:ef" = Ok "ab:cd:ef"
  /\ ResourceSpec.validate_time "garbage"
     = Raise (ValueError "Time must be in HH:MM:SS or MM:SS format").
Proof.
  split; [|split].
  - apply (proj1 (validate_time_counts_colons "10:00")). left. reflexivity.
  - apply (proj1 (validate_time_counts_colons "ab:cd:ef")). right. reflexivity.
  - apply (proj2 (validate_time_counts_colons "garbage")); discriminate.
Defined.

(** X2: the normalisation of [validate_memory] is idempotent: a value
    that it returns is accepted again and returned as it is. *)
Theorem validate_memory_idempotent (v w : string) :
  ResourceSpec.validate_memory v = Ok w ->
  ResourceSpec.validate_memory w = Ok w.
Proof.
  unfold ResourceSpec.validate_memory.
  destruct (existsb _ _) eqn:Hex; [|discriminate].
  cbn [negb]. intros [= <-]. rewrite upper_idempotent, Hex. reflexivity.
Qed.

Lemma validate_memory_idempotent_witness :
  ResourceSpec.validate_memory "32GB" = Ok "32GB".
Proof. apply (validate_memory_idempotent "32gb" "32GB"). reflexivity. Defined.

(** X3: [validate_runtime] accepts a runtime exactly when its lower-cased
    form is apptainer or singularity, returns that lower-cased form, and
    accepts what it returns. *)
Theorem validate_runtime_normalises (v : string) :
  (forall w,
      ContainerSpec.validate_runtime v = Ok w
      <-> Py.lower v = w /\ (w = "apptainer" \/ w = "singularity"))
  /\ (forall w,
        ContainerSpec.validate_runtime v = Ok w ->
        ContainerSpec.validate_runtime w = Ok w)
  /\ (Py.lower v <> "apptainer" -> Py.lower v <> "singularity" ->
      exists msg, ContainerSpec.validate_runtime v = Raise (ValueError msg)).
Proof.
  unfold ContainerSpec.validate_runtime, ContainerSpec.valid_runtimes, Py.mem.
  cbn [existsb]. rewrite orb_false_r.
  split; [|split].
  - intros w. destruct (String.eqb (Py.lower v) "apptainer") eqn:H1;
      [|destruct (String.eqb (Py.lower v) "singularity") eqn:H2]; cbn.
    + apply String.eqb_eq in H1. split.
      * intros [= <-]. split; [reflexivity | now left].
      * intros [<- _]. reflexivity.
    + apply String.eqb_eq in H2. split.
      * intros [= <-]. split; [reflexivity | now right].
      * intros [<- _]. reflexivity.
    + apply String.eqb_neq in H1, H2. split; [discriminate|].
      intros [<- [H|H]]; congruence.
  - intros w. destruct (_ || _) eqn:Hm; cbn [negb]; [|discriminate].
    intros [= <-]. now rewrite orb_false_r, lower_idempotent, Hm.
  - intros H1 H2. apply String.eqb_neq in H1, H2. rewrite H1, H2. cbn.
    eexists. reflexivity.
Qed.

Lemma validate_runtime_normalises_witness :
  ContainerSpec.validate_runtime "Apptainer" = Ok "apptainer"
  /\ exists msg, ContainerSpec.validate_runtime "docker" = Raise (ValueError msg).
Proof.
  split.
  - apply (proj1 (validate_runtime_normalises "Apptainer")).
    split; [reflexivity | now left].
  - apply (proj2 (proj2 (validate_runtime_normalises "docker"))); discriminate.
Defined.

(** ** The orchestrator of core/slurm.py *)

(** X4: the mapping of [get_job_status] does not depend on the case of the
    state token. *)
Theorem status_of_state_case_insensitive (tok : string) :
  Slurm.status_of_state (Py.upper tok) = Slurm.status_of_state tok
  /\ Slurm.status_of_state (Py.lower tok) = Slurm.status_of_state tok.
Proof.
  unfold Slurm.status_of_state. now rewrite upper_idempotent, upper_lower.
Qed.

Ltac state_is H :=
  apply String.eqb_eq in H; unfold Slurm.status_of_state, Slurm.is_running,
    Slurm.is_pending, Slurm.is_completed; rewrite H.

(** X5: the flags of a [SlurmJobInfo] agree with the status that
    [get_job_status] gives for its state: a job that [is_running] maps to
    RUNNING, one that [is_pending] maps to PENDING, one that [is_completed]
    maps to STOPPED or ERROR, and no job has two of the flags. *)
Theorem job_info_flags_agree_with_status (info : Slurm.SlurmJobInfo) :
  (Slurm.is_running info = true ->
   Slurm.status_of_state (Slurm.state info) = ServiceStatus.RUNNING
   /\ Slurm.is_pending info = false /\ Slurm.is_completed info = false)
  /\ (Slurm.is_pending info = true ->
      Slurm.status_of_state (Slurm.state info) = ServiceStatus.PENDING
      /\ Slurm.is_completed info = false)
  /\ (Slurm.is_completed info = true ->
      ServiceStatus.in_stopped_error
        (Slurm.status_of_state (Slurm.state info)) = true).
Proof.
  split; [|split].
  - intros H. unfold Slurm.is_running in H. state_is H. repeat split.
  - intros H. unfold Slurm.is_pending, Py.mem in H. cbn [existsb] in H.
    repeat (apply orb_true_iff in H as [H|H]); try discriminate;
      state_is H; repeat split.
  - intros H. unfold Slurm.is_completed, Py.mem in H. cbn [existsb] in H.
    repeat (apply orb_true_iff in H as [H|H]); try discriminate;
      state_is H; reflexivity.
Qed.

Lemma job_info_flags_agree_with_status_witness :
  Slurm.status_of_state "cancelled" = ServiceStatus.ERROR.
Proof.
  pose proof (proj2 (proj2 (job_info_flags_agree_with_status
                              (Slurm.mkJobInfo "1" "j" "cancelled" None "gpu"
                                               "0:01" None))) eq_refl) as H.
  cbn [Slurm.state] in H.
  destruct (Slurm.status_of_state "cancelled") eqn:Hs; try discriminate H.
  - discriminate Hs.
  - reflexivity.
Defined.

(** X6: when the submission command does not succeed, [submit_job] raises
    a SLURM error whose operation is "sbatch", not "submit": with the text
    of stderr, or the exit code when stderr is empty, for an exit code
    other than 0, and with a fixed reason for a time-out and for a missing
    command.  The script file has been written by then. *)
Theorem submit_job_command_failure
    (script_content script_path : string) (sbatch : Slurm.run_outcome)
    (fs : filesystem) :
  Dict.get script_path fs <> Some Directory ->
  let res := Slurm.submit_job script_content script_path sbatch fs in
  content_of script_path (snd res) = Some script_content
  /\ (forall r,
        sbatch = Slurm.Completed r -> Slurm.returncode r <> 0%Z ->
        fst res
        = Raise (SlurmError "sbatch"
                   (if Py.truthy (Slurm.stderr r) then Slurm.stderr r
                    else "Exit code " ++ Slurm.str_Z (Slurm.returncode r))))
  /\ (sbatch = Slurm.TimeoutExpired ->
      fst res = Raise (SlurmError "sbatch" "Command timed out after 30s"))
  /\ (sbatch = Slurm.FileNotFound ->
      fst res = Raise (SlurmError "sbatch" "Command not found")).
Proof.
  intros Hfile res.
  assert (exists fs1,
             Slurm.write_text script_path script_content fs = Ok fs1
             /\ content_of script_path fs1 = Some script_content)
    as (fs1 & Hw & Hc).
  { unfold Slurm.write_text, content_of. cbn [fs_step].
    destruct (Dict.get script_path fs) as [[c|]|] eqn:Hget; try congruence;
      cbn [fs_step]; rewrite Dict_get_set_eq; eexists;
      (split; [reflexivity|]); now rewrite Dict_get_set_eq. }
  subst res. unfold Slurm.submit_job. rewrite Hw.
  split; [|split; [|split]].
  - destruct (Slurm._run_command "sbatch" 30 true sbatch) as [r|e];
      [destruct (Slurm.search_job_id (Slurm.stdout r))|]; exact Hc.
  - intros r -> Hrc. unfold Slurm._run_command.
    apply Z.eqb_neq in Hrc. rewrite Hrc. reflexivity.
  - intros ->. reflexivity.
  - intros ->. reflexivity.
Qed.

Lemma submit_job_command_failure_witness :
  fst (Slurm.submit_job "#!/bin/bash" "/tmp/job.sh"
         (Slurm.Completed (Slurm.mkCompleted 1 EmptyString "invalid partition"))
         Dict.empty)
  = Raise (SlurmError "sbatch" "invalid partition").
Proof.
  refine (proj1 (proj2 (submit_job_command_failure "#!/bin/bash" "/tmp/job.sh"
            (Slurm.Completed (Slurm.mkCompleted 1 EmptyString "invalid partition"))
            Dict.empty _)) _ eq_refl _); discriminate.
Defined.

(** X7: [get_job_info] asks the accounting only when the queue command
    completes and shows no row: when the queue shows rows the answer does
    not depend on the accounting, and when the queue command times out or is
    missing the answer is None whatever the accounting holds. *)
Theorem get_job_info_fallback (squeue : Slurm.run_outcome) :
  (no_rows squeue = false ->
   forall sacct sacct',
     Slurm.get_job_info squeue sacct = Slurm.get_job_info squeue sacct')
  /\ (squeue = Slurm.TimeoutExpired \/ squeue = Slurm.FileNotFound ->
      forall sacct, Slurm.get_job_info squeue sacct = None)
  /\ (forall r,
        squeue = Slurm.Completed r -> no_rows squeue = true ->
        forall sacct,
          Slurm.get_job_info squeue sacct = Slurm._get_completed_job_info sacct).
Proof.
  unfold Slurm.get_job_info, no_rows. split; [|split].
  - intros H sacct sacct'. destruct squeue as [r| |]; try discriminate.
    cbn [Slurm._run_command andb]. now rewrite H.
  - intros [-> | ->] sacct; reflexivity.
  - intros r -> H sacct. cbn [Slurm._run_command andb]. now rewrite H.
Qed.

Lemma get_job_info_fallback_witness :
  Slurm.get_job_info Slurm.TimeoutExpired
    (Slurm.Completed (Slurm.mkCompleted 0 "7|srv|COMPLETED|mel1|gpu|0:10"
                                        EmptyString))
  = None.
Proof.
  apply (proj1 (proj2 (get_job_info_fallback Slurm.TimeoutExpired))).
  now left.
Defined.

Lemma first_main_job_no_step (lines : list string) (info : Slurm.SlurmJobInfo) :
  Slurm.first_main_job lines = Some info ->
  Py.contains_char "." (Slurm.job_id info) = false
  /\ Slurm.reason info = None
  /\ exists line,
       In line lines
       /\ Slurm.job_info_of_parts false (Py.split "|" line) = Some info.
Proof.
  induction lines as [|line rest IH]; [discriminate|].
  cbn [Slurm.first_main_job].
  destruct (Py.split "|" line) as [|p0 [|p1 [|p2 [|p3 [|p4 [|p5 more]]]]]] eqn:Hs;
    try (intros H; destruct (IH H) as (H1 & H2 & l & Hin & Hl);
         repeat split; try assumption; exists l; split;
         [now right | assumption]).
  destruct (Py.contains_char "." p0) eqn:Hdot; cbn [negb].
  - intros H; destruct (IH H) as (H1 & H2 & l & Hin & Hl).
    repeat split; try assumption. exists l. split; [now right | assumption].
  - intros H. cbn [Slurm.job_info_of_parts] in H. injection H as <-.
    cbn [Slurm.job_id Slurm.reason]. repeat split; try assumption.
    exists line. split; [now left|]. now rewrite Hs.
Qed.

(** X8: the job that [_get_completed_job_info] returns is a main job and
    never a job step: its id has no dot, it comes from a line of the
    accounting output with at least six fields, and it carries no
    reason. *)
Theorem completed_job_info_is_main_job
    (sacct : Slurm.run_outcome) (info : Slurm.SlurmJobInfo) :
  Slurm._get_completed_job_info sacct = Some info ->
  Py.contains_char "." (Slurm.job_id info) = false
  /\ Slurm.reason info = None
  /\ exists r line,
       sacct = Slurm.Completed r /\ Slurm.returncode r = 0%Z
       /\ In line (Py.split Py.newline (Py.strip (Slurm.stdout r)))
       /\ Slurm.job_info_of_parts false (Py.split "|" line) = Some info.
Proof.
  unfold Slurm._get_completed_job_info.
  destruct sacct as [r| |]; cbn [Slurm._run_command andb]; try discriminate.
  destruct (Slurm.returncode r =? 0)%Z eqn:Hrc; cbn [negb orb]; [|discriminate].
  destruct (negb (Py.truthy (Py.strip (Slurm.stdout r)))); [discriminate|].
  intros H. apply first_main_job_no_step in H as (H1 & H2 & line & Hin & Hl).
  repeat split; try assumption. exists r, line.
  repeat split; try assumption. now apply Z.eqb_eq.
Qed.

Lemma completed_job_info_is_main_job_witness :
  let out := "77.batch|batch|COMPLETED|mel1|gpu|00:10"
               ++ String Py.newline "77|srv|FAILED|mel1|gpu|00:10" in
  exists info,
    Slurm._get_completed_job_info
      (Slurm.Completed (Slurm.mkCompleted 0 out EmptyString)) = Some info
    /\ Py.contains_char "." (Slurm.job_id info) = false.
Proof.
  intros out.
  exists (Slurm.mkJobInfo "77" "srv" "FAILED" (Some "mel1") "gpu" "00:10" None).
  split; [reflexivity|].
  apply (completed_job_info_is_main_job
           (Slurm.Completed (Slurm.mkCompleted 0 out EmptyString))).
  reflexivity.
Defined.

Lemma no_space_app (a b : string) :
  no_space (a ++ b) = no_space a && no_space b.
Proof.
  induction a as [|c a IH]; simpl; [reflexivity|].
  rewrite IH. now rewrite andb_assoc.
Qed.

Lemma plain_no_space (a : string) : plain a = true -> no_space a = true.
Proof.
  induction a as [|c a IH]; cbn [plain no_space]; [reflexivity|].
  intros H. apply andb_true_iff in H as [H Ha].
  apply andb_true_iff in H as [Hc _]. now rewrite Hc, IH.
Qed.

Lemma plain_no_separator (a : string) :
  plain a = true -> Py.contains_char "|" a = false.
Proof.
  induction a as [|c a IH]; cbn [plain Py.contains_char]; [reflexivity|].
  intros H. apply andb_true_iff in H as [H Ha].
  apply andb_true_iff in H as [_ Hc]. apply negb_true_iff in Hc.
  rewrite Ascii.eqb_sym, Hc. now apply IH.
Qed.

Lemma split_no_separator (sep : ascii) (a : string) :
  Py.contains_char sep a = false -> Py.split sep a = [a].
Proof.
  induction a as [|c a IH]; simpl; [reflexivity|].
  intros H. apply orb_false_iff in H as [Hc Ha].
  rewrite Ascii.eqb_sym, Hc. now rewrite (IH Ha).
Qed.

Lemma split_at_separator (sep : ascii) (a b : string) :
  Py.contains_char sep a = false ->
  Py.split sep (a ++ String sep b) = a :: Py.split sep b.
Proof.
  induction a as [|c a IH]; simpl.
  - intros _. now rewrite Ascii.eqb_refl.
  - intros H. apply orb_false_iff in H as [Hc Ha].
    rewrite Ascii.eqb_sym, Hc. now rewrite (IH Ha).
Qed.

Lemma lstrip_first_not_space (c : ascii) (s : string) :
  Py.isspace c = false -> Py.lstrip (String c s) = String c s.
Proof. intros H. simpl. now rewrite H. Qed.

Lemma rstrip_space_end (s : string) (c : ascii) :
  Py.isspace c = true ->
  Py.rstrip (s ++ String c EmptyString) = Py.rstrip s.
Proof.
  intros Hc. induction s as [|c' s IH]; simpl.
  - now rewrite Hc.
  - now rewrite IH.
Qed.

Lemma rstrip_not_space_end (s : string) (c : ascii) :
  Py.isspace c = false ->
  Py.rstrip (s ++ String c EmptyString) = s ++ String c EmptyString.
Proof.
  intros Hc. induction s as [|c' s IH]; simpl.
  - now rewrite Hc.
  - rewrite IH. now destruct s.
Qed.

Lemma rstrip_no_space (s : string) :
  no_space s = true -> s <> EmptyString -> Py.rstrip s = s.
Proof.
  induction s as [|c s IH]; [congruence|].
  intros H _. cbn [no_space] in H. apply andb_true_iff in H as [Hc Hs].
  apply negb_true_iff in Hc.
  cbn [Py.rstrip]. destruct s as [|c' s'].
  - simpl. now rewrite Hc.
  - rewrite IH by (assumption || discriminate). reflexivity.
Qed.

(** X9: [get_job_info] reads back the row that the queue prints for a job:
    for fields without white space and without the column separator, the
    seven fields of the row come back in order, an empty node or reason as
    None. *)
Theorem get_job_info_reads_squeue_row
    (job_id name state node partition time_used reason stderr : string)
    (sacct : Slurm.run_outcome) :
  plain job_id = true -> plain name = true -> plain state = true ->
  plain node = true -> plain partition = true -> plain time_used = true ->
  plain reason = true ->
  Slurm.get_job_info
    (Slurm.Completed
       (Slurm.mkCompleted 0
          (squeue_row job_id name state node partition time_used reason)
          stderr))
    sacct
  = Some (Slurm.mkJobInfo job_id name state (Py.nonempty node) partition
                          time_used (Py.nonempty reason)).
Proof.
  intros H0 H1 H2 H3 H4 H5 H6.
  set (row := job_id ++ "|" ++ name ++ "|" ++ state ++ "|" ++ node ++ "|"
                ++ partition ++ "|" ++ time_used ++ "|" ++ reason).
  assert (squeue_row job_id name state node partition time_used reason
          = row ++ String Py.newline EmptyString) as Hrow.
  { unfold squeue_row, row. now rewrite !string_app_assoc. }
  assert (no_space row = true) as Hplain.
  { unfold row.
    rewrite !no_space_app, (plain_no_space _ H0), (plain_no_space _ H1),
      (plain_no_space _ H2), (plain_no_space _ H3), (plain_no_space _ H4),
      (plain_no_space _ H5), (plain_no_space _ H6).
    reflexivity. }
  assert (row <> EmptyString) as Hrne.
  { unfold row. destruct job_id; discriminate. }
  assert (Py.strip (row ++ String Py.newline EmptyString) = row) as Hstrip.
  { unfold Py.strip. destruct row as [|c row'] eqn:Er; [congruence|].
    cbn [append]. assert (Py.isspace c = false) as Hc.
    { cbn [no_space] in Hplain. apply andb_true_iff in Hplain as [Hp _].
      now apply negb_true_iff in Hp. }
    rewrite lstrip_first_not_space by assumption.
    change (String c (row' ++ String Py.newline EmptyString))
      with (String c row' ++ String Py.newline EmptyString).
    rewrite rstrip_space_end by reflexivity.
    now apply rstrip_no_space. }
  unfold Slurm.get_job_info. cbn [Slurm._run_command andb Slurm.returncode
    Slurm.stdout Z.eqb negb orb].
  rewrite Hrow, Hstrip.
  destruct row as [|c row'] eqn:Er; [congruence|]. cbn [Py.truthy negb].
  rewrite <- Er. unfold row. cbn [append].
  rewrite !split_at_separator by now apply plain_no_separator.
  rewrite split_no_separator by now apply plain_no_separator.
  cbn [Slurm.job_info_of_parts]. reflexivity.
Qed.

Lemma get_job_info_reads_squeue_row_witness :
  Slurm.get_job_info
    (Slurm.Completed
       (Slurm.mkCompleted 0
          (squeue_row "4242" "srv" "PENDING" EmptyString "gpu" "0:00"
                      "Priority")
          EmptyString))
    Slurm.FileNotFound
  = Some (Slurm.mkJobInfo "4242" "srv" "PENDING" None "gpu" "0:00"
                          (Some "Priority"))
  /\ Slurm.get_job_info
       (Slurm.Completed
          (Slurm.mkCompleted 0
             (squeue_row "4242" "srv" "RUNNING" "mel2091" "gpu" "0:10"
                         EmptyString)
             EmptyString))
       Slurm.FileNotFound
     = Some (Slurm.mkJobInfo "4242" "srv" "RUNNING" (Some "mel2091") "gpu"
                             "0:10" None).
Proof.
  split.
  - apply (get_job_info_reads_squeue_row "4242" "srv" "PENDING" EmptyString
             "gpu" "0:00" "Priority" EmptyString Slurm.FileNotFound);
      reflexivity.
  - apply (get_job_info_reads_squeue_row "4242" "srv" "RUNNING" "mel2091"
             "gpu" "0:10" EmptyString EmptyString Slurm.FileNotFound);
      reflexivity.
Defined.

Ltac no_gres_line :=
  match goal with
  | H : _ \/ _ |- _ => destruct H as [H|H]; [|no_gres_line]
  | H : False |- _ => destruct H
  end;
  try (subst; match goal with
              | Hp : String.prefix _ _ = true |- _ =>
                  vm_compute in Hp; discriminate Hp
              end).

Lemma no_line_feed_app (a b : string) :
  no_line_feed (a ++ b) = no_line_feed a && no_line_feed b.
Proof.
  unfold no_line_feed. induction a as [|c a IH]; cbn [append Py.contains_char].
  - reflexivity.
  - rewrite !negb_orb, IH. now rewrite andb_assoc.
Qed.

Lemma string_of_uint_no_line_feed (d : Decimal.uint) :
  no_line_feed (NilEmpty.string_of_uint d) = true.
Proof. induction d; cbn; assumption || reflexivity. Qed.

Lemma str_int_no_line_feed (z : Z) : no_line_feed (Py.str_int z) = true.
Proof.
  unfold Py.str_int, NilZero.string_of_int, NilZero.string_of_uint.
  assert (forall d, no_line_feed (match d with
                                  | Decimal.Nil => "0"
                                  | _ => NilEmpty.string_of_uint d
                                  end) = true) as Hd.
  { intros d. destruct d; try reflexivity;
      match goal with
      | |- no_line_feed (NilEmpty.string_of_uint ?x) = true =>
          apply (string_of_uint_no_line_feed x)
      end. }
  destruct (Z.to_int z) as [d|d]; [apply Hd|].
  change (String "-" ?x) with ("-" ++ x).
  rewrite no_line_feed_app. now rewrite Hd.
Qed.

Lemma split_join_cons (l r : string) (rest : list string) :
  no_line_feed l = true ->
  Py.split Py.newline (Py.join (String Py.newline EmptyString) (l :: r :: rest))
  = l :: Py.split Py.newline
           (Py.join (String Py.newline EmptyString) (r :: rest)).
Proof.
  intros Hl. cbn [Py.join]. cbn [append].
  apply split_at_separator. unfold no_line_feed in Hl.
  now apply negb_true_iff in Hl.
Qed.

Lemma header_of_joined (ds rest : list string) :
  Forall (fun d => no_line_feed d = true /\ Py.truthy d = true) ds ->
  script_header
    (Py.join (String Py.newline EmptyString) (ds ++ EmptyString :: rest)%list)
  = ds.
Proof.
  unfold script_header. induction 1 as [|d ds [Hd Hne] _ IH].
  - cbn [app]. destruct rest as [|r rest]; [reflexivity|].
    rewrite split_join_cons by reflexivity. reflexivity.
  - cbn [app]. destruct (ds ++ EmptyString :: rest)%list as [|r tl] eqn:Etl.
    { now destruct ds. }
    rewrite split_join_cons by assumption.
    cbn [lines_before_blank]. rewrite Hne. now rewrite IH.
Qed.

Lemma script_lines_begin (config : Slurm.SlurmConfig)
    (job_name command : string) (resources : ResourceSpec.t)
    (environment : Dict.t string) (output_dir : string)
    (setup_commands : option (list string)) :
  exists rest,
    Slurm.script_lines config job_name command resources environment
                       output_dir setup_commands
    = (Slurm.directives config job_name resources output_dir
         ++ EmptyString :: rest)%list.
Proof.
  unfold Slurm.script_lines, Py.extend, Py.append.
  destruct setup_commands as [[|c cs]|];
    repeat rewrite <- app_assoc; cbn [app]; eexists; reflexivity.
Qed.

Lemma directives_single_line (config : Slurm.SlurmConfig) (job_name : string)
    (resources : ResourceSpec.t) (output_dir : string) :
  single_line_fields config job_name resources output_dir = true ->
  Forall (fun d => no_line_feed d = true /\ Py.truthy d = true)
         (Slurm.directives config job_name resources output_dir).
Proof.
  unfold single_line_fields. intros H.
  repeat (apply andb_true_iff in H; destruct H as [H ?]).
  assert (forall a b, no_line_feed a = true -> no_line_feed b = true ->
                      no_line_feed (a ++ b) = true) as Happ.
  { intros a b Ha Hb. now rewrite no_line_feed_app, Ha, Hb. }
  assert (forall a b, Py.truthy a = true -> Py.truthy (a ++ b) = true) as Hne.
  { intros [|c a] b Ha; [discriminate | reflexivity]. }
  pose proof str_int_no_line_feed as Hint.
  unfold Slurm.directives, Py.append.
  destruct (0 <? ResourceSpec.gpus resources)%Z,
    (Slurm.truthy_opt (ResourceSpec.gpu_type resources)),
    (Slurm.truthy_opt (Slurm.account config)),
    (Py.truthy (Slurm.qos config));
    cbn [app];
    repeat (apply Forall_cons || apply Forall_nil);
    (split;
     [ repeat first [assumption | apply Hint | reflexivity | apply Happ]
     | first [reflexivity | apply Hne; reflexivity] ]).
Qed.

(** X10: the text that [generate_batch_script] returns begins with the
    line [#!/bin/bash], and the GPU type of the resources has no effect on
    it.  When none of the texts put into the [#SBATCH] lines (job name,
    time, partition, memory, output directory, account, QOS) has a line
    feed, the lines of the script before its first empty line are the
    directives, and among them there is a [--gres] line exactly when the
    resources name more than zero GPUs, which is then
    [#SBATCH --gres=gpu:N]. *)
Theorem batch_script_gpu_request
    (config : Slurm.SlurmConfig) (job_name command : string)
    (resources : ResourceSpec.t) (environment : Dict.t string)
    (output_dir : string) (setup_commands : option (list string)) :
  let script :=
    Slurm.generate_batch_script config job_name command resources
      environment output_dir setup_commands in
  (forall gpu_type,
      Slurm.generate_batch_script config job_name command
        (ResourceSpec.mk (ResourceSpec.nodes resources)
           (ResourceSpec.gpus resources) gpu_type
           (ResourceSpec.cpus_per_task resources)
           (ResourceSpec.memory resources) (ResourceSpec.time resources)
           (ResourceSpec.partition resources))
        environment output_dir setup_commands
      = script)
  /\ hd_error (Py.split Py.newline script) = Some "#!/bin/bash"
  /\ (single_line_fields config job_name resources output_dir = true ->
      script_header script
      = Slurm.directives config job_name resources output_dir
      /\ ((exists line,
             In line (script_header script)
             /\ String.prefix "#SBATCH --gres" line = true)
          <-> (0 < ResourceSpec.gpus resources)%Z)
      /\ ((0 < ResourceSpec.gpus resources)%Z ->
          In ("#SBATCH --gres=gpu:"
                ++ Py.str_int (ResourceSpec.gpus resources))
             (script_header script))).
Proof.
  intros script. split; [|split].
  - intros gpu_type. subst script.
    unfold Slurm.generate_batch_script, Slurm.script_lines, Slurm.directives.
    cbn [ResourceSpec.nodes ResourceSpec.gpus ResourceSpec.gpu_type
         ResourceSpec.cpus_per_task ResourceSpec.memory ResourceSpec.time
         ResourceSpec.partition].
    destruct (0 <? ResourceSpec.gpus resources)%Z; [|reflexivity].
    destruct (Slurm.truthy_opt gpu_type),
      (Slurm.truthy_opt (ResourceSpec.gpu_type resources)); reflexivity.
  - subst script. unfold Slurm.generate_batch_script.
    destruct (script_lines_begin config job_name command resources environment
                output_dir setup_commands) as [rest ->].
    assert (exists d tl,
               (Slurm.directives config job_name resources output_dir
                  ++ EmptyString :: rest)%list
               = "#!/bin/bash" :: d :: tl) as (d & tl & ->).
    { unfold Slurm.directives, Py.append.
      destruct (0 <? ResourceSpec.gpus resources)%Z,
        (Slurm.truthy_opt (ResourceSpec.gpu_type resources)),
        (Slurm.truthy_opt (Slurm.account config)),
        (Py.truthy (Slurm.qos config)); cbn [app]; eauto. }
    now rewrite split_join_cons by reflexivity.
  - intros Hfields.
    assert (script_header script
            = Slurm.directives config job_name resources output_dir) as Hhead.
    { subst script. unfold Slurm.generate_batch_script.
      destruct (script_lines_begin config job_name command resources
                  environment output_dir setup_commands) as [rest ->].
      apply header_of_joined. now apply directives_single_line. }
    rewrite Hhead. split; [reflexivity|]. split.
    + unfold Slurm.directives, Py.append.
      destruct (0 <? ResourceSpec.gpus resources)%Z eqn:Hg.
      * apply Z.ltb_lt in Hg. split; [intros _; exact Hg | intros _].
        exists ("#SBATCH --gres=gpu:"
                  ++ Py.str_int (ResourceSpec.gpus resources)).
        split; [|reflexivity].
        destruct (Slurm.truthy_opt (ResourceSpec.gpu_type resources)),
          (Slurm.truthy_opt (Slurm.account config)),
          (Py.truthy (Slurm.qos config));
          cbn [app In]; auto 20.
      * apply Z.ltb_ge in Hg. split; [|lia].
        intros (line & Hin & Hp). exfalso.
        destruct (Slurm.truthy_opt (Slurm.account config)),
          (Py.truthy (Slurm.qos config));
          cbn [app In] in Hin; no_gres_line.
    + intros Hg. apply Z.ltb_lt in Hg.
      unfold Slurm.directives, Py.append. rewrite Hg.
      destruct (Slurm.truthy_opt (ResourceSpec.gpu_type resources)),
        (Slurm.truthy_opt (Slurm.account config)),
        (Py.truthy (Slurm.qos config));
        cbn [app In]; auto 20.
Qed.

Lemma batch_script_gpu_request_witness :
  let resources := ResourceSpec.mk 1 2 (Some "a100") 4 "32G" "01:00:00" "gpu" in
  let script :=
    Slurm.generate_batch_script (Slurm.mkConfig (Some "p200301") "default")
      "inferbench-vllm-ab12" "serve" resources [] "/logs/servers/ab12" None in
  In "#SBATCH --gres=gpu:2" (script_header script).
Proof.
  intros resources script.
  apply (proj2 (proj2 (proj2 (proj2 (batch_script_gpu_request
           (Slurm.mkConfig (Some "p200301") "default") "inferbench-vllm-ab12"
           "serve" resources [] "/logs/servers/ab12" None)) eq_refl)));
    reflexivity.
Defined.

(** ** The registries of core/registry.py *)

Section DictMore.
Variable V : Type.
Implicit Types (d : Dict.t V) (k : string) (v : V).

Lemma Dict_get_del_eq k d : Dict.get k (Dict.del k d) = None.
Proof.
  unfold Dict.del. induction d as [|[k' v'] d IH]; simpl; [reflexivity|].
  destruct (String.eqb k k') eqn:Hk; simpl; [exact IH|]. now rewrite Hk.
Qed.

Lemma Dict_get_del_ne k k' d :
  k <> k' -> Dict.get k' (Dict.del k d) = Dict.get k' d.
Proof.
  intros Hne. unfold Dict.del.
  induction d as [|[k0 v0] d IH]; simpl; [reflexivity|].
  destruct (String.eqb k k0) eqn:Hk; simpl.
  - apply String.eqb_eq in Hk. subst k0.
    apply not_eq_sym, String.eqb_neq in Hne. now rewrite Hne.
  - now rewrite IH.
Qed.

Lemma Dict_del_absent k d : Dict.get k d = None -> Dict.del k d = d.
Proof.
  unfold Dict.del. induction d as [|[k' v'] d IH]; simpl; [reflexivity|].
  destruct (String.eqb k k') eqn:Hk; [discriminate|].
  intros H. simpl. now rewrite IH.
Qed.

Lemma Dict_del_set_fresh k v d :
  Dict.get k d = None -> Dict.del k (Dict.set k v d) = d.
Proof.
  induction d as [|[k' v'] d IH]; simpl.
  - intros _. unfold Dict.del. simpl. now rewrite String.eqb_refl.
  - destruct (String.eqb k k') eqn:Hk; [discriminate|].
    intros H. unfold Dict.del in *. simpl. rewrite Hk. simpl.
    now rewrite IH.
Qed.

Lemma Dict_length_set k v d :
  length (Dict.set k v d)
  = if Dict.contains k d then length d else S (length d).
Proof.
  unfold Dict.contains. induction d as [|[k' v'] d IH]; simpl; [reflexivity|].
  destruct (String.eqb k k'); simpl; [reflexivity|].
  rewrite IH. now destruct (Dict.get k d).
Qed.

Lemma Dict_values_In (x : V) d :
  In x (Dict.values d) <-> exists k, In (k, x) d.
Proof.
  unfold Dict.values. rewrite in_map_iff. split.
  - intros ([k x'] & Hx & Hin). simpl in Hx. subst. now exists k.
  - intros (k & Hin). now exists (k, x).
Qed.

End DictMore.

(** X11: [register] is insert-or-replace by the id of the service: after
    it the service is what [get] returns for that id, every other id
    answers as before, the number of services grows by one exactly when
    the id was new, and the file is written from the new registry.  The
    same holds for the run registry. *)
Theorem register_then_get
    (ES : JsonEncoder ServiceInstance.t) (ER : JsonEncoder ClientRun.t)
    (fs : filesystem) :
  (forall (service : ServiceInstance.t) (reg : ServiceRegistry.t),
      let r := ServiceRegistry.register service reg fs in
      returned r = true
      /\ ServiceRegistry.get (ServiceInstance.id service) (registry_after r)
         = Ok service
      /\ (forall other,
            other <> ServiceInstance.id service ->
            ServiceRegistry.get other (registry_after r)
            = ServiceRegistry.get other reg)
      /\ length (ServiceRegistry.get_all (registry_after r))
         = (if Dict.contains (ServiceInstance.id service)
                             (ServiceRegistry._services reg)
            then length (ServiceRegistry.get_all reg)
            else S (length (ServiceRegistry.get_all reg)))
      /\ files_after r = ServiceRegistry._persist_state (registry_after r) fs)
  /\ (forall (run : ClientRun.t) (reg : RunRegistry.t),
      let r := RunRegistry.register run reg fs in
      returned r = true
      /\ RunRegistry.get (ClientRun.id run) (registry_after r) = Ok run
      /\ (forall other,
            other <> ClientRun.id run ->
            RunRegistry.get other (registry_after r) = RunRegistry.get other reg)
      /\ length (RunRegistry.get_all (registry_after r))
         = (if Dict.contains (ClientRun.id run) (RunRegistry._runs reg)
            then length (RunRegistry.get_all reg)
            else S (length (RunRegistry.get_all reg)))
      /\ files_after r = RunRegistry._persist_state (registry_after r) fs).
Proof.
  split.
  - intros service reg r. subst r.
    unfold ServiceRegistry.register, returned, registry_after, files_after,
      ServiceRegistry.get, ServiceRegistry.get_all, Dict.values.
    cbn [fst snd ServiceRegistry._services ServiceRegistry.with_services].
    rewrite Dict_get_set_eq, !length_map, Dict_length_set.
    split; [reflexivity|]. split; [reflexivity|].
    split; [|split; reflexivity].
    intros other Hne. now rewrite Dict_get_set_ne by congruence.
  - intros run reg r. subst r.
    unfold RunRegistry.register, returned, registry_after, files_after,
      RunRegistry.get, RunRegistry.get_all, Dict.values.
    cbn [fst snd RunRegistry._runs RunRegistry.with_runs].
    rewrite Dict_get_set_eq, !length_map, Dict_length_set.
    split; [reflexivity|]. split; [reflexivity|].
    split; [|split; reflexivity].
    intros other Hne. now rewrite Dict_get_set_ne by congruence.
Qed.

(** X12: [unregister] of a registered id returns True, after which [get]
    raises [ServiceNotFoundError] for that id and answers as before for
    every other id; and registering a service under a new id and
    unregistering it again gives back the registry as it was. *)
Theorem unregister_removes
    (E : JsonEncoder ServiceInstance.t) (reg : ServiceRegistry.t)
    (fs : filesystem) :
  (forall id s,
      service_of id reg = Some s ->
      let r := ServiceRegistry.unregister id reg fs in
      returned r = true
      /\ ServiceRegistry.get id (registry_after r)
         = Raise (ServiceNotFoundError id)
      /\ (forall other,
            other <> id ->
            ServiceRegistry.get other (registry_after r)
            = ServiceRegistry.get other reg))
  /\ (forall service,
        service_of (ServiceInstance.id service) reg = None ->
        let r := ServiceRegistry.register service reg fs in
        registry_after
          (ServiceRegistry.unregister (ServiceInstance.id service)
             (registry_after r) (files_after r))
        = reg).
Proof.
  split.
  - intros id s Hs r. subst r. unfold service_of in Hs.
    unfold ServiceRegistry.unregister, Dict.contains, returned, registry_after,
      ServiceRegistry.get.
    rewrite Hs.
    cbn [negb fst snd ServiceRegistry._services ServiceRegistry.with_services].
    rewrite Dict_get_del_eq. split; [reflexivity|]. split; [reflexivity|].
    intros other Hne. now rewrite Dict_get_del_ne by congruence.
  - intros service Hfresh r. subst r. unfold service_of in Hfresh.
    unfold ServiceRegistry.unregister, ServiceRegistry.register, Dict.contains,
      registry_after, files_after.
    cbn [fst snd ServiceRegistry._services ServiceRegistry.with_services].
    rewrite Dict_get_set_eq.
    cbn [negb fst snd ServiceRegistry._services ServiceRegistry.with_services
         ServiceRegistry._persistence_path].
    rewrite Dict_del_set_fresh by assumption. now destruct reg.
Qed.

Lemma unregister_removes_witness :
  let E := keys_encoder ServiceInstance.t in
  let s := sample_service "svc" ServiceStatus.RUNNING None None in
  let reg := ServiceRegistry.mk [("svc", s)] None in
  ServiceRegistry.get "svc"
    (registry_after (ServiceRegistry.unregister "svc" reg []))
  = Raise (ServiceNotFoundError "svc").
Proof.
  intros E s reg.
  apply (proj1 (unregister_removes E reg []) "svc" s eq_refl).
Defined.

(** X13: [get_by_job_id] returns a registered service whose SLURM job id
    is the one asked for, and returns None exactly when no registered
    service has that job id. *)
Theorem get_by_job_id_finds (job_id : string) (reg : ServiceRegistry.t) :
  (forall s,
      ServiceRegistry.get_by_job_id job_id reg = Some s ->
      In s (ServiceRegistry.get_all reg)
      /\ ServiceInstance.slurm_job_id s = Some job_id)
  /\ (ServiceRegistry.get_by_job_id job_id reg = None
      <-> forall s, In s (ServiceRegistry.get_all reg) ->
                    ServiceInstance.slurm_job_id s <> Some job_id).
Proof.
  unfold ServiceRegistry.get_by_job_id, ServiceRegistry.get_all.
  assert (forall s, ServiceRegistry.job_id_is job_id s = true
                    <-> ServiceInstance.slurm_job_id s = Some job_id) as Hjob.
  { intros s. unfold ServiceRegistry.job_id_is.
    destruct (ServiceInstance.slurm_job_id s) as [j|]; [|split; discriminate].
    rewrite String.eqb_eq. split; [now intros -> | now intros [= ->]]. }
  split.
  - intros s Hf. apply find_some in Hf as [Hin Hj]. split; [assumption|].
    now apply Hjob.
  - split.
    + intros Hnone s Hin Hj. apply Hjob in Hj.
      pose proof (find_none _ _ Hnone s Hin) as Hf. congruence.
    + intros Hall.
      destruct (find _ _) as [s|] eqn:Hf; [|reflexivity].
      apply find_some in Hf as [Hin Hj]. apply Hjob in Hj.
      now destruct (Hall s Hin).
Qed.

Lemma get_by_job_id_finds_witness :
  let s := sample_service "svc" ServiceStatus.RUNNING (Some "4242") None in
  ServiceInstance.slurm_job_id s = Some "4242".
Proof.
  intros s.
  apply (proj1 (get_by_job_id_finds "4242" (ServiceRegistry.mk [("svc", s)] None))
               s eq_refl).
Defined.

(** X14: an update touches one service and only what it names:
    [update_node] and [update_endpoints] replace that one field of the
    service under the id; [update_status] leaves its id, recipe, job id,
    node, endpoints and creation time alone, and replaces the stored error
    message only by a message that is not empty.  Every other id answers as
    before. *)
Theorem updates_change_one_service
    (E : JsonEncoder ServiceInstance.t) (now : datetime) (id : string)
    (reg : ServiceRegistry.t) (fs : filesystem) (s : ServiceInstance.t) :
  service_of id reg = Some s ->
  (forall node,
      let r := ServiceRegistry.update_node id node reg fs in
      service_of id (registry_after r)
      = Some (ServiceInstance.set_node (Some node) s)
      /\ forall other, other <> id ->
                       service_of other (registry_after r) = service_of other reg)
  /\ (forall endpoints,
        let r := ServiceRegistry.update_endpoints id endpoints reg fs in
        service_of id (registry_after r)
        = Some (ServiceInstance.set_endpoints endpoints s)
        /\ forall other, other <> id ->
                         service_of other (registry_after r)
                         = service_of other reg)
  /\ (forall st msg,
        let r := ServiceRegistry.update_status now id st msg reg fs in
        (exists s',
            service_of id (registry_after r) = Some s'
            /\ ServiceInstance.id s' = ServiceInstance.id s
            /\ ServiceInstance.recipe_name s' = ServiceInstance.recipe_name s
            /\ ServiceInstance.recipe s' = ServiceInstance.recipe s
            /\ ServiceInstance.slurm_job_id s' = ServiceInstance.slurm_job_id s
            /\ ServiceInstance.node s' = ServiceInstance.node s
            /\ ServiceInstance.endpoints s' = ServiceInstance.endpoints s
            /\ ServiceInstance.created_at s' = ServiceInstance.created_at s
            /\ ServiceInstance.error_message s'
               = (if truthy_message msg then msg
                  else ServiceInstance.error_message s))
        /\ forall other, other <> id ->
                         service_of other (registry_after r)
                         = service_of other reg).
Proof.
  intros Hs. split; [|split].
  - intros node r. subst r. unfold service_of in *.
    unfold ServiceRegistry.update_node, registry_after.
    rewrite Hs. cbn [fst snd ServiceRegistry._services
                     ServiceRegistry.with_services].
    split; [apply Dict_get_set_eq|].
    intros other Hne. now rewrite Dict_get_set_ne by congruence.
  - intros endpoints r. subst r. unfold service_of in *.
    unfold ServiceRegistry.update_endpoints, registry_after.
    rewrite Hs. cbn [fst snd ServiceRegistry._services
                     ServiceRegistry.with_services].
    split; [apply Dict_get_set_eq|].
    intros other Hne. now rewrite Dict_get_set_ne by congruence.
  - intros st msg r. subst r. unfold service_of in *.
    rewrite (update_status_found now id st msg reg fs s Hs).
    unfold registry_after.
    cbn [fst snd ServiceRegistry._services ServiceRegistry.with_services].
    split.
    + exists (ServiceRegistry.apply_status now st msg s).
      split; [apply Dict_get_set_eq|].
      unfold ServiceRegistry.apply_status.
      destruct s as [? ? ? ? ? ? ? ? started ? ?].
      destruct (truthy_message msg), st, started; repeat split.
    + intros other Hne. now rewrite Dict_get_set_ne by congruence.
Qed.

Lemma updates_change_one_service_witness :
  let E := keys_encoder ServiceInstance.t in
  let s := sample_service "svc" ServiceStatus.RUNNING (Some "4242") None in
  let reg := ServiceRegistry.mk [("svc", s)] None in
  service_of "svc"
    (registry_after (ServiceRegistry.update_node "svc" "mel2091" reg []))
  = Some (ServiceInstance.set_node (Some "mel2091") s).
Proof.
  intros E s reg.
  apply (proj1 (updates_change_one_service E 0%Z "svc" reg [] s eq_refl)
               "mel2091").
Defined.

(** The managers keep the registry keyed by id. *)

Lemma assign_keyed_by_id (key : string)
    (f : ServiceInstance.t -> ServiceInstance.t) (reg : ServiceRegistry.t) :
  (forall s, ServiceInstance.id (f s) = ServiceInstance.id s) ->
  keyed_by_id reg -> keyed_by_id (ServerManager.assign key f reg).
Proof.
  intros Hf Hwf. unfold ServerManager.assign.
  destruct (Dict.get key (ServiceRegistry._services reg)) as [s|] eqn:Hget;
    [|assumption].
  assert (ServiceInstance.id (f s) = key) as Hid.
  { rewrite Hf. apply (proj2 Hwf). now apply Dict_get_In. }
  rewrite <- Hid at 1. now apply keyed_by_id_set.
Qed.

Section ManagersKeepInvariant.
Context {E : JsonEncoder ServiceInstance.t}.

Lemma stop_service_keyed_by_id orchestrator now arg force reg fs :
  keyed_by_id reg ->
  keyed_by_id
    (registry_after
       (ServerManager.stop_service orchestrator now arg force reg fs)).
Proof.
  intros Hwf. unfold ServerManager.stop_service, registry_after.
  destruct (ServerManager.lookup arg reg) as [[k s]|e]; [|assumption].
  destruct (ServiceStatus.in_stopped_error _); [assumption|].
  pose proof (update_status_keyed_by_id now (ServiceInstance.id s)
                ServiceStatus.STOPPING None reg fs Hwf) as H1.
  unfold registry_after in H1.
  destruct (ServiceRegistry.update_status now _ ServiceStatus.STOPPING _ _ _)
    as [[b1 reg1] fs1]. cbn [fst snd] in H1.
  pose proof (update_status_keyed_by_id now (ServiceInstance.id s)
                ServiceStatus.STOPPED None reg1 fs1 H1) as H2.
  unfold registry_after in H2.
  destruct (ServiceRegistry.update_status now _ ServiceStatus.STOPPED _ _ _)
    as [[b2 reg2] fs2]. cbn [fst snd] in H2.
  destruct (match ServerManager.job_of s with
            | Some j => negb (cancel_job orchestrator j) && negb force
            | None => false
            end); [destruct force|]; try assumption.
  pose proof (update_status_keyed_by_id now (ServiceInstance.id s)
                ServiceStatus.STOPPED None reg1 fs1 H1) as H3.
  unfold registry_after in H3.
  destruct (ServiceRegistry.update_status now _ ServiceStatus.STOPPED _ _ _)
    as [[b3 reg3] fs3]. exact H3.
Qed.

Lemma get_service_status_keyed_by_id orchestrator now arg reg fs :
  keyed_by_id reg ->
  keyed_by_id
    (registry_after
       (ServerManager.get_service_status orchestrator now arg reg fs)).
Proof.
  intros Hwf. unfold ServerManager.get_service_status, registry_after.
  destruct (ServerManager.lookup arg reg) as [[k s]|e]; [|assumption].
  destruct (ServerManager.job_of s) as [job|]; [|assumption].
  destruct (negb (ServiceStatus.in_stopped_error _)); [|assumption].
  destruct (negb (ServiceStatus.eqb _ _)); [|assumption].
  pose proof (update_status_keyed_by_id now (ServiceInstance.id s)
                (get_job_status orchestrator job) None reg fs Hwf) as H1.
  unfold registry_after in H1.
  destruct (ServiceRegistry.update_status now _ _ _ _ _) as [[b1 reg1] fs1].
  cbn [fst snd] in H1.
  assert (keyed_by_id
            (ServerManager.assign k
               (ServiceInstance.set_status (get_job_status orchestrator job))
               reg1)) as H2 by (apply assign_keyed_by_id; auto).
  destruct (ServiceStatus.eqb _ ServiceStatus.RUNNING); [|assumption].
  destruct (get_job_node orchestrator job) as [node|]; [|assumption].
  destruct (Py.truthy node && ServerManager.node_differs node s); [|assumption].
  assert (keyed_by_id
            (ServerManager.assign k (ServiceInstance.set_node (Some node))
               (ServerManager.assign k
                  (ServiceInstance.set_status (get_job_status orchestrator job))
                  reg1))) as H3 by (apply assign_keyed_by_id; auto).
  pose proof (update_node_keyed_by_id (ServiceInstance.id s) node _ fs1 H3)
    as H4.
  unfold registry_after in H4.
  destruct (ServiceRegistry.update_node _ _ _ _) as [[b4 reg4] fs4].
  exact H4.
Qed.

End ManagersKeepInvariant.

(** X15: whatever sequence of operations is run on a registry that starts
    empty (register, unregister, the three updates, the sweep of stale
    services, [stop_service] and [get_service_status]), the registry has
    one entry per key and holds every service under its own id. *)
Theorem operations_keep_registry_keyed_by_id
    (E : JsonEncoder ServiceInstance.t) (ops : list registry_op)
    (path : option string) (fs : filesystem) :
  keyed_by_id (fst (run_ops ops (ServiceRegistry.mk Dict.empty path, fs))).
Proof.
  unfold run_ops.
  assert (forall w, keyed_by_id (fst w) ->
                    keyed_by_id (fst (fold_left (fun w op => run_op op w) ops w)))
    as Hstep.
  { induction ops as [|op ops IH]; intros w Hw; [exact Hw|].
    cbn [fold_left]. apply IH. destruct w as [reg fs0]. cbn [fst] in Hw.
    destruct op; cbn [run_op fst].
    - now apply register_keyed_by_id.
    - now apply unregister_keyed_by_id.
    - now apply update_status_keyed_by_id.
    - now apply update_node_keyed_by_id.
    - now apply update_endpoints_keyed_by_id.
    - now apply cleanup_stale_keyed_by_id.
    - now apply stop_service_keyed_by_id.
    - now apply get_service_status_keyed_by_id. }
  apply Hstep. apply keyed_by_id_empty.
Qed.





Lemma filter_filter_negb {A : Type} (f : A -> bool) (l : list A) :
  filter f (filter (fun x => negb (f x)) l) = [].
Proof.
  induction l as [|x l IH]; simpl; [reflexivity|].
  destruct (f x) eqn:Hf; simpl; [exact IH | now rewrite Hf].
Qed.

(** X17: the sweep of stale services is idempotent: a second sweep at the
    same time with the same threshold removes nothing, returns 0 and
    writes nothing; and a sweep that returns 0 leaves the registry and the
    files as they were. *)
Theorem cleanup_stale_idempotent
    (E : JsonEncoder ServiceInstance.t) (now : datetime) (max_age_hours : Z)
    (reg : ServiceRegistry.t) (fs : filesystem) :
  unique_keys (ServiceRegistry._services reg) ->
  let r1 := ServiceRegistry.cleanup_stale now max_age_hours reg fs in
  let r2 := ServiceRegistry.cleanup_stale now max_age_hours
              (registry_after r1) (files_after r1) in
  returned r2 = 0%Z
  /\ registry_after r2 = registry_after r1
  /\ files_after r2 = files_after r1
  /\ (returned r1 = 0%Z -> registry_after r1 = reg /\ files_after r1 = fs).
Proof.
  intros Hnd r1 r2.
  assert (ServiceRegistry.stale_ids now max_age_hours (registry_after r1) = [])
    as Hnone.
  { unfold ServiceRegistry.stale_ids. subst r1.
    rewrite (cleanup_stale_services E now max_age_hours reg fs Hnd).
    now rewrite (filter_filter_negb
                   (fun e => ServiceRegistry.is_stale now max_age_hours (snd e))). }
  assert (forall self fs0,
             ServiceRegistry.stale_ids now max_age_hours self = [] ->
             ServiceRegistry.cleanup_stale now max_age_hours self fs0
             = (0%Z, self, fs0)) as Hnoop.
  { intros self fs0 Hs. unfold ServiceRegistry.cleanup_stale. rewrite Hs.
    cbn [fold_left length Z.of_nat]. now destruct self. }
  split; [|split; [|split]].
  - subst r2. now rewrite (Hnoop _ _ Hnone).
  - subst r2. now rewrite (Hnoop _ _ Hnone).
  - subst r2. now rewrite (Hnoop _ _ Hnone).
  - intros H0. subst r1.
    assert (ServiceRegistry.stale_ids now max_age_hours reg = []) as Hs.
    { unfold ServiceRegistry.cleanup_stale, returned in H0. cbn [fst] in H0.
      destruct (ServiceRegistry.stale_ids now max_age_hours reg);
        [reflexivity | discriminate H0]. }
    now rewrite (Hnoop reg fs Hs).
Qed.

Lemma cleanup_stale_idempotent_witness :
  let E := keys_encoder ServiceInstance.t in
  let now := (100 * hours 24)%Z in
  let a := sample_service "A" ServiceStatus.STOPPED None (Some 0%Z) in
  let b := sample_service "B" ServiceStatus.RUNNING None None in
  let reg := ServiceRegistry.mk [("A", a); ("B", b)] None in
  let r1 := ServiceRegistry.cleanup_stale now 24 reg [] in
  returned (ServiceRegistry.cleanup_stale now 24 (registry_after r1)
                                          (files_after r1)) = 0%Z.
Proof.
  intros E now a b reg r1.
  apply (cleanup_stale_idempotent E now 24 reg []).
  repeat constructor; simpl; intuition discriminate.
Defined.

Lemma Dict_In_set_other {V : Type} (k k0 : string) (v v0 : V) (d : Dict.t V) :
  k <> k0 -> In (k, v) d -> In (k, v) (Dict.set k0 v0 d).
Proof.
  intros Hne. induction d as [|[k' v'] d IH]; simpl; [tauto|].
  intros [Heq|Hin].
  - injection Heq as -> ->.
    apply not_eq_sym, String.eqb_neq in Hne. rewrite Hne. now left.
  - destruct (String.eqb k0 k'); [now right | right; now apply IH].
Qed.

(** X18: after [update_status] for a registered id, the list of
    [get_running] holds a service with that id exactly when the target
    status is RUNNING, and every service with another id is in the list
    exactly when it was before. *)
Theorem update_status_and_get_running
    (E : JsonEncoder ServiceInstance.t) (now : datetime) (id : string)
    (st : ServiceStatus.t) (msg : option string)
    (reg : ServiceRegistry.t) (fs : filesystem) (s : ServiceInstance.t) :
  keyed_by_id reg ->
  service_of id reg = Some s ->
  let r := ServiceRegistry.update_status now id st msg reg fs in
  ((exists s', In s' (ServiceRegistry.get_running (registry_after r))
               /\ ServiceInstance.id s' = id)
   <-> st = ServiceStatus.RUNNING)
  /\ (forall s',
        ServiceInstance.id s' <> id ->
        In s' (ServiceRegistry.get_running (registry_after r))
        <-> In s' (ServiceRegistry.get_running reg)).
Proof.
  intros Hwf Hs r.
  pose proof (update_status_keyed_by_id now id st msg reg fs Hwf) as Hwf'.
  fold r in Hwf'. unfold service_of in Hs.
  pose proof (update_status_lookup now id st msg reg fs s Hs) as Hnew.
  fold r in Hnew. change (snd (fst r)) with (registry_after r) in Hnew.
  assert (ServiceRegistry._services (registry_after r)
          = Dict.set id (ServiceRegistry.apply_status now st msg s)
                     (ServiceRegistry._services reg)) as Hd.
  { subst r. now rewrite (update_status_found now id st msg reg fs s Hs). }
  unfold ServiceRegistry.get_running. split.
  - split.
    + intros (s' & Hin & Hid). apply filter_In in Hin as [Hin Hrun].
      apply Dict_values_In in Hin as [k Hin].
      assert (k = id) as -> by (rewrite <- Hid; symmetry; now apply (proj2 Hwf')).
      apply (Dict_In_get _ _ _ _ (proj1 Hwf')) in Hin.
      rewrite Hnew in Hin. injection Hin as <-.
      unfold ServiceInstance.is_running in Hrun.
      rewrite apply_status_status in Hrun. now destruct st.
    + intros ->. exists (ServiceRegistry.apply_status now ServiceStatus.RUNNING msg s).
      split.
      * apply filter_In. split.
        -- apply Dict_values_In. exists id. now apply Dict_get_In.
        -- unfold ServiceInstance.is_running. now rewrite apply_status_status.
      * rewrite apply_status_id. apply (proj2 Hwf). now apply Dict_get_In.
  - intros s' Hid. rewrite !filter_In, !Dict_values_In, Hd. split.
    + intros [[k Hin] Hrun]. split; [|assumption].
      apply Dict_In_set in Hin as [Heq|Hin]; [|now exists k].
      injection Heq as -> ->. exfalso. apply Hid. rewrite apply_status_id.
      apply (proj2 Hwf). now apply Dict_get_In.
    + intros [[k Hin] Hrun]. split; [|assumption]. exists k.
      apply Dict_In_set_other; [|assumption].
      rewrite <- (proj2 Hwf k s' Hin). exact Hid.
Qed.

Lemma update_status_and_get_running_witness :
  let E := keys_encoder ServiceInstance.t in
  let s := sample_service "svc" ServiceStatus.PENDING (Some "4242") None in
  let reg := ServiceRegistry.mk [("svc", s)] None in
  let r := ServiceRegistry.update_status 5%Z "svc" ServiceStatus.RUNNING None
                                         reg [] in
  exists s', In s' (ServiceRegistry.get_running (registry_after r))
             /\ ServiceInstance.id s' = "svc".
Proof.
  intros E s reg r.
  assert (keyed_by_id reg) as Hwf.
  { split.
    - repeat constructor; simpl; intuition discriminate.
    - intros k s' [[= <- <-]|[]]; reflexivity. }
  apply (proj1 (update_status_and_get_running E 5%Z "svc" ServiceStatus.RUNNING
                  None reg [] s Hwf eq_refl)).
  reflexivity.
Defined.

(** ** The server manager of servers/manager.py *)

Lemma fold_endpoints_lookup (node name : string) (ports : list PortSpec.t)
    (acc : Dict.t string) :
  Dict.get name
    (fold_left
       (fun endpoints port_spec =>
          Dict.set (PortSpec.name port_spec)
                   (ServerManager.endpoint_url node (PortSpec.port port_spec))
                   endpoints)
       ports acc)
  = match last_port_named name ports with
    | Some z => Some (ServerManager.endpoint_url node z)
    | None => Dict.get name acc
    end.
Proof.
  revert acc. induction ports as [|p rest IH]; intros acc; [reflexivity|].
  cbn [fold_left last_port_named]. rewrite IH.
  destruct (last_port_named name rest); [reflexivity|].
  destruct (String.eqb (PortSpec.name p) name) eqn:Hn.
  - apply String.eqb_eq in Hn. subst name. apply Dict_get_set_eq.
  - apply String.eqb_neq in Hn. now apply Dict_get_set_ne.
Qed.

(** X19: the endpoints that [_wait_for_ready] builds map every declared
    port name to [http://node:port] of the last port with that name; the
    name "api" maps to the primary port (the first declared port, 8000
    without one) unless a declared port is itself named "api"; no other
    name has an endpoint. *)
Theorem build_endpoints_lookup (node name : string) (recipe : ServerRecipe.t) :
  Dict.get name (ServerManager.build_endpoints node recipe)
  = match last_port_named name (ServerRecipe.network_ports recipe) with
    | Some z => Some (ServerManager.endpoint_url node z)
    | None =>
        if String.eqb name "api"
        then Some (ServerManager.endpoint_url node
                     (ServerManager.primary_port_or_default recipe))
        else None
    end.
Proof.
  unfold ServerManager.build_endpoints. rewrite fold_endpoints_lookup.
  destruct (last_port_named name _); [reflexivity|].
  cbn [Dict.get]. now destruct (String.eqb name "api").
Qed.

Section WaitForReady.
Context {E : JsonEncoder ServiceInstance.t}.

Lemma wait_skips_waiting service timeout skipped polls deadline reg fs :
  forallb still_waiting skipped = true ->
  ServerManager._wait_for_ready service timeout (skipped ++ polls)%list
                                deadline reg fs
  = ServerManager._wait_for_ready service timeout polls deadline reg fs.
Proof.
  induction skipped as [|p skipped IH]; [reflexivity|].
  cbn [forallb]. intros H. apply andb_true_iff in H as [Hp Hs].
  cbn [app ServerManager._wait_for_ready]. unfold still_waiting in Hp.
  destruct (ServerManager.job_status p); try discriminate;
    try (now apply IH).
  unfold Slurm.truthy_opt in Hp.
  destruct (ServerManager.job_node p) as [node|]; [|now apply IH].
  apply negb_true_iff in Hp. rewrite Hp. now apply IH.
Qed.

Lemma fail_start_result service now msg reg fs :
  service_of (ServiceInstance.id service) reg = Some service ->
  Py.truthy msg = true ->
  let r := ServerManager.fail_start service now msg reg fs in
  returned r
  = inl (ServiceStartError (ServiceInstance.recipe_name service) msg)
  /\ (exists s',
         service_of (ServiceInstance.id service) (registry_after r) = Some s'
         /\ ServiceInstance.status s' = ServiceStatus.ERROR
         /\ ServiceInstance.error_message s' = Some msg
         /\ ServiceInstance.stopped_at s' = Some now)
  /\ forall other,
       other <> ServiceInstance.id service ->
       service_of other (registry_after r) = service_of other reg.
Proof.
  intros Hs Hmsg r. subst r. unfold service_of in *.
  unfold ServerManager.fail_start.
  rewrite (update_status_found now (ServiceInstance.id service)
             ServiceStatus.ERROR (Some msg) reg fs service Hs).
  unfold returned, registry_after.
  cbn [fst snd ServiceRegistry._services ServiceRegistry.with_services].
  split; [reflexivity|]. split.
  - eexists. split; [apply Dict_get_set_eq|].
    unfold ServiceRegistry.apply_status, truthy_message. rewrite Hmsg.
    destruct service as [? ? ? ? ? ? ? ? started ? ?].
    destruct started; repeat split.
  - intros other Hne. now rewrite Dict_get_set_ne by congruence.
Qed.

Lemma mark_ready_result service node p reg fs :
  service_of (ServiceInstance.id service) reg = Some service ->
  let r := ServerManager.mark_ready service node p reg fs in
  (exists s',
      service_of (ServiceInstance.id service) (fst r) = Some s'
      /\ ServiceInstance.status s' = ServiceStatus.RUNNING
      /\ ServiceInstance.node s' = Some node
      /\ ServiceInstance.endpoints s'
         = ServerManager.build_endpoints node (ServiceInstance.recipe service)
      /\ ServiceInstance.started_at s' = Some (ServerManager.marked_at p))
  /\ forall other,
       other <> ServiceInstance.id service ->
       service_of other (fst r) = service_of other reg.
Proof.
  intros Hs r. subst r. unfold service_of in *.
  unfold ServerManager.mark_ready, ServerManager.assign,
    ServiceRegistry.update_node, ServiceRegistry.update_endpoints,
    ServiceRegistry.update_status.
  rewrite Hs.
  repeat (progress (cbn [fst snd ServiceRegistry._services
                         ServiceRegistry.with_services];
                    rewrite ?Dict_get_set_eq)).
  split.
  - eexists. split; [reflexivity|]. repeat split.
  - intros other Hne. now rewrite !Dict_get_set_ne by congruence.
Qed.

End WaitForReady.

(** X20: [_wait_for_ready], for a service that the registry holds under
    its id, passes over the turns in which the job is still waiting and
    ends at the first other turn.  When that turn shows the job running on
    a node, it returns True and the stored service is RUNNING on that node
    with the endpoints built for it and [started_at] at the time of the
    assignment.  When it shows the job failed or completed, or when the
    turns run out, it raises [ServiceStartError] with the reason and the
    stored service is in ERROR with that reason as its error message and
    [stopped_at] stamped.  In each of these outcomes the services under
    other ids are as they were, and False is never returned. *)
Theorem wait_for_ready_outcome
    (E : JsonEncoder ServiceInstance.t) (service : ServiceInstance.t)
    (timeout : Z) (skipped rest : list ServerManager.poll) (deadline : datetime)
    (reg : ServiceRegistry.t) (fs : filesystem) :
  service_of (ServiceInstance.id service) reg = Some service ->
  forallb still_waiting skipped = true ->
  (forall p node,
      ServerManager.job_status p = ServiceStatus.RUNNING ->
      ServerManager.job_node p = Some node -> node <> EmptyString ->
      let r := ServerManager._wait_for_ready service timeout
                 (skipped ++ p :: rest)%list deadline reg fs in
      returned r = inr true
      /\ (exists s',
             service_of (ServiceInstance.id service) (registry_after r) = Some s'
             /\ ServiceInstance.status s' = ServiceStatus.RUNNING
             /\ ServiceInstance.node s' = Some node
             /\ ServiceInstance.endpoints s'
                = ServerManager.build_endpoints node
                    (ServiceInstance.recipe service)
             /\ ServiceInstance.started_at s'
                = Some (ServerManager.marked_at p))
      /\ forall other,
           other <> ServiceInstance.id service ->
           service_of other (registry_after r) = service_of other reg)
  /\ (forall p msg,
        (ServerManager.job_status p = ServiceStatus.ERROR
         /\ msg = "SLURM job failed")
        \/ (ServerManager.job_status p = ServiceStatus.STOPPED
            /\ msg = "SLURM job completed unexpectedly") ->
        let r := ServerManager._wait_for_ready service timeout
                   (skipped ++ p :: rest)%list deadline reg fs in
        returned r
        = inl (ServiceStartError (ServiceInstance.recipe_name service) msg)
        /\ (exists s',
               service_of (ServiceInstance.id service) (registry_after r)
               = Some s'
               /\ ServiceInstance.status s' = ServiceStatus.ERROR
               /\ ServiceInstance.error_message s' = Some msg
               /\ ServiceInstance.stopped_at s'
                  = Some (ServerManager.seen_at p))
        /\ forall other,
             other <> ServiceInstance.id service ->
             service_of other (registry_after r) = service_of other reg)
  /\ (let r := ServerManager._wait_for_ready service timeout skipped deadline
                 reg fs in
      let msg := "Service did not become ready within " ++ Py.str_int timeout
                   ++ " seconds" in
      returned r
      = inl (ServiceStartError (ServiceInstance.recipe_name service) msg)
      /\ (exists s',
             service_of (ServiceInstance.id service) (registry_after r)
             = Some s'
             /\ ServiceInstance.status s' = ServiceStatus.ERROR
             /\ ServiceInstance.error_message s' = Some msg
             /\ ServiceInstance.stopped_at s' = Some deadline)
      /\ forall other,
           other <> ServiceInstance.id service ->
           service_of other (registry_after r) = service_of other reg)
  /\ (forall polls,
        returned (ServerManager._wait_for_ready service timeout polls deadline
                                                reg fs) <> inr false).
Proof.
  intros Hs Hskip. split; [|split; [|split]].
  - intros p node Hst Hnode Hne r. subst r.
    rewrite (wait_skips_waiting service timeout skipped (p :: rest) deadline
               reg fs Hskip).
    cbn [ServerManager._wait_for_ready]. rewrite Hst, Hnode.
    assert (Py.truthy node = true) as ->
      by (destruct node; [congruence | reflexivity]).
    destruct (mark_ready_result service node p reg fs Hs) as [Hnew Hother].
    unfold returned, registry_after.
    destruct (ServerManager.mark_ready service node p reg fs) as [reg' fs'].
    cbn [fst snd] in *. split; [reflexivity|]. split; assumption.
  - intros p msg Hcase r. subst r.
    rewrite (wait_skips_waiting service timeout skipped (p :: rest) deadline
               reg fs Hskip).
    cbn [ServerManager._wait_for_ready].
    destruct Hcase as [[-> ->]|[-> ->]].
    + exact (fail_start_result service (ServerManager.seen_at p)
               "SLURM job failed" reg fs Hs eq_refl).
    + exact (fail_start_result service (ServerManager.seen_at p)
               "SLURM job completed unexpectedly" reg fs Hs eq_refl).
  - intros r msg. subst r.
    rewrite <- (app_nil_r skipped).
    rewrite (wait_skips_waiting service timeout skipped [] deadline reg fs
               Hskip).
    cbn [ServerManager._wait_for_ready].
    exact (fail_start_result service deadline msg reg fs Hs eq_refl).
  - intros polls. revert reg fs Hs. clear Hskip.
    induction polls as [|p polls IH]; intros reg fs Hs;
      cbn [ServerManager._wait_for_ready].
    + unfold ServerManager.fail_start, returned.
      destruct (ServiceRegistry.update_status _ _ _ _ _ _) as [[b reg'] fs'].
      discriminate.
    + assert (forall now msg,
                 returned (ServerManager.fail_start service now msg reg fs)
                 <> inr false) as Hgive.
      { intros now msg. unfold ServerManager.fail_start, returned.
        destruct (ServiceRegistry.update_status _ _ _ _ _ _) as [[b reg'] fs'].
        discriminate. }
      destruct (ServerManager.job_status p); try (now apply IH);
        try apply Hgive.
      destruct (ServerManager.job_node p) as [node|]; [|now apply IH].
      destruct (Py.truthy node); [|now apply IH].
      unfold returned.
      destruct (ServerManager.mark_ready service node p reg fs) as [reg' fs'].
      discriminate.
Qed.

Lemma wait_for_ready_outcome_witness :
  let E := keys_encoder ServiceInstance.t in
  let recipe := ServerRecipe.mk "vllm" [PortSpec.mk "api" 8000 "http"] in
  let service :=
    ServiceInstance.mk "svc" "vllm" recipe ServiceStatus.STARTING
                       (Some "12345678") None Dict.empty 0%Z None None None in
  let reg := ServiceRegistry.mk [("svc", service)] None in
  let pending := ServerManager.mkPoll ServiceStatus.PENDING None 5%Z 5%Z in
  let running :=
    ServerManager.mkPoll ServiceStatus.RUNNING (Some "mel2091") 10%Z 11%Z in
  let r := ServerManager._wait_for_ready service 300 [pending; running] 300%Z
                                         reg [] in
  returned r = inr true
  /\ exists s',
       service_of "svc" (registry_after r) = Some s'
       /\ ServiceInstance.status s' = ServiceStatus.RUNNING
       /\ ServiceInstance.node s' = Some "mel2091"
       /\ Dict.get "api" (ServiceInstance.endpoints s')
          = Some "http://mel2091:8000".
Proof.
  intros E recipe service reg pending running r.
  destruct (proj1 (wait_for_ready_outcome E service 300 [pending] [] 300%Z
                     reg [] eq_refl eq_refl)
                  running "mel2091" eq_refl eq_refl)
    as (Hret & (s' & Hs' & Hst & Hnode & Hend & _) & _);
    [discriminate|].
  split; [exact Hret|]. exists s'.
  split; [exact Hs'|]. split; [exact Hst|]. split; [exact Hnode|].
  rewrite Hend. reflexivity.
Defined.

(** X21: when the cancellation of the job fails and [force] is not set,
    [stop_service] raises [ServiceStopError] for the service, with the
    message of the inner error as its reason, and the service stays in
    STOPPING: it is neither stopped nor marked as failed, and its
    [stopped_at] is left as it was. *)
Theorem stop_service_cancel_failure
    (E : JsonEncoder ServiceInstance.t) (orchestrator : Orchestrator)
    (now : datetime) (arg job : string)
    (reg : ServiceRegistry.t) (fs : filesystem) (s : ServiceInstance.t) :
  keyed_by_id reg ->
  resolves_to arg reg s ->
  ServiceStatus.in_stopped_error (ServiceInstance.status s) = false ->
  ServerManager.job_of s = Some job ->
  cancel_job orchestrator job = false ->
  let r := ServerManager.stop_service orchestrator now arg false reg fs in
  returned r
  = Raise (ServiceStopError (ServiceInstance.id s)
             ("Failed to stop service '" ++ ServiceInstance.id s
                ++ "': Failed to cancel SLURM job"))
  /\ exists s',
       service_of (ServiceInstance.id s) (registry_after r) = Some s'
       /\ ServiceInstance.status s' = ServiceStatus.STOPPING
       /\ ServiceInstance.stopped_at s' = ServiceInstance.stopped_at s.
Proof.
  intros Hwf Hres Hterm Hjob Hcancel r.
  apply lookup_resolves in Hres as [k Hl].
  destruct (lookup_by_own_id arg k reg s Hwf Hl) as [-> _].
  pose proof (lookup_entry arg _ reg s (proj1 Hwf) Hl) as Hget.
  subst r. unfold ServerManager.stop_service. rewrite Hl, Hterm.
  rewrite (update_status_found now (ServiceInstance.id s) ServiceStatus.STOPPING
             None reg fs s Hget).
  rewrite Hjob, Hcancel. cbn [negb andb].
  unfold returned, registry_after, service_of.
  cbn [fst snd str_exn ServiceRegistry._services ServiceRegistry.with_services].
  split; [reflexivity|]. eexists. split; [apply Dict_get_set_eq|].
  split; [apply apply_status_status | apply apply_status_stopped_at].
Qed.

Lemma stop_service_cancel_failure_witness :
  let E := keys_encoder ServiceInstance.t in
  let orchestrator :=
    mkOrchestrator (fun _ => ServiceStatus.RUNNING) (fun _ => Some "mel2091")
                   (fun _ => false) in
  let s := sample_service "svc" ServiceStatus.RUNNING (Some "4242") None in
  let reg := ServiceRegistry.mk [("svc", s)] None in
  let r := ServerManager.stop_service orchestrator 20%Z "svc" false reg [] in
  exists s',
    service_of "svc" (registry_after r) = Some s'
    /\ ServiceInstance.status s' = ServiceStatus.STOPPING.
Proof.
  intros E orchestrator s reg r.
  assert (keyed_by_id reg) as Hwf.
  { split.
    - repeat constructor; simpl; intuition discriminate.
    - intros k s' [[= <- <-]|[]]; reflexivity. }
  destruct (stop_service_cancel_failure E orchestrator 20%Z "svc" "4242" reg []
              s Hwf (or_introl eq_refl) eq_refl eq_refl eq_refl)
    as (_ & s' & Hs' & Hst & _).
  exists s'. split; assumption.
Defined.

Lemma stop_service_stops_witness :
  let E := keys_encoder ServiceInstance.t in
  let orchestrator :=
    mkOrchestrator (fun _ => ServiceStatus.RUNNING) (fun _ => Some "mel2091")
                   (fun _ => false) in
  let s := sample_service "svc" ServiceStatus.RUNNING (Some "4242") None in
  let reg := ServiceRegistry.mk [("svc", s)] None in
  let r := ServerManager.stop_service orchestrator 20%Z "4242" true reg [] in
  returned r = Ok true
  /\ exists s',
       service_of "svc" (registry_after r) = Some s'
       /\ ServiceInstance.status s' = ServiceStatus.STOPPED
       /\ ServiceInstance.stopped_at s' = Some 20%Z.
Proof.
  intros E orchestrator s reg r.
  assert (keyed_by_id reg) as Hwf.
  { split.
    - repeat constructor; simpl; intuition discriminate.
    - intros k s' [[= <- <-]|[]]; reflexivity. }
  apply (stop_service_stops E orchestrator 20%Z "4242" true reg [] s Hwf).
  - right. split; reflexivity.
  - reflexivity.
  - right. reflexivity.
Defined.

Lemma get_service_status_reconciles_witness :
  let E := keys_encoder ServiceInstance.t in
  let orchestrator :=
    mkOrchestrator (fun _ => ServiceStatus.RUNNING) (fun _ => Some "mel2091")
                   (fun _ => true) in
  let s := sample_service "svc" ServiceStatus.PENDING (Some "4242") None in
  let reg := ServiceRegistry.mk [("svc", s)] None in
  let r := ServerManager.get_service_status orchestrator 20%Z "svc" reg [] in
  exists s',
    returned r = Ok s'
    /\ service_of "svc" (registry_after r) = Some s'
    /\ ServiceInstance.status s' = ServiceStatus.RUNNING.
Proof.
  intros E orchestrator s reg r.
  assert (keyed_by_id reg) as Hwf.
  { split.
    - repeat constructor; simpl; intuition discriminate.
    - intros k s' [[= <- <-]|[]]; reflexivity. }
  apply (get_service_status_reconciles E orchestrator 20%Z "svc" "4242" reg []
           s Hwf (or_introl eq_refl) eq_refl eq_refl).
Defined.

(** ** The client manager of clients/manager.py *)

Section ClientRuns.
Context {E : JsonEncoder ClientRun.t}.

Lemma run_update_status_found now id st msg self fs r :
  Dict.get id (RunRegistry._runs self) = Some r ->
  RunRegistry.update_status now id st msg self fs
  = (true,
     RunRegistry.with_runs
       (Dict.set id (RunRegistry.apply_status now st msg r)
                 (RunRegistry._runs self)) self,
     RunRegistry._persist_state
       (RunRegistry.with_runs
          (Dict.set id (RunRegistry.apply_status now st msg r)
                    (RunRegistry._runs self)) self) fs).
Proof.
  intros H. unfold RunRegistry.update_status. now rewrite H.
Qed.

Lemma set_run_status_result now id st reg fs r :
  Dict.get id (RunRegistry._runs reg) = Some r ->
  ClientRun.id r = id ->
  let reg' := fst (ClientManager.set_run_status now id r st reg fs) in
  Dict.get id (RunRegistry._runs reg')
  = Some (RunRegistry.apply_status now st None r)
  /\ forall other, other <> id ->
       Dict.get other (RunRegistry._runs reg')
       = Dict.get other (RunRegistry._runs reg).
Proof.
  intros H Hid reg'. subst reg'. unfold ClientManager.set_run_status.
  rewrite Hid, (run_update_status_found now id st None reg fs r H).
  unfold ClientManager.assign.
  cbn [fst snd RunRegistry._runs RunRegistry.with_runs].
  rewrite Dict_get_set_eq.
  cbn [fst snd RunRegistry._runs RunRegistry.with_runs].
  split.
  - rewrite Dict_get_set_eq. f_equal.
    pose proof (run_apply_status_status now st None r) as Hst.
    destruct (RunRegistry.apply_status now st None r). simpl in *.
    now subst.
  - intros other Hne. rewrite !Dict_get_set_ne by congruence. reflexivity.
Qed.

End ClientRuns.

(** X24: [stop_run] for a run that the registry holds under its id.  A
    run that is not active is left as it is, and True is returned.  For an
    active run the answer of the cancellation of its job is not looked at:
    whether the cancellation says True or False, or the run has no job,
    the run becomes CANCELED with [completed_at] at the time of the call
    and its [started_at] kept, the file is written from the new registry,
    no other run changes, and True is returned.  When the cancellation
    lets an exception through, [stop_run] fails with that exception and
    the run, the registry and the files stay as they were. *)
Theorem stop_run_cancels
    (E : JsonEncoder ClientRun.t) (cancel_job : string -> result bool)
    (now : datetime) (run_id : string)
    (reg : RunRegistry.t) (fs : filesystem) (run : ClientRun.t) :
  run_of run_id reg = Some run ->
  ClientRun.id run = run_id ->
  let r := ClientManager.stop_run cancel_job now run_id reg fs in
  (ClientRun.is_active run = false -> r = (Ok true, reg, fs))
  /\ (ClientRun.is_active run = true ->
      (ClientManager.job_of run = None
       \/ exists job answer,
            ClientManager.job_of run = Some job
            /\ cancel_job job = Ok answer) ->
      returned r = Ok true
      /\ (exists run',
             run_of run_id (registry_after r) = Some run'
             /\ ClientRun.status run' = RunStatus.CANCELED
             /\ ClientRun.completed_at run' = Some now
             /\ ClientRun.started_at run' = ClientRun.started_at run)
      /\ (forall other, other <> run_id ->
            run_of other (registry_after r) = run_of other reg)
      /\ files_after r = RunRegistry._persist_state (registry_after r) fs)
  /\ (forall job e,
        ClientRun.is_active run = true ->
        ClientManager.job_of run = Some job ->
        cancel_job job = Raise e ->
        r = (Raise e, reg, fs)).
Proof.
  intros Hrun Hid r. subst r. unfold run_of in *.
  unfold ClientManager.stop_run, RunRegistry.get. rewrite Hrun.
  split; [|split].
  - intros ->. reflexivity.
  - intros -> Hcancel. cbn [negb].
    assert (exists answer,
               match ClientManager.job_of run with
               | Some job => cancel_job job
               | None => Ok true
               end = Ok answer) as [answer ->].
    { destruct Hcancel as [-> | (job & answer & -> & ->)]; eauto. }
    rewrite Hid,
      (run_update_status_found now run_id RunStatus.CANCELED None reg fs run
                               Hrun).
    unfold returned, registry_after, files_after.
    cbn [fst snd RunRegistry._runs RunRegistry.with_runs].
    split; [reflexivity|]. split; [|split; [|reflexivity]].
    + eexists. split; [apply Dict_get_set_eq|].
      split; [apply run_apply_status_status|].
      split; [now rewrite run_apply_status_completed_at
             | now rewrite run_apply_status_started_at].
    + intros other Hne. now rewrite Dict_get_set_ne by congruence.
  - intros job e -> -> ->. reflexivity.
Qed.

Lemma stop_run_cancels_witness :
  let E := keys_encoder ClientRun.t in
  let run := sample_run "run1" RunStatus.QUEUED (Some "77") None in
  let reg := RunRegistry.mk [("run1", run)] None in
  let r := ClientManager.stop_run (fun _ => Ok false) 30%Z "run1" reg [] in
  (returned r = Ok true
   /\ exists run',
        run_of "run1" (registry_after r) = Some run'
        /\ ClientRun.status run' = RunStatus.CANCELED
        /\ ClientRun.completed_at run' = Some 30%Z
        /\ ClientRun.started_at run' = None)
  /\ ClientManager.stop_run (fun _ => Raise OSError) 30%Z "run1" reg []
     = (Raise OSError, reg, []).
Proof.
  intros E run reg r. split.
  - destruct (stop_run_cancels E (fun _ => Ok false) 30%Z "run1" reg [] run
                eq_refl eq_refl) as (_ & Hact & _).
    destruct (Hact eq_refl (or_intror (ex_intro _ "77"
                (ex_intro _ false (conj eq_refl eq_refl)))))
      as (Hret & Hrun & _).
    split; [exact Hret | exact Hrun].
  - exact (proj2 (proj2 (stop_run_cancels E (fun _ => Raise OSError) 30%Z
                           "run1" reg [] run eq_refl eq_refl))
                 "77" OSError eq_refl eq_refl eq_refl).
Defined.

(** X25: [get_run_status] for an active run with a job, held under its
    id, returns the run as the registry holds it afterwards and changes
    no other run.  When the job runs, the run is RUNNING and its
    [started_at] is stamped if it was not; when the job failed, the run is
    FAILED; when the job is over and the run has a results directory, the
    run is COMPLETED if the directory holds [benchmark_results.json] and
    FAILED otherwise; in the last two cases [completed_at] is the time of
    the call.  When the job is over and the run has no results directory,
    and for every other status of the job, nothing changes: the run stays
    active. *)
Theorem get_run_status_reconciles
    (E : JsonEncoder ClientRun.t) (orchestrator : Orchestrator)
    (now : datetime) (run_id job : string)
    (reg : RunRegistry.t) (fs : filesystem) (run : ClientRun.t) :
  run_of run_id reg = Some run ->
  ClientRun.id run = run_id ->
  ClientRun.is_active run = true ->
  ClientManager.job_of run = Some job ->
  let r := ClientManager.get_run_status orchestrator now run_id reg fs in
  exists run',
    returned r = Ok run'
    /\ run_of run_id (registry_after r) = Some run'
    /\ (forall other, other <> run_id ->
          run_of other (registry_after r) = run_of other reg)
    /\ match get_job_status orchestrator job with
       | ServiceStatus.RUNNING =>
           ClientRun.status run' = RunStatus.RUNNING
           /\ ClientRun.started_at run'
              = match ClientRun.started_at run with
                | Some t => Some t
                | None => Some now
                end
           /\ ClientRun.completed_at run' = ClientRun.completed_at run
       | ServiceStatus.ERROR =>
           ClientRun.status run' = RunStatus.FAILED
           /\ ClientRun.completed_at run' = Some now
       | ServiceStatus.STOPPED =>
           match ClientRun.results_path run with
           | Some results_path =>
               if Py.truthy results_path
               then ClientRun.status run'
                    = (if Dict.contains
                            (ClientManager.results_file results_path) fs
                       then RunStatus.COMPLETED else RunStatus.FAILED)
                    /\ ClientRun.completed_at run' = Some now
               else r = (Ok run, reg, fs)
           | None => r = (Ok run, reg, fs)
           end
       | _ => r = (Ok run, reg, fs)
       end.
Proof.
  intros Hrun Hid Hact Hjob r. subst r. unfold run_of in *.
  unfold ClientManager.get_run_status, RunRegistry.get.
  rewrite Hrun, Hjob, Hact.
  assert (forall st,
    let p := ClientManager.set_run_status now run_id run st reg fs in
    exists run',
      returned (Ok match Dict.get run_id (RunRegistry._runs (fst p)) with
                   | Some current => current
                   | None => run
                   end, fst p, snd p) = Ok run'
      /\ Dict.get run_id (RunRegistry._runs (fst p)) = Some run'
      /\ (forall other, other <> run_id ->
            Dict.get other (RunRegistry._runs (fst p))
            = Dict.get other (RunRegistry._runs reg))
      /\ run' = RunRegistry.apply_status now st None run) as Hset.
  { intros st p.
    destruct (set_run_status_result now run_id st reg fs run Hrun Hid)
      as [Hg Ho].
    fold p in Hg, Ho. exists (RunRegistry.apply_status now st None run).
    unfold returned. cbn [fst snd]. rewrite Hg. auto. }
  assert (exists run',
    returned (Ok match Dict.get run_id (RunRegistry._runs reg) with
                 | Some current => current
                 | None => run
                 end, reg, fs) = Ok run'
    /\ Dict.get run_id (RunRegistry._runs reg) = Some run'
    /\ (forall other, other <> run_id ->
          Dict.get other (RunRegistry._runs reg)
          = Dict.get other (RunRegistry._runs reg))
    /\ (Ok match Dict.get run_id (RunRegistry._runs reg) with
           | Some current => current
           | None => run
           end, reg, fs) = (Ok run, reg, fs)) as Hsame.
  { exists run. rewrite Hrun. unfold returned. cbn [fst snd]. auto. }
  unfold registry_after.
  destruct (get_job_status orchestrator job) eqn:Hst.
  all: try (destruct Hsame as (run' & H1 & H2 & H3 & H4);
            exists run'; cbn [fst snd] in *; auto; fail).
  - (* RUNNING *)
    destruct (Hset RunStatus.RUNNING) as (run' & H1 & H2 & H3 & H4).
    destruct (ClientManager.set_run_status now run_id run RunStatus.RUNNING
                                           reg fs) as [reg' fs'].
    cbn [fst snd] in *. exists run'. repeat (split; [assumption|]).
    subst run'. rewrite run_apply_status_status, run_apply_status_started_at,
      run_apply_status_completed_at.
    cbn. destruct (ClientRun.started_at run); auto.
  - (* STOPPED *)
    destruct (ClientRun.results_path run) as [p|].
    2: { destruct Hsame as (run' & H1 & H2 & H3 & H4).
         exists run'; cbn [fst snd] in *; auto. }
    destruct (Py.truthy p).
    2: { destruct Hsame as (run' & H1 & H2 & H3 & H4).
         exists run'; cbn [fst snd] in *; auto. }
    destruct (Dict.contains (ClientManager.results_file p) fs).
    + destruct (Hset RunStatus.COMPLETED) as (run' & H1 & H2 & H3 & H4).
      destruct (ClientManager.set_run_status now run_id run
                  RunStatus.COMPLETED reg fs) as [reg' fs'].
      cbn [fst snd] in *. exists run'. repeat (split; [assumption|]).
      subst run'. now rewrite run_apply_status_status,
        run_apply_status_completed_at.
    + destruct (Hset RunStatus.FAILED) as (run' & H1 & H2 & H3 & H4).
      destruct (ClientManager.set_run_status now run_id run
                  RunStatus.FAILED reg fs) as [reg' fs'].
      cbn [fst snd] in *. exists run'. repeat (split; [assumption|]).
      subst run'. now rewrite run_apply_status_status,
        run_apply_status_completed_at.
  - (* ERROR *)
    destruct (Hset RunStatus.FAILED) as (run' & H1 & H2 & H3 & H4).
    destruct (ClientManager.set_run_status now run_id run
                RunStatus.FAILED reg fs) as [reg' fs'].
    cbn [fst snd] in *. exists run'. repeat (split; [assumption|]).
    subst run'. now rewrite run_apply_status_status,
      run_apply_status_completed_at.
Qed.

Lemma get_run_status_reconciles_witness :
  let E := keys_encoder ClientRun.t in
  let orchestrator :=
    mkOrchestrator (fun _ => ServiceStatus.STOPPED) (fun _ => None)
                   (fun _ => true) in
  let run := sample_run "run1" RunStatus.RUNNING (Some "77") (Some "out") in
  let reg := RunRegistry.mk [("run1", run)] None in
  let fs := [("out/benchmark_results.json", RegularFile "{}")] in
  let r := ClientManager.get_run_status orchestrator 30%Z "run1" reg fs in
  exists run',
    returned r = Ok run'
    /\ run_of "run1" (registry_after r) = Some run'
    /\ ClientRun.status run' = RunStatus.COMPLETED
    /\ ClientRun.completed_at run' = Some 30%Z.
Proof.
  intros E orchestrator run reg fs r.
  destruct (get_run_status_reconciles E orchestrator 30%Z "run1" "77" reg fs
              run eq_refl eq_refl eq_refl eq_refl)
    as (run' & Hret & Hget & _ & Hst & Hat).
  exists run'. repeat split; assumption.
Defined.

(** X26: a run that is not active, or that has no job, is out of the reach
    of [get_run_status]: the call returns the run and changes neither the
    registry nor the files, whatever the orchestrator reports; and for an
    id that the registry does not hold, [get_run_status] and [stop_run]
    raise [ClientNotFoundError] for that id and change nothing. *)
Theorem settled_run_is_left_alone
    (E : JsonEncoder ClientRun.t) (orchestrator : Orchestrator)
    (now : datetime) (run_id : string)
    (reg : RunRegistry.t) (fs : filesystem) :
  (forall run,
      run_of run_id reg = Some run ->
      ClientRun.is_active run = false \/ ClientManager.job_of run = None ->
      ClientManager.get_run_status orchestrator now run_id reg fs
      = (Ok run, reg, fs))
  /\ (run_of run_id reg = None ->
      ClientManager.get_run_status orchestrator now run_id reg fs
      = (Raise (ClientNotFoundError run_id), reg, fs)
      /\ forall cancel_job,
           ClientManager.stop_run cancel_job now run_id reg fs
           = (Raise (ClientNotFoundError run_id), reg, fs)).
Proof.
  unfold run_of. split.
  - intros run Hrun Hsettled.
    unfold ClientManager.get_run_status, RunRegistry.get. rewrite Hrun.
    destruct Hsettled as [Hact | Hjob].
    + rewrite Hact. destruct (ClientManager.job_of run); now rewrite Hrun.
    + rewrite Hjob. now rewrite Hrun.
  - intros Hnone.
    unfold ClientManager.get_run_status, ClientManager.stop_run,
      RunRegistry.get.
    now rewrite Hnone.
Qed.

Lemma settled_run_is_left_alone_witness :
  let E := keys_encoder ClientRun.t in
  let orchestrator :=
    mkOrchestrator (fun _ => ServiceStatus.RUNNING) (fun _ => None)
                   (fun _ => true) in
  let run := sample_run "run1" RunStatus.CANCELED (Some "77") (Some "out") in
  let reg := RunRegistry.mk [("run1", run)] None in
  ClientManager.get_run_status orchestrator 30%Z "run1" reg [] = (Ok run, reg, [])
  /\ ClientManager.stop_run (fun _ => Ok true) 30%Z "ghost" reg []
     = (Raise (ClientNotFoundError "ghost"), reg, []).
Proof.
  intros E orchestrator run reg. split.
  - exact (proj1 (settled_run_is_left_alone E orchestrator 30%Z "run1" reg [])
                 run eq_refl (or_introl eq_refl)).
  - exact (proj2 (proj2 (settled_run_is_left_alone E orchestrator 30%Z "ghost"
                           reg []) eq_refl) (fun _ => Ok true)).
Defined.

Lemma register_then_get_witness :
  let ES := keys_encoder ServiceInstance.t in
  let s := sample_service "svc" ServiceStatus.PENDING None None in
  let s2 := sample_service "svc2" ServiceStatus.RUNNING None None in
  let reg := ServiceRegistry.mk [("svc2", s2)] None in
  let r := ServiceRegistry.register s reg [] in
  ServiceRegistry.get "svc" (registry_after r) = Ok s
  /\ ServiceRegistry.get "svc2" (registry_after r) = Ok s2
  /\ length (ServiceRegistry.get_all (registry_after r)) = 2.
Proof.
  intros ES s s2 reg r.
  destruct (proj1 (register_then_get ES (keys_encoder ClientRun.t) []) s reg)
    as (_ & Hget & Hother & Hlen & _).
  split; [exact Hget|]. split; [|exact Hlen].
  fold r in Hother. rewrite (Hother "svc2"); [reflexivity|discriminate].
Defined.
